(** * GitHub MCP server: a shallow embedding of [github_mcp_server/server.py]

    The development follows the methods of [GitHubMCPServer]:
    [parse_github_url], [get_repository_metadata], [get_repository_readme],
    [get_repository_structure] with its two recursive builders
    [_build_structure_tree] and [_build_structure_tree_api],
    [get_repo_info], [analyze_repo_dependencies] and
    [_parse_dependency_file], then the tool wrappers
    [get_repo_structure_tool] and [get_repo_readme_tool] and the handlers
    [handle_list_resources], [handle_read_resource], [handle_list_tools]
    and [handle_call_tool].

    Conventions.
    - A Python [str] is a [string]; one [ascii] stands for one character.
    - A Python call that may raise returns a [result]; [try]/[except] is the
      combinator [try_except].
    - The remote service and the library calls ([urlparse], [json.loads],
      PyGithub objects, [requests.get]) are values of the record [World]:
      the program is a function of them.
    - [json.dumps] followed by [json.loads] is the identity on the values
      modelled here, so the functions return the value that the source
      serialises.
    - [await] is sequential composition: the source never runs two awaits
      at once. *)

From Stdlib Require Import Ascii.
From stdpp Require Import gmap strings list pretty.

Set Warnings "-register-all".
Local Open Scope Z_scope.

(** ** Python runtime: exceptions and results *)

Module Py.

(** The exception classes that the modelled calls can raise. *)
Inductive exn : Type :=
| ValueError (msg : string)
| GithubException (status : Z)
| UnknownObjectException
| HTTPError (status : Z)
| ConnectionError
| UnicodeDecodeError
| BinasciiError
| JSONDecodeError
| AttributeError
| KeyError (key : string)
| TypeError
| IndexError
| RecursionError.

(** [isinstance(e, GithubException)]: PyGithub derives
    [UnknownObjectException] (HTTP 404) from [GithubException]. *)
Definition is_GithubException (e : exn) : bool :=
  match e with
  | GithubException _ | UnknownObjectException => true
  | _ => false
  end.

(** [isinstance(e, Exception)]. *)
Definition is_Exception (e : exn) : bool := true.

Inductive result (A : Type) : Type :=
| Ok (a : A)
| Raised (e : exn).
Global Arguments Ok {A} a.
Global Arguments Raised {A} e.

Definition bind {A B} (m : result A) (k : A → result B) : result B :=
  match m with
  | Ok a => k a
  | Raised e => Raised e
  end.

(** [try: body  except cls as e: handler e]; an exception outside [cls]
    propagates. *)
Definition try_except {A} (body : result A) (cls : exn → bool)
    (handler : exn → result A) : result A :=
  match body with
  | Ok a => Ok a
  | Raised e => if cls e then handler e else Raised e
  end.

(** [for x in xs: ys.append(f x)], stopping at the first exception. *)
Fixpoint for_append {A B} (f : A → result B) (xs : list A) : result (list B) :=
  match xs with
  | [] => Ok []
  | x :: rest =>
      bind (f x) (λ y, bind (for_append f rest) (λ ys, Ok (y :: ys)))
  end.

(** [for x in xs: st = body x st], stopping at the first exception. *)
Fixpoint for_state {A S} (body : A → S → result S) (xs : list A) (st : S)
    : result S :=
  match xs with
  | [] => Ok st
  | x :: rest => bind (body x st) (for_state body rest)
  end.

End Py.
Export Py.

#[global] Instance result_ret : MRet result := @Ok.
#[global] Instance result_bind : MBind result := λ A B k m, Py.bind m k.
#[global] Instance result_fmap : FMap result := λ A B f m,
  match m with
  | Ok a => Ok (f a)
  | Raised e => Raised e
  end.

(** ** Python [str] methods *)

Module Str.

Definition len (s : string) : Z := Z.of_nat (String.length s).

(** [s[:n]] for [n ≥ 0]. *)
Fixpoint take (n : nat) (s : string) : string :=
  match n, s with
  | S n', String c r => String c (take n' r)
  | _, _ => ""
  end.

Definition slice_to (n : Z) (s : string) : string := take (Z.to_nat n) s.

(** [s.startswith(c)] for a one-character [c]. *)
Definition startswith (c : ascii) (s : string) : bool :=
  match s with
  | String d _ => bool_decide (d = c)
  | EmptyString => false
  end.

(** [c.isspace()] on the code points below 256. *)
Definition isspace (c : ascii) : bool :=
  let n := Z.of_nat (Ascii.nat_of_ascii c) in
  ((9 <=? n) && (n <=? 13)) || ((28 <=? n) && (n <=? 32))
  || (n =? 133) || (n =? 160).

Fixpoint lstrip_by (p : ascii → bool) (s : string) : string :=
  match s with
  | String c r => if p c then lstrip_by p r else s
  | EmptyString => ""
  end.

Fixpoint rstrip_by (p : ascii → bool) (s : string) : string :=
  match s with
  | String c r =>
      match rstrip_by p r with
      | EmptyString => if p c then "" else String c ""
      | r' => String c r'
      end
  | EmptyString => ""
  end.

Definition strip_by (p : ascii → bool) (s : string) : string :=
  rstrip_by p (lstrip_by p s).

(** [s.strip()] *)
Definition strip (s : string) : string := strip_by isspace s.

(** [s.strip(c)] for a one-character [c]. *)
Definition strip_char (c : ascii) (s : string) : string :=
  strip_by (λ d, bool_decide (d = c)) s.

(** [s.split(c)] for a one-character separator [c]. *)
Fixpoint split (c : ascii) (s : string) : list string :=
  match s with
  | EmptyString => [""]
  | String d r =>
      if bool_decide (d = c) then "" :: split c r
      else match split c r with
           | h :: t => String d h :: t
           | [] => [String d ""]
           end
  end.

(** [c in s] *)
Fixpoint contains (c : ascii) (s : string) : bool :=
  match s with
  | EmptyString => false
  | String d r => bool_decide (d = c) || contains c r
  end.

(** [s.count(c)] for a one-character [c]. *)
Fixpoint count (c : ascii) (s : string) : nat :=
  match s with
  | EmptyString => O
  | String d r => ((if bool_decide (d = c) then 1 else 0) + count c r)%nat
  end.

(** The truth value of a string: [bool(s)]. *)
Definition truthy (s : string) : bool := negb (bool_decide (s = "")).

End Str.

(** ** Data model *)

Definition bytes := list Byte.byte.

(** [datetime.datetime]; [dt_utcoffset] is the offset of an aware value in
    whole minutes, [None] for a naive one. *)
Record datetime := {
  dt_year : Z; dt_month : Z; dt_day : Z;
  dt_hour : Z; dt_minute : Z; dt_second : Z; dt_microsecond : Z;
  dt_utcoffset : option Z }.

(** [github.ContentFile.ContentFile] *)
Record ContentFile := {
  cf_name : string;
  cf_type : string;
  cf_path : string;
  cf_size : option Z;
  cf_decoded_content : bytes }.

(** What [Repository.get_contents] returns: a list for a directory, one
    object for a file. *)
Inductive Contents :=
| Listing (l : list ContentFile)
| Single (f : ContentFile).

Record License := { license_name : string }.

(** [github.Repository.Repository]: attributes and the methods the server
    calls. *)
Record Repository := {
  repo_name : string;
  repo_full_name : string;
  repo_description : option string;
  repo_language : option string;
  repo_stargazers_count : Z;
  repo_forks_count : Z;
  repo_open_issues_count : Z;
  repo_created_at : datetime;
  repo_updated_at : datetime;
  repo_size : Z;
  repo_default_branch : string;
  repo_get_topics : result (list string);
  repo_license : option License;
  repo_homepage : option string;
  repo_clone_url : string;
  repo_ssh_url : string;
  repo_get_contents : string → result Contents;
  repo_get_readme : result ContentFile }.

(** [github.Github] *)
Record Github := { get_repo : string → result Repository }.

(** The JSON documents of the REST surface, as [response.json()] gives
    them. A key that the service may leave out or set to [null] is an
    [option]. *)
Record RepoData := {
  d_name : string;
  d_full_name : string;
  d_description : option string;
  d_language : option string;
  d_stargazers_count : Z;
  d_forks_count : Z;
  d_open_issues_count : Z;
  d_created_at : string;
  d_updated_at : string;
  d_size : Z;
  d_default_branch : string;
  d_topics : option (list string);
  d_license : option License;
  d_homepage : option string;
  d_clone_url : string;
  d_ssh_url : string }.

(** One entry of a [contents] listing. *)
Record EntryData := {
  e_name : string;
  e_type : string;
  e_path : string;
  e_size : option Z }.

Inductive Body :=
| RepoBody (d : RepoData)
| ListingBody (l : list EntryData)
| FileBody (entry : EntryData) (content : string).

(** [requests.Response] *)
Record Response := {
  status_code : Z;
  json : result Body }.

(** [urllib.parse.ParseResult] *)
Record ParseResult := {
  pr_scheme : string;
  pr_netloc : string;
  pr_path : string;
  pr_params : string;
  pr_query : string;
  pr_fragment : string }.

(** The values [json.loads] produces. *)
Inductive JSON :=
| JNull
| JBool (b : bool)
| JInt (n : Z)
| JFloat (repr : string)
| JStr (s : string)
| JList (l : list JSON)
| JDict (m : list (string * JSON)).

(** Everything outside the program: the client built from [GITHUB_TOKEN]
    (absent when the variable is unset), the network and the library
    functions. *)
Record World := {
  github_client : option Github;
  requests_get : string → result Response;
  urlparse : string → result ParseResult;
  json_loads : string → result JSON;
  b64decode : string → result bytes;
  decode_utf8 : bytes → result string }.

(** The dictionaries that [get_repository_metadata] builds. *)
Record RepositoryMetadata := {
  meta_name : string;
  meta_full_name : string;
  meta_description : option string;
  meta_language : option string;
  meta_stars : Z;
  meta_forks : Z;
  meta_open_issues : Z;
  meta_created_at : string;
  meta_updated_at : string;
  meta_size : Z;
  meta_default_branch : string;
  meta_topics : list string;
  meta_license : option string;
  meta_homepage : option string;
  meta_clone_url : string;
  meta_ssh_url : string }.

(** The [item] dictionaries of the structure tree. [node_children = None]
    is a dictionary without the key ["children"]. *)
Inductive TreeNode := mkNode {
  node_name : string;
  node_type : string;
  node_path : string;
  node_size : option Z;
  node_children : option (list TreeNode) }.

(** [item["children"] = v] *)
Definition set_children (item : TreeNode) (v : list TreeNode) : TreeNode :=
  mkNode (node_name item) (node_type item) (node_path item) (node_size item)
         (Some v).

(** The dictionaries [_parse_dependency_file] returns, by their keys. *)
Inductive Summary :=
| PackageJson (dependencies devDependencies scripts : JSON)
| Requirements (requirements : list string)
| RawContent (content : string)
| ParseError (error : string).

(** The result of [get_repo_info]. *)
Record RepositoryInfo := {
  info_repository_url : string;
  info_metadata : RepositoryMetadata;
  info_readme_preview : string;
  info_structure_summary : list TreeNode }.

(** ** Library helpers used by the server *)

(** [l[i]] *)
Definition index {A} (l : list A) (i : nat) : result A :=
  match l !! i with
  | Some x => Ok x
  | None => Raised IndexError
  end.

(** [for content in contents] over what [get_contents] returned: a single
    [ContentFile] is not iterable. *)
Definition iter_contents (c : Contents) : result (list ContentFile) :=
  match c with
  | Listing l => Ok l
  | Single _ => Raised TypeError
  end.

(** [for content in contents] over a decoded body, with [content["name"]]
    as the first use of [content]: iterating a dictionary yields its keys,
    and a string cannot be indexed by a string. *)
Definition iter_body (b : Body) : result (list EntryData) :=
  match b with
  | ListingBody l => Ok l
  | RepoBody _ | FileBody _ _ => Raised TypeError
  end.

(** [data["content"]] *)
Definition body_content (b : Body) : result string :=
  match b with
  | FileBody _ c => Ok c
  | RepoBody _ => Raised (KeyError "content")
  | ListingBody _ => Raised TypeError
  end.

(** [data[...]] on the repository record. *)
Definition body_repo (b : Body) : result RepoData :=
  match b with
  | RepoBody d => Ok d
  | FileBody _ _ => Raised (KeyError "full_name")
  | ListingBody _ => Raised TypeError
  end.

(** [response.raise_for_status()] *)
Definition raise_for_status (r : Response) : result unit :=
  if (400 <=? status_code r) && (status_code r <? 600)
  then Raised (HTTPError (status_code r))
  else Ok ().

(** [data.get(key, default)]: only a dictionary has the method. *)
Fixpoint assoc (key : string) (m : list (string * JSON)) : option JSON :=
  match m with
  | [] => None
  | (k, v) :: rest => if bool_decide (k = key) then Some v else assoc key rest
  end.

Definition dict_get (data : JSON) (key : string) (dflt : JSON) : result JSON :=
  match data with
  | JDict m => Ok (default dflt (assoc key m))
  | _ => Raised AttributeError
  end.

(** ["%0wd" % n] for [0 ≤ n < 10^w]. *)
Definition digit (n : Z) : ascii := ascii_of_nat (48 + Z.to_nat (n `mod` 10)).

Fixpoint zfill (w : nat) (n : Z) : string :=
  match w with
  | O => ""
  | S w' => zfill w' (n / 10) +:+ String (digit n) ""
  end.

(** [datetime.isoformat()] with the default separator and [timespec]. *)
Definition format_offset (off : option Z) : string :=
  match off with
  | None => ""
  | Some m =>
      (if m <? 0 then "-" else "+")
      +:+ zfill 2 (Z.abs m / 60) +:+ ":" +:+ zfill 2 (Z.abs m `mod` 60)
  end.

Definition isoformat (dt : datetime) : string :=
  zfill 4 (dt_year dt) +:+ "-" +:+ zfill 2 (dt_month dt) +:+ "-"
  +:+ zfill 2 (dt_day dt) +:+ "T"
  +:+ zfill 2 (dt_hour dt) +:+ ":" +:+ zfill 2 (dt_minute dt) +:+ ":"
  +:+ zfill 2 (dt_second dt)
  +:+ (if negb (dt_microsecond dt =? 0)
       then "." +:+ zfill 6 (dt_microsecond dt) else "")
  +:+ format_offset (dt_utcoffset dt).

(** ** The server *)

(** [parse_github_url] *)
Definition parse_github_url (w : World) (repo_url : string)
    : result (string * string) :=
  parsed ← urlparse w repo_url;
  if bool_decide (pr_netloc parsed ≠ "github.com")
  then Raised (ValueError "Invalid GitHub URL")
  else
    let path_parts := Str.split "/" (Str.strip_char "/" (pr_path parsed)) in
    if (length path_parts <? 2)%nat
    then Raised (ValueError "Invalid GitHub repository URL format")
    else
      owner ← index path_parts 0;
      repo ← index path_parts 1;
      Ok (owner, repo).

(** [get_repository_metadata]; the handler logs and re-raises. *)
Definition get_repository_metadata (w : World) (owner repo : string)
    : result RepositoryMetadata :=
  try_except
    (match github_client w with
     | Some client =>
         repo_obj ← get_repo client (owner +:+ "/" +:+ repo);
         topics ← repo_get_topics repo_obj;
         Ok {| meta_name := repo_name repo_obj;
               meta_full_name := repo_full_name repo_obj;
               meta_description := repo_description repo_obj;
               meta_language := repo_language repo_obj;
               meta_stars := repo_stargazers_count repo_obj;
               meta_forks := repo_forks_count repo_obj;
               meta_open_issues := repo_open_issues_count repo_obj;
               meta_created_at := isoformat (repo_created_at repo_obj);
               meta_updated_at := isoformat (repo_updated_at repo_obj);
               meta_size := repo_size repo_obj;
               meta_default_branch := repo_default_branch repo_obj;
               meta_topics := topics;
               meta_license :=
                 match repo_license repo_obj with
                 | Some lic => Some (license_name lic)
                 | None => None
                 end;
               meta_homepage := repo_homepage repo_obj;
               meta_clone_url := repo_clone_url repo_obj;
               meta_ssh_url := repo_ssh_url repo_obj |}
     | None =>
         let url := "https://api.github.com/repos/" +:+ owner +:+ "/" +:+ repo in
         response ← requests_get w url;
         _ ← raise_for_status response;
         body ← json response;
         data ← body_repo body;
         Ok {| meta_name := d_name data;
               meta_full_name := d_full_name data;
               meta_description := d_description data;
               meta_language := d_language data;
               meta_stars := d_stargazers_count data;
               meta_forks := d_forks_count data;
               meta_open_issues := d_open_issues_count data;
               meta_created_at := d_created_at data;
               meta_updated_at := d_updated_at data;
               meta_size := d_size data;
               meta_default_branch := d_default_branch data;
               meta_topics := default [] (d_topics data);
               meta_license :=
                 match d_license data with
                 | Some lic => Some (license_name lic)
                 | None => None
                 end;
               meta_homepage := d_homepage data;
               meta_clone_url := d_clone_url data;
               meta_ssh_url := d_ssh_url data |}
     end)
    is_Exception (λ e, Raised e).

(** [get_repository_readme] *)
Definition get_repository_readme (w : World) (owner repo : string)
    : result string :=
  try_except
    (match github_client w with
     | Some client =>
         repo_obj ← get_repo client (owner +:+ "/" +:+ repo);
         readme ← repo_get_readme repo_obj;
         decode_utf8 w (cf_decoded_content readme)
     | None =>
         let url := "https://api.github.com/repos/" +:+ owner +:+ "/" +:+ repo
                    +:+ "/readme" in
         response ← requests_get w url;
         _ ← raise_for_status response;
         data ← json response;
         encoded ← body_content data;
         raw ← b64decode w encoded;
         decode_utf8 w raw
     end)
    is_Exception (λ e, Raised e).

(** [_build_structure_tree], with the recursive call as the parameter
    [self]: [_build_structure_tree_item] is the body of the loop and
    [_build_structure_tree_body] the body of the function. *)
Definition _build_structure_tree_item
    (self : Contents → Z → result (list TreeNode))
    (repo_obj : Repository) (max_depth current_depth : Z)
    (content : ContentFile) : result TreeNode :=
  let item :=
    {| node_name := cf_name content;
       node_type := cf_type content;
       node_path := cf_path content;
       node_size := if bool_decide (cf_type content = "file")
                    then cf_size content else None;
       node_children := None |} in
  if bool_decide (cf_type content = "dir")
     && (current_depth <? max_depth - 1)
  then
    try_except
      (sub_contents ← repo_get_contents repo_obj (cf_path content);
       children ← self sub_contents (current_depth + 1);
       Ok (set_children item children))
      is_Exception (λ e, Ok (set_children item []))
  else Ok item.

Definition _build_structure_tree_body
    (self : Contents → Z → result (list TreeNode))
    (contents : Contents) (repo_obj : Repository)
    (max_depth current_depth : Z) : result (list TreeNode) :=
  if current_depth >=? max_depth then Ok []
  else
    entries ← iter_contents contents;
    for_append
      (_build_structure_tree_item self repo_obj max_depth current_depth)
      entries.

(** The recursion of the source is on [max_depth - current_depth]; [fuel]
    carries that measure. [_build_structure_tree_eq] below shows that
    [_build_structure_tree] satisfies the recursive equation of the source
    for every argument. *)
Fixpoint _build_structure_tree_fuel (fuel : nat) (contents : Contents)
    (repo_obj : Repository) (max_depth current_depth : Z)
    : result (list TreeNode) :=
  _build_structure_tree_body
    (λ sub_contents depth,
       match fuel with
       | O => Raised RecursionError
       | S fuel' =>
           _build_structure_tree_fuel fuel' sub_contents repo_obj max_depth
             depth
       end)
    contents repo_obj max_depth current_depth.

Definition _build_structure_tree (contents : Contents)
    (repo_obj : Repository) (max_depth current_depth : Z)
    : result (list TreeNode) :=
  _build_structure_tree_fuel (Z.to_nat (max_depth - current_depth))
    contents repo_obj max_depth current_depth.

(** [_build_structure_tree_api], in the same form. *)
Definition _build_structure_tree_api_item
    (self : Body → Z → result (list TreeNode))
    (w : World) (owner repo : string) (max_depth current_depth : Z)
    (content : EntryData) : result TreeNode :=
  let item :=
    {| node_name := e_name content;
       node_type := e_type content;
       node_path := e_path content;
       node_size := if bool_decide (e_type content = "file")
                    then e_size content else None;
       node_children := None |} in
  if bool_decide (e_type content = "dir")
     && (current_depth <? max_depth - 1)
  then
    try_except
      (let url := "https://api.github.com/repos/" +:+ owner +:+ "/"
                  +:+ repo +:+ "/contents/" +:+ e_path content in
       response ← requests_get w url;
       if status_code response =? 200
       then
         sub_contents ← json response;
         children ← self sub_contents (current_depth + 1);
         Ok (set_children item children)
       else Ok (set_children item []))
      is_Exception (λ e, Ok (set_children item []))
  else Ok item.

Definition _build_structure_tree_api_body
    (self : Body → Z → result (list TreeNode))
    (w : World) (contents : Body) (owner repo : string)
    (max_depth current_depth : Z) : result (list TreeNode) :=
  if current_depth >=? max_depth then Ok []
  else
    entries ← iter_body contents;
    for_append
      (_build_structure_tree_api_item self w owner repo max_depth
         current_depth)
      entries.

Fixpoint _build_structure_tree_api_fuel (fuel : nat) (w : World)
    (contents : Body) (owner repo : string) (max_depth current_depth : Z)
    : result (list TreeNode) :=
  _build_structure_tree_api_body
    (λ sub_contents depth,
       match fuel with
       | O => Raised RecursionError
       | S fuel' =>
           _build_structure_tree_api_fuel fuel' w sub_contents owner repo
             max_depth depth
       end)
    w contents owner repo max_depth current_depth.

Definition _build_structure_tree_api (w : World) (contents : Body)
    (owner repo : string) (max_depth current_depth : Z)
    : result (list TreeNode) :=
  _build_structure_tree_api_fuel (Z.to_nat (max_depth - current_depth)) w
    contents owner repo max_depth current_depth.

(** [get_repository_structure] *)
Definition get_repository_structure (w : World) (owner repo : string)
    (max_depth : Z) : result (list TreeNode) :=
  try_except
    (match github_client w with
     | Some client =>
         repo_obj ← get_repo client (owner +:+ "/" +:+ repo);
         contents ← repo_get_contents repo_obj "";
         _build_structure_tree contents repo_obj max_depth 0
     | None =>
         let url := "https://api.github.com/repos/" +:+ owner +:+ "/" +:+ repo
                    +:+ "/contents" in
         response ← requests_get w url;
         _ ← raise_for_status response;
         contents ← json response;
         _build_structure_tree_api w contents owner repo max_depth 0
     end)
    is_Exception (λ e, Raised e).

(** [get_repo_info]; [get_repository_structure] runs with its default
    [max_depth = 3]. *)
Definition get_repo_info (w : World) (repo_url : string)
    : result RepositoryInfo :=
  '(owner, repo) ← parse_github_url w repo_url;
  metadata ← get_repository_metadata w owner repo;
  readme ← get_repository_readme w owner repo;
  structure ← get_repository_structure w owner repo 3;
  Ok {| info_repository_url := repo_url;
        info_metadata := metadata;
        info_readme_preview :=
          if Str.len readme >? 500
          then Str.slice_to 500 readme +:+ "..." else readme;
        info_structure_summary := take 10 structure |}.

(** [_parse_dependency_file] *)
Definition _parse_dependency_file (w : World) (file_name content : string)
    : result Summary :=
  try_except
    (if bool_decide (file_name = "package.json") then
       data ← json_loads w content;
       dependencies ← dict_get data "dependencies" (JDict []);
       devDependencies ← dict_get data "devDependencies" (JDict []);
       scripts ← dict_get data "scripts" (JDict []);
       Ok (PackageJson dependencies devDependencies scripts)
     else if bool_decide (file_name = "requirements.txt") then
       let lines :=
         map Str.strip
           (List.filter (λ line, Str.truthy (Str.strip line)
                                 && negb (Str.startswith "#" line))
                        (Str.split "010" content)) in
       Ok (Requirements lines)
     else if bool_decide (file_name ∈ ["pyproject.toml"; "Cargo.toml"]) then
       Ok (RawContent (if Str.len content >? 500
                       then Str.slice_to 500 content +:+ "..." else content))
     else
       Ok (RawContent (if Str.len content >? 500
                       then Str.slice_to 500 content +:+ "..." else content)))
    is_Exception
    (λ e, Ok (ParseError ("Could not parse " +:+ file_name))).

(** The catalog of [analyze_repo_dependencies]. *)
Definition dependency_files : list string :=
  [ "package.json"; "requirements.txt"; "Pipfile"; "pyproject.toml";
    "Gemfile"; "composer.json"; "pom.xml"; "build.gradle"; "Cargo.toml";
    "go.mod" ].

(** [file_content.decoded_content]: a list has no such attribute. *)
Definition decoded_content (c : Contents) : result bytes :=
  match c with
  | Single f => Ok (cf_decoded_content f)
  | Listing _ => Raised AttributeError
  end.

(** [analyze_repo_dependencies]. The loop state is the dictionary
    [dependencies]; an assignment to it is the last statement of each
    [try] body, so a handler sees the dictionary unchanged. *)
Definition analyze_repo_dependencies (w : World) (repo_url : string)
    : result (gmap string Summary) :=
  '(owner, repo) ← parse_github_url w repo_url;
  let dependencies : gmap string Summary := ∅ in
  try_except
    (match github_client w with
     | Some client =>
         repo_obj ← get_repo client (owner +:+ "/" +:+ repo);
         for_state (λ file_name (dependencies : gmap string Summary),
           try_except
             (file_content ← repo_get_contents repo_obj file_name;
              raw ← decoded_content file_content;
              content ← decode_utf8 w raw;
              summary ← _parse_dependency_file w file_name content;
              Ok (<[file_name := summary]> dependencies))
             is_GithubException (λ e, Ok dependencies))
           dependency_files dependencies
     | None =>
         for_state (λ file_name (dependencies : gmap string Summary),
           try_except
             (let url := "https://api.github.com/repos/" +:+ owner +:+ "/"
                         +:+ repo +:+ "/contents/" +:+ file_name in
              response ← requests_get w url;
              if status_code response =? 200
              then
                data ← json response;
                encoded ← body_content data;
                raw ← b64decode w encoded;
                content ← decode_utf8 w raw;
                summary ← _parse_dependency_file w file_name content;
                Ok (<[file_name := summary]> dependencies)
              else Ok dependencies)
             is_Exception (λ e, Ok dependencies))
           dependency_files dependencies
     end)
    is_Exception (λ e, Raised e).

(** ** A model of [urllib.parse.urlparse]

    It follows CPython's [urlsplit] and [urlparse] step by step: leading
    control characters and spaces are dropped, tab and line breaks are
    removed, then scheme, netloc, fragment, query and params are cut off in
    that order. The extra validation that CPython applies to a netloc with
    both brackets or with non-ASCII characters is left out; such a netloc
    differs from ["github.com"] in any case. The theorems on
    [parse_github_url] hold for every [urlparse]; this model serves the
    worked examples. *)

Module Urllib.

Definition code (c : ascii) : Z := Z.of_nat (nat_of_ascii c).

Definition is_alpha (c : ascii) : bool :=
  ((65 <=? code c) && (code c <=? 90)) || ((97 <=? code c) && (code c <=? 122)).

Definition is_scheme_char (c : ascii) : bool :=
  is_alpha c || ((48 <=? code c) && (code c <=? 57))
  || bool_decide (c = "+"%char) || bool_decide (c = "-"%char)
  || bool_decide (c = "."%char).

Definition lower_char (c : ascii) : ascii :=
  if (65 <=? code c) && (code c <=? 90)
  then ascii_of_nat (nat_of_ascii c + 32) else c.

Fixpoint lower (s : string) : string :=
  match s with
  | EmptyString => ""
  | String c r => String (lower_char c) (lower r)
  end.

Fixpoint all_chars (p : ascii → bool) (s : string) : bool :=
  match s with
  | EmptyString => true
  | String c r => p c && all_chars p r
  end.

Fixpoint remove_chars (p : ascii → bool) (s : string) : string :=
  match s with
  | EmptyString => ""
  | String c r => if p c then remove_chars p r else String c (remove_chars p r)
  end.

(** [(s[:i], s[i:])] for the first index [i] whose character satisfies
    [p], and [(s, "")] when there is none. *)
Fixpoint break_at (p : ascii → bool) (s : string) : string * string :=
  match s with
  | EmptyString => ("", "")
  | String c r =>
      if p c then ("", s)
      else let '(a, b) := break_at p r in (String c a, b)
  end.

Definition tail (s : string) : string :=
  match s with
  | EmptyString => ""
  | String _ r => r
  end.

(** [s.split(c, 1)] when [c] occurs in [s]. *)
Definition split1 (c : ascii) (s : string) : string * string :=
  let '(a, b) := break_at (λ d, bool_decide (d = c)) s in (a, tail b).

(** [(s[:i+1], s[i+1:])] for [i = s.rfind("/")], and [("", s)] when
    there is no slash. *)
Fixpoint split_last_slash (s : string) : string * string :=
  match s with
  | EmptyString => ("", "")
  | String c r =>
      let '(d, seg) := split_last_slash r in
      if Str.contains "/" r then (String c d, seg)
      else if bool_decide (c = "/"%char) then (String c "", r)
      else ("", s)
  end.

Definition uses_params : list string :=
  [ ""; "ftp"; "hdl"; "prospero"; "http"; "imap"; "https"; "shttp"; "rtsp";
    "rtspu"; "rtsps"; "sip"; "sips"; "mms"; "sftp"; "tel" ].

Definition c0_control_or_space (c : ascii) : bool := code c <=? 32.

Definition unsafe_byte (c : ascii) : bool :=
  (code c =? 9) || (code c =? 10) || (code c =? 13).

Definition split_scheme (url : string) : string * string :=
  let '(head, rest) := break_at (λ d, bool_decide (d = ":"%char)) url in
  match head, rest with
  | String c _, String _ after =>
      if is_alpha c && all_chars is_scheme_char head
      then (lower head, after) else ("", url)
  | _, _ => ("", url)
  end.

Definition urlparse (url : string) : result ParseResult :=
  let url := Str.lstrip_by c0_control_or_space url in
  let url := remove_chars unsafe_byte url in
  let '(scheme, url) := split_scheme url in
  '(netloc, url) ←
     match url with
     | String "/" (String "/" rest) =>
         let '(netloc, url) :=
           break_at (λ d, bool_decide (d = "/"%char)
                          || bool_decide (d = "?"%char)
                          || bool_decide (d = "#"%char)) rest in
         if xorb (Str.contains "[" netloc) (Str.contains "]" netloc)
         then Raised (ValueError "Invalid IPv6 URL")
         else Ok (netloc, url)
     | _ => Ok ("", url)
     end;
  let '(url, fragment) :=
    if Str.contains "#" url then split1 "#" url else (url, "") in
  let '(url, query) :=
    if Str.contains "?" url then split1 "?" url else (url, "") in
  let '(url, params) :=
    if bool_decide (scheme ∈ uses_params) && Str.contains ";" url
    then
      let '(d, seg) := split_last_slash url in
      if Str.contains ";" seg
      then let '(a, b) := split1 ";" seg in (d +:+ a, b)
      else (url, "")
    else (url, "") in
  Ok {| pr_scheme := scheme; pr_netloc := netloc; pr_path := url;
        pr_params := params; pr_query := query; pr_fragment := fragment |}.

End Urllib.

(** ** Path arithmetic for the structure tree *)

(** The number of components of a repository path: [0] for the root [""],
    and [len(path.split("/"))] otherwise. *)
Definition components (path : string) : nat :=
  if bool_decide (path = "") then O else S (Str.count "/" path).

(** The path the service reports for the entry [name] of directory [dir]. *)
Definition child_path (dir name : string) : string :=
  if bool_decide (dir = "") then name else dir +:+ "/" +:+ name.

Definition valid_name (name : string) : Prop :=
  name ≠ "" ∧ Str.count "/" name = O.

(** Every node of a tree and of a forest, parents before children. *)
Fixpoint node_nodes (n : TreeNode) : list TreeNode :=
  n :: match n with
       | mkNode _ _ _ _ (Some ch) =>
           (fix forest (l : list TreeNode) : list TreeNode :=
              match l with
              | [] => []
              | m :: rest => node_nodes m ++ forest rest
              end) ch
       | mkNode _ _ _ _ None => []
       end.

Definition tree_nodes (t : list TreeNode) : list TreeNode :=
  flat_map node_nodes t.

(** ** Vocabulary of the statements *)

(** A path that lies at most one level below the directory [dir]. *)
Definition within (dir path : string) : Prop :=
  (components path ≤ S (components dir))%nat.

(** The bound on the path of a node produced at [current_depth] from a
    listing of [dir]. *)
Definition path_bounded (max_depth : Z) (dir : string) (current_depth : Z)
    (node : TreeNode) : Prop :=
  Z.of_nat (components (node_path node))
  ≤ Z.of_nat (components dir) + (max_depth - current_depth).

(** The client shows a content tree: every listing of a directory holds
    paths one level below it. *)
Definition content_tree (repo_obj : Repository) : Prop :=
  ∀ dir entries,
    repo_get_contents repo_obj dir = Ok (Listing entries) →
    Forall (λ c, within dir (cf_path c)) entries.

(** The same for the REST surface. *)
Definition api_content_tree (w : World) (owner repo : string) : Prop :=
  ∀ dir response entries,
    requests_get w ("https://api.github.com/repos/" +:+ owner +:+ "/"
                    +:+ repo +:+ "/contents/" +:+ dir) = Ok response →
    status_code response = 200 →
    json response = Ok (ListingBody entries) →
    Forall (λ c, within dir (e_path c)) entries.

(** The node emitted for an entry carries its name, kind and path. *)
Definition node_of_entry (content : ContentFile) (node : TreeNode) : Prop :=
  node_name node = cf_name content ∧ node_type node = cf_type content
  ∧ node_path node = cf_path content.

Definition node_of_api_entry (content : EntryData) (node : TreeNode) : Prop :=
  node_name node = e_name content ∧ node_type node = e_type content
  ∧ node_path node = e_path content.

(** Listing the directory [content] fails: the client raises. *)
Definition listing_fails (repo_obj : Repository) (content : ContentFile)
    : Prop :=
  ∃ e, repo_get_contents repo_obj (cf_path content) = Raised e.

(** On the fallback path the request raises, or its status is not 200, or
    its body cannot be decoded. *)
Definition api_listing_fails (w : World) (owner repo : string)
    (content : EntryData) : Prop :=
  let url := "https://api.github.com/repos/" +:+ owner +:+ "/" +:+ repo
             +:+ "/contents/" +:+ e_path content in
  (∃ e, requests_get w url = Raised e)
  ∨ (∃ response, requests_get w url = Ok response
       ∧ status_code response ≠ 200)
  ∨ (∃ response e, requests_get w url = Ok response
       ∧ json response = Raised e).

(** A line of [requirements.txt] that is kept: it is not blank and its
    first character is not [#]. *)
Definition requirement_line (line : string) : bool :=
  Str.truthy (Str.strip line) && negb (Str.startswith "#" line).

(** The text of an instant on the REST surface of the service: ISO 8601 in
    UTC with the designator [Z], as in ["2011-01-26T19:01:12Z"]. The
    format belongs to the service, not to the program. *)
Definition rest_timestamp (dt : datetime) : string :=
  zfill 4 (dt_year dt) +:+ "-" +:+ zfill 2 (dt_month dt) +:+ "-"
  +:+ zfill 2 (dt_day dt) +:+ "T"
  +:+ zfill 2 (dt_hour dt) +:+ ":" +:+ zfill 2 (dt_minute dt) +:+ ":"
  +:+ zfill 2 (dt_second dt) +:+ "Z".

(** The client object and the REST record carry the same data, timestamps
    aside: attribute by attribute, and [get_topics()] returns the topics of
    the record. *)
Definition same_record (repo_obj : Repository) (data : RepoData) : Prop :=
  repo_name repo_obj = d_name data
  ∧ repo_full_name repo_obj = d_full_name data
  ∧ repo_description repo_obj = d_description data
  ∧ repo_language repo_obj = d_language data
  ∧ repo_stargazers_count repo_obj = d_stargazers_count data
  ∧ repo_forks_count repo_obj = d_forks_count data
  ∧ repo_open_issues_count repo_obj = d_open_issues_count data
  ∧ repo_size repo_obj = d_size data
  ∧ repo_default_branch repo_obj = d_default_branch data
  ∧ repo_get_topics repo_obj = Ok (default [] (d_topics data))
  ∧ repo_license repo_obj = d_license data
  ∧ repo_homepage repo_obj = d_homepage data
  ∧ repo_clone_url repo_obj = d_clone_url data
  ∧ repo_ssh_url repo_obj = d_ssh_url data.

(** The timestamps of the record are the instants of the client object. *)
Definition same_instants (repo_obj : Repository) (data : RepoData) : Prop :=
  d_created_at data = rest_timestamp (repo_created_at repo_obj)
  ∧ d_updated_at data = rest_timestamp (repo_updated_at repo_obj).

(** The fourteen fields of the metadata other than the timestamps. *)
Definition same_fields (m1 m2 : RepositoryMetadata) : Prop :=
  meta_name m1 = meta_name m2
  ∧ meta_full_name m1 = meta_full_name m2
  ∧ meta_description m1 = meta_description m2
  ∧ meta_language m1 = meta_language m2
  ∧ meta_stars m1 = meta_stars m2
  ∧ meta_forks m1 = meta_forks m2
  ∧ meta_open_issues m1 = meta_open_issues m2
  ∧ meta_size m1 = meta_size m2
  ∧ meta_default_branch m1 = meta_default_branch m2
  ∧ meta_topics m1 = meta_topics m2
  ∧ meta_license m1 = meta_license m2
  ∧ meta_homepage m1 = meta_homepage m2
  ∧ meta_clone_url m1 = meta_clone_url m2
  ∧ meta_ssh_url m1 = meta_ssh_url m2.

(** One round of the loop on the fallback path. *)
Definition fallback_round (w : World) (owner repo file_name : string)
    (dependencies : gmap string Summary) : result (gmap string Summary) :=
  try_except
    (let url := "https://api.github.com/repos/" +:+ owner +:+ "/"
                +:+ repo +:+ "/contents/" +:+ file_name in
     response ← requests_get w url;
     if status_code response =? 200
     then
       data ← json response;
       encoded ← body_content data;
       raw ← b64decode w encoded;
       content ← decode_utf8 w raw;
       summary ← _parse_dependency_file w file_name content;
       Ok (<[file_name := summary]> dependencies)
     else Ok dependencies)
    is_Exception (λ e, Ok dependencies).

(** The request for the manifest [file_name] on the fallback path does not
    deliver a text: it raises, its status is not 200, or a later step of
    the decoding raises. *)
Definition api_fetch_fails (w : World) (owner repo file_name : string)
    : Prop :=
  let url := "https://api.github.com/repos/" +:+ owner +:+ "/" +:+ repo
             +:+ "/contents/" +:+ file_name in
  (∃ e, requests_get w url = Raised e)
  ∨ (∃ response, requests_get w url = Ok response
       ∧ (status_code response ≠ 200
          ∨ ∃ e, (data ← json response;
                  encoded ← body_content data;
                  raw ← b64decode w encoded;
                  decode_utf8 w raw) = Raised e)).

(** ** Sample worlds for the worked examples

    A small repository [octocat/Hello-World], seen through the client and
    through the REST surface. The directory [vendor] cannot be listed. The
    codecs are given on the inputs the examples use: [decode] accepts ASCII
    and rejects the rest (a byte [0xff] occurs in no UTF-8 text),
    [b64decode] and [json_loads] know the documents of the sample. *)

Module Sample.

Definition file (path name : string) (size : Z) (raw : bytes) : ContentFile :=
  {| cf_name := name; cf_type := "file"; cf_path := path;
     cf_size := Some size; cf_decoded_content := raw |}.

Definition dir (path name : string) : ContentFile :=
  {| cf_name := name; cf_type := "dir"; cf_path := path;
     cf_size := Some 0; cf_decoded_content := [] |}.

Definition requirements_text : string :=
  "flask==2.0" +:+ String "010" "# comment" +:+ String "010" ""
  +:+ String "010" "requests" +:+ String "010" "".

Definition requirements_b64 : string :=
  "Zmxhc2s9PTIuMAojIGNvbW1lbnQKCnJlcXVlc3RzCg==".

Definition readme_text : string := "# Hello World".
Definition readme_b64 : string := "IyBIZWxsbyBXb3JsZA==".

Definition readme_file : ContentFile :=
  file "README.md" "README.md" 13 (String.list_byte_of_string readme_text).

Definition requirements_file : ContentFile :=
  file "requirements.txt" "requirements.txt" 31
       (String.list_byte_of_string requirements_text).

Definition root : list ContentFile :=
  [ readme_file; requirements_file; dir "src" "src"; dir "vendor" "vendor" ].

Definition src : list ContentFile :=
  [ file "src/main.py" "main.py" 120 []; dir "src/lib" "lib" ].

Definition src_lib : list ContentFile :=
  [ file "src/lib/util.py" "util.py" 40 [] ].

Definition get_contents (path : string) : result Contents :=
  if bool_decide (path = "") then Ok (Listing root)
  else if bool_decide (path = "src") then Ok (Listing src)
  else if bool_decide (path = "src/lib") then Ok (Listing src_lib)
  else if bool_decide (path = "vendor") then Raised (GithubException 500)
  else if bool_decide (path = "README.md") then Ok (Single readme_file)
  else if bool_decide (path = "requirements.txt")
       then Ok (Single requirements_file)
  else Raised UnknownObjectException.

Definition created : datetime :=
  {| dt_year := 2011; dt_month := 1; dt_day := 26;
     dt_hour := 19; dt_minute := 1; dt_second := 12; dt_microsecond := 0;
     dt_utcoffset := Some 0 |}.

Definition updated : datetime :=
  {| dt_year := 2024; dt_month := 11; dt_day := 3;
     dt_hour := 8; dt_minute := 30; dt_second := 5; dt_microsecond := 0;
     dt_utcoffset := Some 0 |}.

Definition repository_with (contents : string → result Contents)
    (readme : result ContentFile) : Repository :=
  {| repo_name := "Hello-World";
     repo_full_name := "octocat/Hello-World";
     repo_description := Some "My first repository";
     repo_language := None;
     repo_stargazers_count := 80;
     repo_forks_count := 9;
     repo_open_issues_count := 0;
     repo_created_at := created;
     repo_updated_at := updated;
     repo_size := 108;
     repo_default_branch := "master";
     repo_get_topics := Ok ["octocat"; "api"];
     repo_license := Some {| license_name := "MIT License" |};
     repo_homepage := None;
     repo_clone_url := "https://github.com/octocat/Hello-World.git";
     repo_ssh_url := "git@github.com:octocat/Hello-World.git";
     repo_get_contents := contents;
     repo_get_readme := readme |}.

Definition repository : Repository :=
  repository_with get_contents (Ok readme_file).

Definition client_of (r : Repository) : Github :=
  {| get_repo := λ full_name,
       if bool_decide (full_name = "octocat/Hello-World") then Ok r
       else Raised UnknownObjectException |}.

Definition decode (raw : bytes) : result string :=
  if forallb (λ b, Byte.to_nat b <? 128)%nat raw
  then Ok (String.string_of_list_byte raw)
  else Raised UnicodeDecodeError.

Definition unbase64 (s : string) : result bytes :=
  if bool_decide (s = requirements_b64)
  then Ok (String.list_byte_of_string requirements_text)
  else if bool_decide (s = readme_b64)
  then Ok (String.list_byte_of_string readme_text)
  else if bool_decide (s = "/w==") then Ok [Byte.xff]
  else Raised BinasciiError.

Definition loads (s : string) : result JSON :=
  if bool_decide (s = "{}") then Ok (JDict [])
  else if bool_decide (s = "[]") then Ok (JList [])
  else if bool_decide (s = "null") then Ok JNull
  else Raised JSONDecodeError.

Definition entry (c : ContentFile) : EntryData :=
  {| e_name := cf_name c; e_type := cf_type c; e_path := cf_path c;
     e_size := cf_size c |}.

(** The same record as [repository], as the REST surface prints it. *)
Definition repo_data : RepoData :=
  {| d_name := "Hello-World";
     d_full_name := "octocat/Hello-World";
     d_description := Some "My first repository";
     d_language := None;
     d_stargazers_count := 80;
     d_forks_count := 9;
     d_open_issues_count := 0;
     d_created_at := "2011-01-26T19:01:12Z";
     d_updated_at := "2024-11-03T08:30:05Z";
     d_size := 108;
     d_default_branch := "master";
     d_topics := Some ["octocat"; "api"];
     d_license := Some {| license_name := "MIT License" |};
     d_homepage := None;
     d_clone_url := "https://github.com/octocat/Hello-World.git";
     d_ssh_url := "git@github.com:octocat/Hello-World.git" |}.

Definition ok (b : Body) : result Response :=
  Ok {| status_code := 200; json := Ok b |}.

Definition status (code : Z) : result Response :=
  Ok {| status_code := code; json := Raised JSONDecodeError |}.

Definition api : string := "https://api.github.com/repos/octocat/Hello-World".

Definition http_get (url : string) : result Response :=
  if bool_decide (url = api) then ok (RepoBody repo_data)
  else if bool_decide (url = api +:+ "/readme")
  then ok (FileBody (entry readme_file) readme_b64)
  else if bool_decide (url = api +:+ "/contents")
  then ok (ListingBody (entry <$> root))
  else if bool_decide (url = api +:+ "/contents/src")
  then ok (ListingBody (entry <$> src))
  else if bool_decide (url = api +:+ "/contents/src/lib")
  then ok (ListingBody (entry <$> src_lib))
  else if bool_decide (url = api +:+ "/contents/vendor") then status 403
  else if bool_decide (url = api +:+ "/contents/requirements.txt")
  then ok (FileBody (entry requirements_file) requirements_b64)
  else status 404.

Definition offline (url : string) : result Response := Raised ConnectionError.

(** A credential is configured: the client is used. *)
Definition authenticated_with (r : Repository) : World :=
  {| github_client := Some (client_of r);
     requests_get := offline;
     urlparse := Urllib.urlparse;
     json_loads := loads;
     b64decode := unbase64;
     decode_utf8 := decode |}.

Definition authenticated : World := authenticated_with repository.

(** No credential: the REST surface is called directly. *)
Definition fallback : World :=
  {| github_client := None;
     requests_get := http_get;
     urlparse := Urllib.urlparse;
     json_loads := loads;
     b64decode := unbase64;
     decode_utf8 := decode |}.

Definition url : string := "https://github.com/octocat/Hello-World".

(** What [urlparse] returns for ["https://github.com" +:+ path]. *)
Definition github_path (path : string) : ParseResult :=
  {| pr_scheme := "https"; pr_netloc := "github.com"; pr_path := path;
     pr_params := ""; pr_query := ""; pr_fragment := "" |}.

(** The same repository with a [package.json] that is not UTF-8 text: the
    single byte [0xff], ["/w=="] in Base64. *)
Definition binary_manifest : ContentFile :=
  file "package.json" "package.json" 1 [Byte.xff].

Definition binary : World :=
  authenticated_with
    (repository_with
       (λ path, if bool_decide (path = "package.json")
                then Ok (Single binary_manifest) else get_contents path)
       (Ok readme_file)).

Definition binary_fallback : World :=
  {| github_client := None;
     requests_get := λ url,
       if bool_decide (url = api +:+ "/contents/package.json")
       then ok (FileBody (entry binary_manifest) "/w==")
       else http_get url;
     urlparse := Urllib.urlparse;
     json_loads := loads;
     b64decode := unbase64;
     decode_utf8 := decode |}.

(** A repository with a README of 600 characters and 15 files at the
    root. *)
Fixpoint repeat_char (n : nat) (c : ascii) : string :=
  match n with
  | O => ""
  | S n' => String c (repeat_char n' c)
  end.

Definition long_readme : string := repeat_char 600 "a".

Definition wide_root : list ContentFile :=
  (λ i : nat, let name := "file" +:+ zfill 2 (Z.of_nat i) in
              file name name 1 []) <$> seq 0 15.

Definition large : World :=
  authenticated_with
    (repository_with
       (λ path, if bool_decide (path = "") then Ok (Listing wide_root)
                else Raised UnknownObjectException)
       (Ok (file "README.md" "README.md" 600
              (String.list_byte_of_string long_readme)))).

End Sample.

(** ** The tool wrappers and the request handlers *)

(** [get_repo_structure_tool] *)
Definition get_repo_structure_tool (w : World) (repo_url : string)
    (max_depth : Z) : result (list TreeNode) :=
  '(owner, repo) ← parse_github_url w repo_url;
  get_repository_structure w owner repo max_depth.

(** [get_repo_readme_tool] *)
Definition get_repo_readme_tool (w : World) (repo_url : string)
    : result string :=
  '(owner, repo) ← parse_github_url w repo_url;
  get_repository_readme w owner repo.

(** The [str] a handler returns: [json.dumps(v, indent=2)] of a value, or a
    plain text. *)
Inductive Payload :=
| MetadataJson (m : RepositoryMetadata)
| StructureJson (t : list TreeNode)
| InfoJson (i : RepositoryInfo)
| DependenciesJson (d : gmap string Summary)
| Text (s : string).

(** [mcp.types.Resource] *)
Record Resource := {
  res_uri : string;
  res_name : string;
  res_description : string;
  res_mimeType : string }.

(** One property of an [inputSchema]. *)
Record Property := {
  prop_name : string;
  prop_type : string;
  prop_description : string;
  prop_default : option Z }.

(** [mcp.types.Tool] with its [inputSchema]. *)
Record Tool := {
  tool_name : string;
  tool_description : string;
  tool_properties : list Property;
  tool_required : list string }.

(** [mcp.types.TextContent] *)
Record TextContent := {
  tc_type : string;
  tc_text : Payload }.

(** [handle_list_resources] *)
Definition handle_list_resources : list Resource :=
  [ {| res_uri := "github://repository/metadata";
       res_name := "Repository Metadata";
       res_description := "Get metadata for a GitHub repository";
       res_mimeType := "application/json" |};
    {| res_uri := "github://repository/readme";
       res_name := "Repository README";
       res_description := "Get README content for a GitHub repository";
       res_mimeType := "text/markdown" |};
    {| res_uri := "github://repository/structure";
       res_name := "Repository Structure";
       res_description := "Get file structure of a GitHub repository";
       res_mimeType := "application/json" |} ].

(** [dict(pairs)]: every element must have two items, a later key
    replaces an earlier one. *)
Definition dict_update (i_pair : nat * list string)
    (d : gmap string string) : result (gmap string string) :=
  match i_pair.2 with
  | [k; v] => Ok (<[k := v]> d)
  | elements =>
      Raised (ValueError ("dictionary update sequence element #"
                          +:+ pretty i_pair.1 +:+ " has length "
                          +:+ pretty (length elements)
                          +:+ "; 2 is required"))
  end.

Definition dict_of_pairs (pairs : list (list string))
    : result (gmap string string) :=
  for_state dict_update (imap (λ i pair, (i, pair)) pairs) ∅.

(** [not s] for a value that is a string or [None]. *)
Definition missing (s : option string) : bool :=
  match s with
  | Some s => negb (Str.truthy s)
  | None => true
  end.

(** [handle_read_resource], from [uri_str = str(uri)] on. The structure
    resource runs [get_repository_structure] with its default depth. *)
Definition handle_read_resource (w : World) (uri_str : string)
    : result Payload :=
  if String.prefix "github://repository/" uri_str then
    let parts := Str.split "?" uri_str in
    if negb (length parts =? 2)%nat
    then Raised (ValueError
      "Invalid URI format. Expected: github://repository/{action}?owner=owner&repo=repo")
    else
      head ← index parts 0;
      query ← index parts 1;
      let segments := Str.split "/" head in
      action ← index segments (length segments - 1);
      params ← dict_of_pairs (Str.split "=" <$> Str.split "&" query);
      let owner := params !! "owner" in
      let repo := params !! "repo" in
      if missing owner || missing repo
      then Raised (ValueError "Missing owner or repo parameter")
      else
        let owner := default "" owner in
        let repo := default "" repo in
        if bool_decide (action = "metadata")
        then MetadataJson <$> get_repository_metadata w owner repo
        else if bool_decide (action = "readme")
        then Text <$> get_repository_readme w owner repo
        else if bool_decide (action = "structure")
        then StructureJson <$> get_repository_structure w owner repo 3
        else Raised (ValueError ("Unknown action: " +:+ action))
  else Raised (ValueError ("Unknown resource URI: " +:+ uri_str)).

(** [handle_list_tools] *)
Definition repo_url_property (description : string) : Property :=
  {| prop_name := "repo_url"; prop_type := "string";
     prop_description := description; prop_default := None |}.

Definition handle_list_tools : list Tool :=
  [ {| tool_name := "get_repo_info";
       tool_description :=
         "Get comprehensive information about a GitHub repository";
       tool_properties :=
         [ repo_url_property
             "GitHub repository URL (e.g., https://github.com/owner/repo)" ];
       tool_required := ["repo_url"] |};
    {| tool_name := "get_repo_structure";
       tool_description := "Get the file structure of a GitHub repository";
       tool_properties :=
         [ repo_url_property "GitHub repository URL";
           {| prop_name := "max_depth"; prop_type := "integer";
              prop_description := "Maximum depth to traverse (default: 3)";
              prop_default := Some 3 |} ];
       tool_required := ["repo_url"] |};
    {| tool_name := "get_repo_readme";
       tool_description := "Get the README content of a GitHub repository";
       tool_properties := [ repo_url_property "GitHub repository URL" ];
       tool_required := ["repo_url"] |};
    {| tool_name := "analyze_repo_dependencies";
       tool_description :=
         "Analyze repository dependencies from package files";
       tool_properties := [ repo_url_property "GitHub repository URL" ];
       tool_required := ["repo_url"] |} ].

(** The [arguments] dictionary of a tool call, with the types its
    [inputSchema] declares; either key may be absent. *)
Record ToolArguments := {
  arg_repo_url : option string;
  arg_max_depth : option Z }.

(** [arguments["repo_url"]] *)
Definition arguments_repo_url (arguments : ToolArguments) : result string :=
  match arg_repo_url arguments with
  | Some repo_url => Ok repo_url
  | None => Raised (KeyError "repo_url")
  end.

(** [str(e)]: the message of a [ValueError], the [repr] of the key of a
    [KeyError]; [describe] gives the text of the exceptions of the
    libraries. *)
Definition str_exn (describe : exn → string) (e : exn) : string :=
  match e with
  | ValueError msg => msg
  | KeyError key => "'" +:+ key +:+ "'"
  | _ => describe e
  end.

(** [handle_call_tool] *)
Definition handle_call_tool (w : World) (describe : exn → string)
    (name : string) (arguments : ToolArguments) : result (list TextContent) :=
  try_except
    (result ←
       (if bool_decide (name = "get_repo_info") then
          repo_url ← arguments_repo_url arguments;
          InfoJson <$> get_repo_info w repo_url
        else if bool_decide (name = "get_repo_structure") then
          let max_depth := default 3 (arg_max_depth arguments) in
          repo_url ← arguments_repo_url arguments;
          StructureJson <$> get_repo_structure_tool w repo_url max_depth
        else if bool_decide (name = "get_repo_readme") then
          repo_url ← arguments_repo_url arguments;
          Text <$> get_repo_readme_tool w repo_url
        else if bool_decide (name = "analyze_repo_dependencies") then
          repo_url ← arguments_repo_url arguments;
          DependenciesJson <$> analyze_repo_dependencies w repo_url
        else Raised (ValueError ("Unknown tool: " +:+ name)));
     Ok [ {| tc_type := "text"; tc_text := result |} ])
    is_Exception
    (λ e, Ok [ {| tc_type := "text";
                  tc_text := Text ("Error: " +:+ str_exn describe e) |} ]).

(** ** Vocabulary of the further statements *)

(** The entry of a REST listing that shows the same file or directory as
    the client's object. *)
Definition entry_data (c : ContentFile) : EntryData :=
  {| e_name := cf_name c; e_type := cf_type c; e_path := cf_path c;
     e_size := cf_size c |}.

(** The URL of the listing of [path] on the fallback path. *)
Definition contents_url (owner repo path : string) : string :=
  "https://api.github.com/repos/" +:+ owner +:+ "/" +:+ repo
  +:+ "/contents/" +:+ path.

(** The REST surface shows the directories that the client shows: where
    the client lists [path], the request answers 200 with the same
    entries, and where the client does not, the request yields no listing
    either. *)
Definition listings_agree (w : World) (owner repo : string)
    (repo_obj : Repository) : Prop :=
  ∀ path,
    match repo_get_contents repo_obj path with
    | Ok (Listing entries) =>
        ∃ response,
          requests_get w (contents_url owner repo path) = Ok response
          ∧ status_code response = 200
          ∧ json response = Ok (ListingBody (entry_data <$> entries))
    | _ =>
        match requests_get w (contents_url owner repo path) with
        | Ok response =>
            status_code response ≠ 200
            ∨ match json response with
              | Ok (ListingBody _) => False
              | _ => True
              end
        | Raised _ => True
        end
    end.

(** A character that may stand in the owner or the name of a locator URL:
    not a separator of the URL syntax and not a character that [urlparse]
    removes. *)
Definition segment_char (c : ascii) : bool :=
  negb (bool_decide (c = "/"%char) || bool_decide (c = "?"%char)
        || bool_decide (c = "#"%char) || bool_decide (c = ";"%char)
        || Urllib.unsafe_byte c).

Definition segment (s : string) : Prop :=
  s ≠ "" ∧ Urllib.all_chars segment_char s = true.

(** A character that may stand in the path of a URL after the name:
    [segment_char] or a slash. *)
Definition path_char (c : ascii) : bool :=
  negb (bool_decide (c = "?"%char) || bool_decide (c = "#"%char)
        || bool_decide (c = ";"%char) || Urllib.unsafe_byte c).

(** What may follow the name in a locator URL: nothing, or a slash and
    further segments. *)
Definition url_tail (tail : string) : Prop :=
  (tail = "" ∨ ∃ rest, tail = String "/" rest)
  ∧ Urllib.all_chars path_char tail = true.

(** A character that may stand in a value of the query of a resource
    URI. *)
Definition value_char (c : ascii) : bool :=
  negb (bool_decide (c = "?"%char) || bool_decide (c = "&"%char)
        || bool_decide (c = "="%char)).

Definition value (s : string) : Prop :=
  s ≠ "" ∧ Urllib.all_chars value_char s = true.

(** [s[len(p):]] when [s] begins with [p]. *)
Fixpoint strip_prefix (p s : string) : option string :=
  match p, s with
  | EmptyString, _ => Some s
  | String a p', String b s' =>
      if bool_decide (a = b) then strip_prefix p' s' else None
  | String _ _, EmptyString => None
  end.

(** A REST surface that shows what the client object [repo_obj] shows:
    the listing of a directory with status 200, a file as a single
    object, and status 404 where the client raises. *)
Definition mirror_response (c : result Contents) : result Response :=
  match c with
  | Ok (Listing entries) =>
      Ok {| status_code := 200;
            json := Ok (ListingBody (entry_data <$> entries)) |}
  | Ok (Single f) =>
      Ok {| status_code := 200; json := Ok (FileBody (entry_data f) "") |}
  | Raised _ =>
      Ok {| status_code := 404; json := Raised JSONDecodeError |}
  end.

Definition mirror (owner repo : string) (repo_obj : Repository)
    (url : string) : result Response :=
  match strip_prefix (contents_url owner repo "") url with
  | Some path => mirror_response (repo_get_contents repo_obj path)
  | None =>
      if bool_decide (url = "https://api.github.com/repos/" +:+ owner
                            +:+ "/" +:+ repo +:+ "/contents")
      then mirror_response (repo_get_contents repo_obj "")
      else Ok {| status_code := 404; json := Raised JSONDecodeError |}
  end.

(** The sample repository behind its mirror, without a credential. *)
Definition mirror_world : World :=
  {| github_client := None;
     requests_get := mirror "octocat" "Hello-World" Sample.repository;
     urlparse := Urllib.urlparse;
     json_loads := Sample.loads;
     b64decode := Sample.unbase64;
     decode_utf8 := Sample.decode |}.

(** The sample repository without a README, seen through the client. *)
Definition no_readme_world : World :=
  Sample.authenticated_with
    (Sample.repository_with Sample.get_contents
       (Raised UnknownObjectException)).

(** One round of the loop of [analyze_repo_dependencies] on the
    authenticated path. *)
Definition authenticated_round (w : World) (repo_obj : Repository)
    (file_name : string) (dependencies : gmap string Summary)
    : result (gmap string Summary) :=
  try_except
    (file_content ← repo_get_contents repo_obj file_name;
     raw ← decoded_content file_content;
     content ← decode_utf8 w raw;
     summary ← _parse_dependency_file w file_name content;
     Ok (<[file_name := summary]> dependencies))
    is_GithubException (λ e, Ok dependencies).

(** The manifest [file_name] can be read through the client as the text
    [content]. *)
Definition manifest_text (w : World) (repo_obj : Repository)
    (file_name content : string) : Prop :=
  ∃ file, repo_get_contents repo_obj file_name = Ok (Single file)
          ∧ decode_utf8 w (cf_decoded_content file) = Ok content.

(** The client reports the manifest [file_name] as absent or otherwise
    out of reach, with an exception of the service. *)
Definition manifest_absent (repo_obj : Repository) (file_name : string)
    : Prop :=
  ∃ e, repo_get_contents repo_obj file_name = Raised e
       ∧ is_GithubException e = true.

(** Only a file carries a size, and only a directory carries the key
    [children]. *)
Definition well_formed_node (node : TreeNode) : Prop :=
  (node_type node ≠ "file" → node_size node = None)
  ∧ (is_Some (node_children node) → node_type node = "dir").

(** The URI of a resource with its two parameters. *)
Definition resource_uri (action owner repo : string) : string :=
  "github://repository/" +:+ action +:+ "?owner=" +:+ owner
  +:+ "&repo=" +:+ repo.

(** The names that [handle_list_tools] advertises. *)
Definition tool_names : list string := tool_name <$> handle_list_tools.

(** * Properties *)

(** ** The result monad and the loops *)

Lemma bind_Ok {A B} (a : A) (k : A → result B) : (x ← Ok a; k x) = k a.
Proof. reflexivity. Qed.

Lemma bind_Raised {A B} (e : exn) (k : A → result B) :
  (x ← Raised e; k x) = Raised e.
Proof. reflexivity. Qed.

Lemma try_except_all_Ok {A} (body : result A) (h : exn → A) :
  try_except body is_Exception (λ e, Ok (h e))
  = Ok (match body with Ok a => a | Raised e => h e end).
Proof. by destruct body. Qed.

Lemma for_append_Forall2 {A B} (f : A → result B) (R : A → B → Prop) xs :
  Forall (λ x, ∃ y, f x = Ok y ∧ R x y) xs →
  ∃ ys, for_append f xs = Ok ys ∧ Forall2 R xs ys.
Proof.
  induction 1 as [|x xs (y & Hy & HR) _ (ys & Hys & IH)]; simpl.
  - exists []. by split.
  - exists (y :: ys). rewrite Hy, Hys. split; [done | by constructor].
Qed.

Lemma for_append_ext {A B} (f g : A → result B) xs :
  (∀ x, f x = g x) → for_append f xs = for_append g xs.
Proof.
  intros E. induction xs as [|x xs IH]; simpl; [done|].
  by rewrite E, IH.
Qed.

(** ** The recursive equation of the builders *)

Lemma _build_structure_tree_body_ext self1 self2 contents repo_obj md cd :
  (∀ sub, self1 sub (cd + 1) = self2 sub (cd + 1)) →
  _build_structure_tree_body self1 contents repo_obj md cd
  = _build_structure_tree_body self2 contents repo_obj md cd.
Proof.
  intros E. unfold _build_structure_tree_body.
  destruct (cd >=? md); [done|].
  destruct (iter_contents contents) as [entries|e]; [|done].
  rewrite !bind_Ok. apply for_append_ext. intros content.
  unfold _build_structure_tree_item.
  destruct (_ && _); [|done].
  destruct (repo_get_contents repo_obj (cf_path content)); [|done].
  by rewrite !bind_Ok, E.
Qed.

Lemma _build_structure_tree_eq contents repo_obj max_depth current_depth :
  _build_structure_tree contents repo_obj max_depth current_depth =
  _build_structure_tree_body
    (λ sub_contents depth,
       _build_structure_tree sub_contents repo_obj max_depth depth)
    contents repo_obj max_depth current_depth.
Proof.
  unfold _build_structure_tree.
  destruct (current_depth >=? max_depth) eqn:E.
  - destruct (Z.to_nat _); simpl; unfold _build_structure_tree_body;
      by rewrite E.
  - assert (Z.to_nat (max_depth - current_depth)
            = S (Z.to_nat (max_depth - (current_depth + 1)))) as -> by lia.
    simpl. by apply _build_structure_tree_body_ext.
Qed.

Lemma _build_structure_tree_api_body_ext self1 self2 w contents owner repo
    md cd :
  (∀ sub, self1 sub (cd + 1) = self2 sub (cd + 1)) →
  _build_structure_tree_api_body self1 w contents owner repo md cd
  = _build_structure_tree_api_body self2 w contents owner repo md cd.
Proof.
  intros E. unfold _build_structure_tree_api_body.
  destruct (cd >=? md); [done|].
  destruct (iter_body contents) as [entries|e]; [|done].
  rewrite !bind_Ok. apply for_append_ext. intros content.
  unfold _build_structure_tree_api_item.
  destruct (_ && _); [|done].
  destruct (requests_get w _) as [response|]; [|done].
  rewrite !bind_Ok. destruct (_ =? 200); [|done].
  destruct (json response); [|done].
  by rewrite !bind_Ok, E.
Qed.

Lemma _build_structure_tree_api_eq w contents owner repo max_depth
    current_depth :
  _build_structure_tree_api w contents owner repo max_depth current_depth =
  _build_structure_tree_api_body
    (λ sub_contents depth,
       _build_structure_tree_api w sub_contents owner repo max_depth depth)
    w contents owner repo max_depth current_depth.
Proof.
  unfold _build_structure_tree_api.
  destruct (current_depth >=? max_depth) eqn:E.
  - destruct (Z.to_nat _); simpl; unfold _build_structure_tree_api_body;
      by rewrite E.
  - assert (Z.to_nat (max_depth - current_depth)
            = S (Z.to_nat (max_depth - (current_depth + 1)))) as -> by lia.
    simpl. by apply _build_structure_tree_api_body_ext.
Qed.

(** ** One entry of the loop *)

Lemma _build_structure_tree_item_spec self repo_obj md cd content :
  ∃ node,
    _build_structure_tree_item self repo_obj md cd content = Ok node
    ∧ node_of_entry content node
    ∧ node_size node = (if bool_decide (cf_type content = "file")
                        then cf_size content else None)
    ∧ node_children node =
        if bool_decide (cf_type content = "dir") && (cd <? md - 1)
        then Some (match (sub ← repo_get_contents repo_obj (cf_path content);
                          self sub (cd + 1)) with
                   | Ok children => children
                   | Raised _ => []
                   end)
        else None.
Proof.
  unfold _build_structure_tree_item, node_of_entry.
  destruct (_ && _).
  - destruct (repo_get_contents repo_obj (cf_path content)) as [sub|e];
      [rewrite !bind_Ok; destruct (self sub (cd + 1))|];
      eexists; (split; [reflexivity|]); done.
  - eexists. split; [reflexivity|]. done.
Qed.

Lemma _build_structure_tree_api_item_spec self w owner repo md cd content :
  ∃ node,
    _build_structure_tree_api_item self w owner repo md cd content = Ok node
    ∧ node_of_api_entry content node
    ∧ node_size node = (if bool_decide (e_type content = "file")
                        then e_size content else None)
    ∧ node_children node =
        if bool_decide (e_type content = "dir") && (cd <? md - 1)
        then Some (match (response ← requests_get w
                            ("https://api.github.com/repos/" +:+ owner +:+ "/"
                             +:+ repo +:+ "/contents/" +:+ e_path content);
                          if status_code response =? 200
                          then sub ← json response; self sub (cd + 1)
                          else Ok []) with
                   | Ok children => children
                   | Raised _ => []
                   end)
        else None.
Proof.
  unfold _build_structure_tree_api_item, node_of_api_entry.
  destruct (_ && _).
  - destruct (requests_get w _) as [response|e];
      [rewrite !bind_Ok; destruct (_ =? 200);
       [destruct (json response) as [sub|];
        [rewrite !bind_Ok; destruct (self sub (cd + 1))|]|]|];
      eexists; (split; [reflexivity|]); done.
  - eexists. split; [reflexivity|]. done.
Qed.

(** Below the depth bound, the builder returns one node per entry, in the
    order of the listing. *)
Lemma _build_structure_tree_nodes (R : ContentFile → TreeNode → Prop)
    repo_obj entries md cd :
  cd < md →
  (∀ content node,
     _build_structure_tree_item
       (λ sub depth, _build_structure_tree sub repo_obj md depth)
       repo_obj md cd content = Ok node → R content node) →
  ∃ t, _build_structure_tree (Listing entries) repo_obj md cd = Ok t
       ∧ Forall2 R entries t.
Proof.
  intros Hlt HR. rewrite _build_structure_tree_eq.
  unfold _build_structure_tree_body.
  assert ((cd >=? md) = false) as -> by lia.
  simpl iter_contents. rewrite bind_Ok.
  apply for_append_Forall2, Forall_forall. intros content _.
  destruct (_build_structure_tree_item_spec
              (λ sub depth, _build_structure_tree sub repo_obj md depth)
              repo_obj md cd content) as (node & Hnode & _).
  exists node. split; [done|]. by apply HR.
Qed.

Lemma _build_structure_tree_api_nodes (R : EntryData → TreeNode → Prop)
    w owner repo entries md cd :
  cd < md →
  (∀ content node,
     _build_structure_tree_api_item
       (λ sub depth, _build_structure_tree_api w sub owner repo md depth)
       w owner repo md cd content = Ok node → R content node) →
  ∃ t, _build_structure_tree_api w (ListingBody entries) owner repo md cd
       = Ok t
       ∧ Forall2 R entries t.
Proof.
  intros Hlt HR. rewrite _build_structure_tree_api_eq.
  unfold _build_structure_tree_api_body.
  assert ((cd >=? md) = false) as -> by lia.
  simpl iter_body. rewrite bind_Ok.
  apply for_append_Forall2, Forall_forall. intros content _.
  destruct (_build_structure_tree_api_item_spec
              (λ sub depth,
                 _build_structure_tree_api w sub owner repo md depth)
              w owner repo md cd content) as (node & Hnode & _).
  exists node. split; [done|]. by apply HR.
Qed.

(** ** Depth bound reached at once *)

(** C10. For every [max_depth ≤ 0], negative values included, both builders
    called at depth 0 return the empty list and raise nothing, whatever the
    contents are. *)
Theorem nonpositive_max_depth_empty (max_depth : Z) :
  max_depth ≤ 0 →
  (∀ contents repo_obj,
     _build_structure_tree contents repo_obj max_depth 0 = Ok [])
  ∧ (∀ w contents owner repo,
       _build_structure_tree_api w contents owner repo max_depth 0 = Ok []).
Proof.
  intros Hle. split; intros.
  - rewrite _build_structure_tree_eq. unfold _build_structure_tree_body.
    by assert ((0 >=? max_depth) = true) as -> by lia.
  - rewrite _build_structure_tree_api_eq.
    unfold _build_structure_tree_api_body.
    by assert ((0 >=? max_depth) = true) as -> by lia.
Qed.

Lemma nonpositive_max_depth_empty_witness :
  -2 ≤ 0
  ∧ _build_structure_tree (Listing Sample.root) Sample.repository (-2) 0
    = Ok []
  ∧ _build_structure_tree_api Sample.fallback
      (ListingBody (Sample.entry <$> Sample.root)) "octocat" "Hello-World"
      (-2) 0 = Ok [].
Proof.
  assert (-2 ≤ 0) as H by lia.
  split; [exact H|].
  destruct (nonpositive_max_depth_empty (-2) H) as [Ha Hb].
  split; [apply Ha | apply Hb].
Defined.

(** ** Failure isolation *)

(** C2. Below the depth bound, each builder returns a node for every entry
    of the listing, in order, and never raises; when the listing of a
    directory that is to be expanded fails, the node of that directory has
    an empty [children] list. *)
Theorem failure_isolation (max_depth current_depth : Z) :
  current_depth < max_depth →
  (∀ repo_obj entries,
     ∃ t, _build_structure_tree (Listing entries) repo_obj max_depth
            current_depth = Ok t
          ∧ Forall2 (λ content node,
               node_of_entry content node
               ∧ (cf_type content = "dir" →
                  current_depth < max_depth - 1 →
                  listing_fails repo_obj content →
                  node_children node = Some [])) entries t)
  ∧ (∀ w owner repo entries,
       ∃ t, _build_structure_tree_api w (ListingBody entries) owner repo
              max_depth current_depth = Ok t
            ∧ Forall2 (λ content node,
                 node_of_api_entry content node
                 ∧ (e_type content = "dir" →
                    current_depth < max_depth - 1 →
                    api_listing_fails w owner repo content →
                    node_children node = Some [])) entries t).
Proof.
  intros Hlt. split; intros.
  - apply _build_structure_tree_nodes; [done|]. intros content node Hnode.
    destruct (_build_structure_tree_item_spec
                (λ sub depth, _build_structure_tree sub repo_obj max_depth depth)
                repo_obj max_depth current_depth content)
      as (node' & Hnode' & Hent & _ & Hch).
    rewrite Hnode in Hnode'. injection Hnode' as <-.
    split; [done|]. intros Hdir Hdepth [e He].
    rewrite Hch, He, bool_decide_true by done.
    by assert ((current_depth <? max_depth - 1) = true) as -> by lia.
  - apply _build_structure_tree_api_nodes; [done|]. intros content node Hnode.
    destruct (_build_structure_tree_api_item_spec
                (λ sub depth,
                   _build_structure_tree_api w sub owner repo max_depth depth)
                w owner repo max_depth current_depth content)
      as (node' & Hnode' & Hent & _ & Hch).
    rewrite Hnode in Hnode'. injection Hnode' as <-.
    split; [done|]. intros Hdir Hdepth Hfail.
    rewrite Hch, bool_decide_true by done.
    assert ((current_depth <? max_depth - 1) = true) as -> by lia.
    simpl. f_equal.
    destruct Hfail as [[e He]|[(r & Hr & Hst)|(r & e & Hr & He)]].
    + by rewrite He.
    + rewrite Hr, bind_Ok.
      by assert ((status_code r =? 200) = false) as -> by lia.
    + rewrite Hr, bind_Ok, He. by destruct (_ =? 200).
Qed.

Lemma failure_isolation_witness :
  0 < 3
  ∧ ∃ t, _build_structure_tree (Listing Sample.root) Sample.repository 3 0
         = Ok t
         ∧ Forall2 (λ content node,
              node_of_entry content node
              ∧ (cf_type content = "dir" → 0 < 3 - 1 →
                 listing_fails Sample.repository content →
                 node_children node = Some [])) Sample.root t.
Proof.
  assert (0 < 3) as H by lia.
  split; [exact H|].
  exact (proj1 (failure_isolation 3 0 H) Sample.repository Sample.root).
Defined.

(** In the sample repository [vendor] cannot be listed: on both paths its
    node has the empty list of children and its siblings are all there. *)
Example sample_vendor_isolated :
  (last <$> _build_structure_tree (Listing Sample.root) Sample.repository 3 0)
  = Ok (Some {| node_name := "vendor"; node_type := "dir";
                node_path := "vendor"; node_size := None;
                node_children := Some [] |})
  ∧ (last <$> _build_structure_tree_api Sample.fallback
                (ListingBody (Sample.entry <$> Sample.root))
                "octocat" "Hello-World" 3 0)
    = Ok (Some {| node_name := "vendor"; node_type := "dir";
                  node_path := "vendor"; node_size := None;
                  node_children := Some [] |})
  ∧ (length <$> _build_structure_tree (Listing Sample.root)
                  Sample.repository 3 0) = Ok 4%nat.
Proof. split_and!; reflexivity. Qed.

(** ** Directories cut off by the depth bound *)

(** C6, as the code has it. At the last level that is visited
    ([max_depth - 1 ≤ current_depth < max_depth]) no entry is expanded:
    each builder returns one node per entry, and the node has no
    [children] key at all. The key is present exactly for a directory
    above that level. *)
Theorem depth_limited_directory_children_absent (max_depth current_depth : Z) :
  current_depth < max_depth →
  (∀ repo_obj entries,
     ∃ t, _build_structure_tree (Listing entries) repo_obj max_depth
            current_depth = Ok t
          ∧ Forall2 (λ content node,
               node_of_entry content node
               ∧ (max_depth - 1 ≤ current_depth →
                  node_children node = None)
               ∧ (is_Some (node_children node) ↔
                  cf_type content = "dir"
                  ∧ current_depth < max_depth - 1)) entries t)
  ∧ (∀ w owner repo entries,
       ∃ t, _build_structure_tree_api w (ListingBody entries) owner repo
              max_depth current_depth = Ok t
            ∧ Forall2 (λ content node,
                 node_of_api_entry content node
                 ∧ (max_depth - 1 ≤ current_depth →
                    node_children node = None)
                 ∧ (is_Some (node_children node) ↔
                    e_type content = "dir"
                    ∧ current_depth < max_depth - 1)) entries t).
Proof.
  intros Hlt. split; intros.
  - apply _build_structure_tree_nodes; [done|]. intros content node Hnode.
    destruct (_build_structure_tree_item_spec
                (λ sub depth, _build_structure_tree sub repo_obj max_depth depth)
                repo_obj max_depth current_depth content)
      as (node' & Hnode' & Hent & _ & Hch).
    rewrite Hnode in Hnode'. injection Hnode' as <-.
    split; [done|]. rewrite Hch. split.
    + intros Hge.
      assert ((current_depth <? max_depth - 1) = false) as -> by lia.
      by rewrite andb_false_r.
    + case_bool_decide as Hdir; simpl.
      * destruct (current_depth <? max_depth - 1) eqn:E.
        -- split; [split; [done | lia] | by eexists].
        -- split; [by intros [? ?] | intros [_ ?]; lia].
      * split; [by intros [? ?] | by intros [? _]].
  - apply _build_structure_tree_api_nodes; [done|]. intros content node Hnode.
    destruct (_build_structure_tree_api_item_spec
                (λ sub depth,
                   _build_structure_tree_api w sub owner repo max_depth depth)
                w owner repo max_depth current_depth content)
      as (node' & Hnode' & Hent & _ & Hch).
    rewrite Hnode in Hnode'. injection Hnode' as <-.
    split; [done|]. rewrite Hch. split.
    + intros Hge.
      assert ((current_depth <? max_depth - 1) = false) as -> by lia.
      by rewrite andb_false_r.
    + case_bool_decide as Hdir; simpl.
      * destruct (current_depth <? max_depth - 1) eqn:E.
        -- split; [split; [done | lia] | by eexists].
        -- split; [by intros [? ?] | intros [_ ?]; lia].
      * split; [by intros [? ?] | by intros [? _]].
Qed.

Lemma depth_limited_directory_children_absent_witness :
  0 < 1
  ∧ ∃ t, _build_structure_tree (Listing Sample.root) Sample.repository 1 0
         = Ok t
         ∧ Forall2 (λ content node,
              node_of_entry content node
              ∧ (1 - 1 ≤ 0 → node_children node = None)
              ∧ (is_Some (node_children node) ↔
                 cf_type content = "dir" ∧ 0 < 1 - 1)) Sample.root t.
Proof.
  assert (0 < 1) as H by lia.
  split; [exact H|].
  exact (proj1 (depth_limited_directory_children_absent 1 0 H)
           Sample.repository Sample.root).
Defined.

(** C6 as the specification states it fails: with [max_depth = 1] the
    directories of the root listing are not expanded, and their nodes have
    no [children] key rather than an empty list, on both paths. *)
Lemma depth_limited_directory_children_empty_counterexample :
  ¬ (∀ repo_obj entries max_depth current_depth t,
       max_depth - 1 ≤ current_depth →
       _build_structure_tree (Listing entries) repo_obj max_depth
         current_depth = Ok t →
       Forall (λ node, node_type node = "dir" →
                       node_children node = Some []) t)
  ∧ ¬ (∀ w owner repo entries max_depth current_depth t,
         max_depth - 1 ≤ current_depth →
         _build_structure_tree_api w (ListingBody entries) owner repo
           max_depth current_depth = Ok t →
         Forall (λ node, node_type node = "dir" →
                         node_children node = Some []) t).
Proof.
  split; intros H.
  - specialize (H Sample.repository [Sample.dir "src" "src"] 1 0 _
                  ltac:(lia) eq_refl).
    apply Forall_cons_1 in H as [H _]. by specialize (H eq_refl).
  - specialize (H Sample.fallback "octocat" "Hello-World"
                  [Sample.entry (Sample.dir "src" "src")] 1 0 _
                  ltac:(lia) eq_refl).
    apply Forall_cons_1 in H as [H _]. by specialize (H eq_refl).
Qed.

(** ** The depth bound on paths *)

Lemma count_app c (s1 s2 : string) :
  Str.count c (s1 +:+ s2) = (Str.count c s1 + Str.count c s2)%nat.
Proof. induction s1 as [|d s1 IH]; simpl; [done|]. rewrite IH. lia. Qed.

Lemma app_empty_inv (s1 s2 : string) : s1 +:+ s2 = "" → s1 = "" ∧ s2 = "".
Proof. by destruct s1. Qed.

(** The entry [name] of directory [dir] lies one level below [dir]. *)
Lemma components_child_path dir name :
  valid_name name →
  components (child_path dir name) = S (components dir).
Proof.
  intros [Hne Hslash]. unfold child_path.
  destruct (decide (dir = "")) as [->|Hdir].
  - unfold components. simpl. by rewrite bool_decide_false, Hslash.
  - rewrite bool_decide_false by done. unfold components.
    rewrite (bool_decide_false (dir = "")) by done.
    rewrite bool_decide_false.
    + rewrite !count_app, Hslash. simpl. lia.
    + intros [? _]%app_empty_inv. done.
Qed.

Lemma child_path_within dir name :
  valid_name name → within dir (child_path dir name).
Proof. intros H. unfold within. by rewrite components_child_path. Qed.

Lemma node_nodes_eq node :
  node_nodes node
  = node :: match node_children node with
            | Some children => tree_nodes children
            | None => []
            end.
Proof.
  by destruct node as [? ? ? ? [children|]].
Qed.

Lemma tree_nodes_Forall2 {A} (Q : A → Prop) (P : TreeNode → Prop)
    (xs : list A) t :
  Forall Q xs →
  Forall2 (λ x node, Q x → Forall P (node_nodes node)) xs t →
  Forall P (tree_nodes t).
Proof.
  unfold tree_nodes. intros HQ H.
  induction H as [|x node xs t Hx _ IH]; simpl; [done|].
  apply Forall_cons_1 in HQ as [Hq HQ].
  apply Forall_app. split; [by apply Hx | by apply IH].
Qed.

(** A single file in place of a listing yields no node. *)
Lemma _build_structure_tree_single f repo_obj md cd :
  match _build_structure_tree (Single f) repo_obj md cd with
  | Ok children => children
  | Raised _ => []
  end = [].
Proof.
  rewrite _build_structure_tree_eq. unfold _build_structure_tree_body.
  by destruct (cd >=? md).
Qed.

Section DepthBound.
Variable max_depth : Z.

Lemma _build_structure_tree_bounded repo_obj :
  content_tree repo_obj →
  ∀ (n : nat) current_depth dir entries,
    Z.to_nat (max_depth - current_depth) = n →
    Forall (λ c, within dir (cf_path c)) entries →
    ∃ t, _build_structure_tree (Listing entries) repo_obj max_depth
           current_depth = Ok t
         ∧ Forall (path_bounded max_depth dir current_depth) (tree_nodes t).
Proof.
  intros Htree. induction n as [|n IH]; intros cd dir entries Hn Hin.
  - exists []. split; [|by constructor].
    rewrite _build_structure_tree_eq. unfold _build_structure_tree_body.
    by assert ((cd >=? max_depth) = true) as -> by lia.
  - assert (cd < max_depth) as Hlt by lia.
    destruct (_build_structure_tree_nodes
                (λ c node, within dir (cf_path c) →
                           Forall (path_bounded max_depth dir cd) (node_nodes node))
                repo_obj entries max_depth cd Hlt) as (t & Ht & Hall).
    + intros content node Hnode Hc.
      destruct (_build_structure_tree_item_spec
                  (λ sub depth,
                     _build_structure_tree sub repo_obj max_depth depth)
                  repo_obj max_depth cd content)
        as (node' & Hnode' & (_ & _ & Hpath) & _ & Hch).
      rewrite Hnode in Hnode'. injection Hnode' as <-.
      rewrite node_nodes_eq. constructor.
      { unfold path_bounded, within in *. rewrite Hpath. lia. }
      rewrite Hch. destruct (_ && _); [|by constructor].
      destruct (repo_get_contents repo_obj (cf_path content))
        as [[sub|f]|e] eqn:Hget; [| |by constructor].
      2:{ rewrite bind_Ok, _build_structure_tree_single. constructor. }
      rewrite bind_Ok.
      destruct (IH (cd + 1) (cf_path content) sub ltac:(lia)
                  (Htree _ _ Hget)) as (t' & -> & Ht').
      eapply Forall_impl; [exact Ht'|].
      intros nd. unfold path_bounded, within in *. lia.
    + exists t. split; [done|].
      by eapply tree_nodes_Forall2.
Qed.
End DepthBound.

(** A body that is not a listing yields no node. *)
Lemma _build_structure_tree_api_not_listing w body owner repo md cd :
  (∀ entries, body ≠ ListingBody entries) →
  match _build_structure_tree_api w body owner repo md cd with
  | Ok children => children
  | Raised _ => []
  end = [].
Proof.
  intros Hbody. rewrite _build_structure_tree_api_eq.
  unfold _build_structure_tree_api_body.
  destruct (cd >=? md); [done|].
  destruct body; [done| |done]. by destruct (Hbody l).
Qed.

Section DepthBoundApi.
Variable max_depth : Z.
Variable w : World.
Variables owner repo : string.

Lemma _build_structure_tree_api_bounded :
  api_content_tree w owner repo →
  ∀ (n : nat) current_depth dir entries,
    Z.to_nat (max_depth - current_depth) = n →
    Forall (λ c, within dir (e_path c)) entries →
    ∃ t, _build_structure_tree_api w (ListingBody entries) owner repo
           max_depth current_depth = Ok t
         ∧ Forall (path_bounded max_depth dir current_depth) (tree_nodes t).
Proof.
  intros Htree. induction n as [|n IH]; intros cd dir entries Hn Hin.
  - exists []. split; [|by constructor].
    rewrite _build_structure_tree_api_eq.
    unfold _build_structure_tree_api_body.
    by assert ((cd >=? max_depth) = true) as -> by lia.
  - assert (cd < max_depth) as Hlt by lia.
    destruct (_build_structure_tree_api_nodes
                (λ c node, within dir (e_path c) →
                           Forall (path_bounded max_depth dir cd) (node_nodes node))
                w owner repo entries max_depth cd Hlt) as (t & Ht & Hall).
    + intros content node Hnode Hc.
      destruct (_build_structure_tree_api_item_spec
                  (λ sub depth,
                     _build_structure_tree_api w sub owner repo max_depth
                       depth)
                  w owner repo max_depth cd content)
        as (node' & Hnode' & (_ & _ & Hpath) & _ & Hch).
      rewrite Hnode in Hnode'. injection Hnode' as <-.
      rewrite node_nodes_eq. constructor.
      { unfold path_bounded, within in *. rewrite Hpath. lia. }
      rewrite Hch. destruct (_ && _); [|by constructor].
      destruct (requests_get w _) as [response|e] eqn:Hget;
        [|by constructor].
      rewrite bind_Ok.
      destruct (status_code response =? 200) eqn:Hst; [|by constructor].
      destruct (json response) as [body|e] eqn:Hjson; [|by constructor].
      rewrite bind_Ok.
      destruct body as [d|sub|f c].
      * rewrite _build_structure_tree_api_not_listing by done. constructor.
      * destruct (IH (cd + 1) (e_path content) sub ltac:(lia)
                    (Htree _ _ _ Hget ltac:(lia) Hjson)) as (t' & -> & Ht').
        eapply Forall_impl; [exact Ht'|].
        intros nd. unfold path_bounded, within in *. lia.
      * rewrite _build_structure_tree_api_not_listing by done. constructor.
    + exists t. split; [done|].
      by eapply tree_nodes_Forall2.
Qed.
End DepthBoundApi.

(** C1. With [max_depth = 0] both builders return the empty list. With
    [max_depth = N] on a content tree, started on the listing of the
    directory [root], both builders return a tree, and no node of it has
    a path with more components than [root] has plus [N]. *)
Theorem structure_depth_bound :
  (∀ contents repo_obj, _build_structure_tree contents repo_obj 0 0 = Ok [])
  ∧ (∀ w contents owner repo,
       _build_structure_tree_api w contents owner repo 0 0 = Ok [])
  ∧ (∀ max_depth repo_obj root entries,
       content_tree repo_obj →
       Forall (λ c, within root (cf_path c)) entries →
       ∃ t, _build_structure_tree (Listing entries) repo_obj max_depth 0
            = Ok t
            ∧ Forall (λ node,
                 Z.of_nat (components (node_path node))
                 ≤ Z.of_nat (components root) + max_depth) (tree_nodes t))
  ∧ (∀ max_depth w owner repo root entries,
       api_content_tree w owner repo →
       Forall (λ c, within root (e_path c)) entries →
       ∃ t, _build_structure_tree_api w (ListingBody entries) owner repo
              max_depth 0 = Ok t
            ∧ Forall (λ node,
                 Z.of_nat (components (node_path node))
                 ≤ Z.of_nat (components root) + max_depth) (tree_nodes t)).
Proof.
  split_and!.
  - intros. rewrite _build_structure_tree_eq. done.
  - intros. rewrite _build_structure_tree_api_eq. done.
  - intros max_depth repo_obj root entries Htree Hroot.
    destruct (_build_structure_tree_bounded max_depth repo_obj Htree
                _ 0 root entries eq_refl Hroot) as (t & Ht & Hb).
    exists t. split; [done|].
    eapply Forall_impl; [exact Hb|]. intros nd. unfold path_bounded. lia.
  - intros max_depth w owner repo root entries Htree Hroot.
    destruct (_build_structure_tree_api_bounded max_depth w owner repo Htree
                _ 0 root entries eq_refl Hroot) as (t & Ht & Hb).
    exists t. split; [done|].
    eapply Forall_impl; [exact Hb|]. intros nd. unfold path_bounded. lia.
Qed.

(** The sample repository is a content tree on both paths. *)
Lemma sample_content_tree : content_tree Sample.repository.
Proof.
  intros dir entries H. simpl in H. unfold Sample.get_contents in H.
  repeat case_bool_decide; simplify_eq;
    repeat constructor; unfold within; subst; simpl; lia.
Qed.

Lemma sample_root_within :
  Forall (λ c, within "" (cf_path c)) Sample.root.
Proof. repeat constructor; unfold within; simpl; lia. Qed.

Lemma sample_api_content_tree :
  api_content_tree Sample.fallback "octocat" "Hello-World".
Proof.
  intros dir response entries H Hst Hjson. simpl in H.
  unfold Sample.http_get, Sample.ok, Sample.status in H.
  repeat case_bool_decide; simplify_eq; simpl in *; simplify_eq;
    repeat match goal with
           | H : "" +:+ _ = _ |- _ => cbv in H; subst
           end;
    repeat (apply List.Forall_cons; [unfold within; vm_compute; lia|]);
    apply List.Forall_nil.
Qed.

Lemma sample_api_root_within :
  Forall (λ c, within "" (e_path c)) (Sample.entry <$> Sample.root).
Proof. repeat constructor; unfold within; simpl; lia. Qed.

Lemma structure_depth_bound_witness :
  (content_tree Sample.repository
   ∧ Forall (λ c, within "" (cf_path c)) Sample.root
   ∧ ∃ t, _build_structure_tree (Listing Sample.root) Sample.repository 2 0
          = Ok t
          ∧ Forall (λ node,
               Z.of_nat (components (node_path node))
               ≤ Z.of_nat (components "") + 2) (tree_nodes t))
  ∧ (api_content_tree Sample.fallback "octocat" "Hello-World"
     ∧ Forall (λ c, within "" (e_path c)) (Sample.entry <$> Sample.root)
     ∧ ∃ t, _build_structure_tree_api Sample.fallback
              (ListingBody (Sample.entry <$> Sample.root))
              "octocat" "Hello-World" 2 0 = Ok t
            ∧ Forall (λ node,
                 Z.of_nat (components (node_path node))
                 ≤ Z.of_nat (components "") + 2) (tree_nodes t)).
Proof.
  split.
  - split; [exact sample_content_tree|].
    split; [exact sample_root_within|].
    exact (proj1 (proj2 (proj2 structure_depth_bound)) 2 Sample.repository
             "" Sample.root sample_content_tree sample_root_within).
  - split; [exact sample_api_content_tree|].
    split; [exact sample_api_root_within|].
    exact (proj2 (proj2 (proj2 structure_depth_bound)) 2 Sample.fallback
             "octocat" "Hello-World" "" (Sample.entry <$> Sample.root)
             sample_api_content_tree sample_api_root_within).
Defined.

(** The sample tree with [max_depth = 2]: [src/lib] is listed and not
    expanded, [vendor] cannot be listed, the deepest path has two
    components. *)
Example sample_tree_depth_2 :
  (λ t, node_path <$> tree_nodes t) <$>
     _build_structure_tree (Listing Sample.root) Sample.repository 2 0
  = Ok ["README.md"; "requirements.txt"; "src"; "src/main.py"; "src/lib";
        "vendor"].
Proof. reflexivity. Qed.

(** ** [str.strip] and [str.split] *)

Section Strip.
Variable p : ascii → bool.

(** What [lstrip] leaves does not begin with a stripped character. *)
Lemma lstrip_by_first s c r :
  Str.lstrip_by p s = String c r → p c = false.
Proof.
  induction s as [|d s IH]; simpl; [done|].
  destruct (p d) eqn:E; [done|]. intros [= <- _]. done.
Qed.

(** [rstrip] keeps the first character of what it leaves. *)
Lemma rstrip_by_first s c r :
  Str.rstrip_by p s = String c r → ∃ r', s = String c r'.
Proof.
  destruct s as [|d s]; simpl; [done|].
  destruct (Str.rstrip_by p s); [destruct (p d)|];
    intros [= <- _]; by eexists.
Qed.

(** What [rstrip] leaves does not end with a stripped character. *)
Lemma rstrip_by_last s r c :
  Str.rstrip_by p s = r +:+ String c "" → p c = false.
Proof.
  revert r. induction s as [|d s IH]; intros r; simpl.
  - by destruct r.
  - destruct (Str.rstrip_by p s) as [|e t] eqn:E.
    + destruct (p d) eqn:Hd; [by destruct r|].
      destruct r as [|? [|]]; simpl; intros [=]; by subst.
    + destruct r as [|x r]; simpl; [intros [=]|].
      intros [= -> Ht]. by apply (IH r).
Qed.

Lemma rstrip_by_snoc s c :
  p c = true → Str.rstrip_by p (s +:+ String c "") = Str.rstrip_by p s.
Proof.
  intros Hc. induction s as [|d s IH]; simpl; [by rewrite Hc|].
  by rewrite IH.
Qed.

Lemma strip_by_snoc s c :
  p c = true → Str.strip_by p (s +:+ String c "") = Str.strip_by p s.
Proof.
  intros Hc. unfold Str.strip_by.
  induction s as [|d s IH]; simpl; [by rewrite Hc|].
  destruct (p d); [done|].
  by rewrite <- (rstrip_by_snoc (String d s) c Hc).
Qed.

Lemma strip_by_first s c r : Str.strip_by p s = String c r → p c = false.
Proof.
  unfold Str.strip_by. intros [r' H]%rstrip_by_first.
  by apply lstrip_by_first in H.
Qed.

Lemma strip_by_last s r c :
  Str.strip_by p s = r +:+ String c "" → p c = false.
Proof. apply rstrip_by_last. Qed.
End Strip.

Lemma split_nonempty c s : Str.split c s ≠ [].
Proof.
  destruct s as [|d s]; simpl; [done|].
  case_bool_decide; [done|]. by destruct (Str.split c s).
Qed.

(** An empty first segment: the string is empty or begins with the
    separator. *)
Lemma split_first_empty c s rest :
  Str.split c s = "" :: rest → s = "" ∨ ∃ r, s = String c r.
Proof.
  destruct s as [|d s]; simpl; [by left|].
  case_bool_decide as Hd; [subst; right; by eexists|].
  by destruct (Str.split c s).
Qed.

(** An empty last segment: the string is empty or ends with the
    separator. *)
Lemma split_last_empty c s :
  last (Str.split c s) = Some "" → s = "" ∨ ∃ r, s = r +:+ String c "".
Proof.
  induction s as [|d s IH]; simpl; [by left|]. intros H. right.
  pose proof (split_nonempty c s) as Hne.
  destruct (Str.split c s) as [|h t] eqn:E; [done|].
  case_bool_decide as Hd.
  - subst d. change (last ("" :: h :: t)) with (last (h :: t)) in H.
    apply IH in H as [->|[r ->]]; [by exists "" | by exists (String c r)].
  - destruct t as [|h' t]; [done|].
    change (last (String d h :: h' :: t)) with (last (h :: h' :: t)) in H.
    apply IH in H as [->|[r ->]]; [done | by exists (String d r)].
Qed.

(** ** The locator parser *)

Lemma parse_github_url_unfold w repo_url parsed :
  urlparse w repo_url = Ok parsed →
  parse_github_url w repo_url =
  if bool_decide (pr_netloc parsed ≠ "github.com")
  then Raised (ValueError "Invalid GitHub URL")
  else match Str.split "/" (Str.strip_char "/" (pr_path parsed)) with
       | owner :: name :: _ => Ok (owner, name)
       | _ => Raised (ValueError "Invalid GitHub repository URL format")
       end.
Proof.
  intros Hp. unfold parse_github_url. rewrite Hp, bind_Ok.
  case_bool_decide; [done|].
  by destruct (Str.split _ _) as [|owner [|name extras]].
Qed.

(** An error of [urlparse] itself reaches the caller unchanged. *)
Lemma parse_github_url_urlparse_raises w repo_url e :
  urlparse w repo_url = Raised e → parse_github_url w repo_url = Raised e.
Proof. intros H. unfold parse_github_url. by rewrite H. Qed.

(** C7, as the code has it. The parser raises [ValueError] when the netloc
    is not ["github.com"] and when the path, with the slashes at both ends
    trimmed, has fewer than two segments; otherwise it returns the first
    two segments and ignores the others. The owner is never empty, and the
    name is not empty when there are exactly two segments. A slash added
    at the end of the path changes nothing. *)
Theorem parse_github_url_spec (w : World) (repo_url : string)
    (parsed : ParseResult) :
  urlparse w repo_url = Ok parsed →
  let path_parts := Str.split "/" (Str.strip_char "/" (pr_path parsed)) in
  (pr_netloc parsed ≠ "github.com" →
   parse_github_url w repo_url = Raised (ValueError "Invalid GitHub URL"))
  ∧ (pr_netloc parsed = "github.com" → (length path_parts < 2)%nat →
     parse_github_url w repo_url
     = Raised (ValueError "Invalid GitHub repository URL format"))
  ∧ (pr_netloc parsed = "github.com" →
     ∀ owner name extras, path_parts = owner :: name :: extras →
       parse_github_url w repo_url = Ok (owner, name)
       ∧ owner ≠ "" ∧ (extras = [] → name ≠ ""))
  ∧ (∀ url' parsed', urlparse w url' = Ok parsed' →
       pr_netloc parsed' = pr_netloc parsed →
       pr_path parsed' = pr_path parsed +:+ "/" →
       parse_github_url w url' = parse_github_url w repo_url).
Proof.
  intros Hp path_parts. split_and!.
  - intros Hnet. rewrite (parse_github_url_unfold _ _ _ Hp).
    by rewrite bool_decide_true.
  - intros Hnet Hlen. rewrite (parse_github_url_unfold _ _ _ Hp).
    rewrite bool_decide_false by (by intros []). fold path_parts.
    destruct path_parts as [|? [|? ?]]; simpl in Hlen; [done..|lia].
  - intros Hnet owner name extras Hparts.
    rewrite (parse_github_url_unfold _ _ _ Hp).
    rewrite bool_decide_false by (by intros []). fold path_parts.
    rewrite Hparts. split; [done|]. unfold path_parts in Hparts. split.
    + intros ->. destruct (split_first_empty _ _ _ Hparts) as [Hs|[r Hs]].
      * by rewrite Hs in Hparts.
      * apply strip_by_first in Hs. by rewrite bool_decide_true in Hs.
    + intros -> ->.
      destruct (split_last_empty "/" (Str.strip_char "/" (pr_path parsed)))
        as [Hs|[r Hs]].
      * by rewrite Hparts.
      * by rewrite Hs in Hparts.
      * apply strip_by_last in Hs. by rewrite bool_decide_true in Hs.
  - intros url' parsed' Hp' Hnet Hpath.
    rewrite (parse_github_url_unfold _ _ _ Hp),
      (parse_github_url_unfold _ _ _ Hp'), Hnet, Hpath.
    unfold Str.strip_char. by rewrite strip_by_snoc by done.
Qed.

Lemma parse_github_url_spec_witness :
  parse_github_url Sample.fallback
    "https://github.com/octocat/Hello-World/tree/master/"
  = Ok ("octocat", "Hello-World")
  ∧ parse_github_url Sample.fallback "https://github.com/octocat/Hello-World/"
    = parse_github_url Sample.fallback "https://github.com/octocat/Hello-World".
Proof.
  pose proof (parse_github_url_spec Sample.fallback
                "https://github.com/octocat/Hello-World/tree/master/"
                (Sample.github_path "/octocat/Hello-World/tree/master/")
                eq_refl) as (_ & _ & H & _).
  pose proof (parse_github_url_spec Sample.fallback
                "https://github.com/octocat/Hello-World"
                (Sample.github_path "/octocat/Hello-World")
                eq_refl) as (_ & _ & _ & H').
  split.
  - exact (proj1 (H eq_refl "octocat" "Hello-World" ["tree"; "master"]
                    eq_refl)).
  - exact (H' "https://github.com/octocat/Hello-World/"
              (Sample.github_path "/octocat/Hello-World/")
              eq_refl eq_refl eq_refl).
Defined.

(** C7 as the specification states it fails: the segments returned need
    not be non-empty. The path [/a//b] has the segments [a], the empty
    string and [b], and the parser returns the first two. *)
Lemma parse_github_url_nonempty_counterexample :
  parse_github_url Sample.fallback "https://github.com/a//b" = Ok ("a", "")
  ∧ ¬ (∀ w repo_url owner name,
         parse_github_url w repo_url = Ok (owner, name) →
         owner ≠ "" ∧ name ≠ "").
Proof.
  split; [reflexivity|]. intros H.
  by destruct (H Sample.fallback "https://github.com/a//b" "a" "" eq_refl).
Qed.

Example parse_github_url_foreign_host :
  parse_github_url Sample.fallback "https://gitlab.com/octocat/Hello-World"
  = Raised (ValueError "Invalid GitHub URL").
Proof. reflexivity. Qed.

(** The comparison is on the netloc: a port or user information makes it
    differ from ["github.com"]. *)
Example parse_github_url_port :
  parse_github_url Sample.fallback "https://github.com:443/octocat/Hello-World"
  = Raised (ValueError "Invalid GitHub URL").
Proof. reflexivity. Qed.

Example parse_github_url_owner_only :
  parse_github_url Sample.fallback "https://github.com/octocat/"
  = Raised (ValueError "Invalid GitHub repository URL format").
Proof. reflexivity. Qed.

(** ** The combined summary *)

Lemma take_substring n s : Str.take n s = String.substring 0 n s.
Proof.
  revert s. induction n as [|n IH]; intros [|c s]; simpl; [done..|].
  by rewrite IH.
Qed.

Lemma take_length n s :
  (n ≤ String.length s)%nat → String.length (Str.take n s) = n.
Proof.
  revert s. induction n as [|n IH]; intros [|c s]; simpl; [done|done|lia|].
  intros H. rewrite IH; lia.
Qed.

Lemma append_length (s1 s2 : string) :
  String.length (s1 +:+ s2) = (String.length s1 + String.length s2)%nat.
Proof. induction s1 as [|c s1 IH]; simpl; [done|]. by rewrite IH. Qed.

(** C8. When its three fetches succeed, [get_repo_info] returns a summary
    whose preview is the document itself when that has at most 500
    characters, and otherwise its first 500 characters followed by ["..."]
    (503 characters in all); the structure summary is the first 10 entries
    of the top-level tree in their order. *)
Theorem repo_info_truncation (w : World) (repo_url owner repo : string)
    (metadata : RepositoryMetadata) (readme : string)
    (structure : list TreeNode) :
  parse_github_url w repo_url = Ok (owner, repo) →
  get_repository_metadata w owner repo = Ok metadata →
  get_repository_readme w owner repo = Ok readme →
  get_repository_structure w owner repo 3 = Ok structure →
  ∃ info,
    get_repo_info w repo_url = Ok info
    ∧ ((String.length readme ≤ 500)%nat → info_readme_preview info = readme)
    ∧ ((500 < String.length readme)%nat →
       info_readme_preview info = String.substring 0 500 readme +:+ "..."
       ∧ String.length (info_readme_preview info) = 503%nat)
    ∧ info_structure_summary info = firstn 10 structure
    ∧ length (info_structure_summary info) = (10 `min` length structure)%nat
    ∧ (∀ i, (i < 10)%nat →
         info_structure_summary info !! i = structure !! i).
Proof.
  intros Hurl Hmeta Hreadme Hstruct. eexists. split.
  { unfold get_repo_info. rewrite Hurl, bind_Ok, Hmeta, bind_Ok, Hreadme,
      bind_Ok, Hstruct, bind_Ok. reflexivity. }
  cbn [info_readme_preview info_structure_summary].
  unfold Str.len, Str.slice_to. split_and!.
  - intros Hle. by assert ((Z.of_nat (String.length readme) >? 500) = false)
      as -> by lia.
  - intros Hgt. assert ((Z.of_nat (String.length readme) >? 500) = true)
      as -> by lia.
    change (Z.to_nat 500) with 500%nat. split.
    + by rewrite take_substring.
    + rewrite append_length, take_length by lia. done.
  - done.
  - apply length_take.
  - intros i Hi. by apply lookup_take_lt.
Qed.

Lemma repo_info_truncation_witness :
  ∃ info,
    get_repo_info Sample.large Sample.url = Ok info
    ∧ String.length Sample.long_readme = 600%nat
    ∧ info_readme_preview info
      = String.substring 0 500 Sample.long_readme +:+ "..."
    ∧ String.length (info_readme_preview info) = 503%nat
    ∧ length Sample.wide_root = 15%nat
    ∧ length (info_structure_summary info) = 10%nat
    ∧ (node_name <$> info_structure_summary info)
      = firstn 10 (cf_name <$> Sample.wide_root).
Proof.
  assert (parse_github_url Sample.large Sample.url
          = Ok ("octocat", "Hello-World")) as H1 by reflexivity.
  assert (get_repository_readme Sample.large "octocat" "Hello-World"
          = Ok Sample.long_readme) as H3 by (vm_compute; reflexivity).
  destruct (repo_info_truncation Sample.large Sample.url "octocat"
              "Hello-World" _ Sample.long_readme _ H1 eq_refl H3 eq_refl)
    as (info & Hinfo & _ & Hlong & Hsum & Hlen & _).
  exists info. split; [exact Hinfo|].
  split; [vm_compute; reflexivity|].
  assert (500 < String.length Sample.long_readme)%nat as Hgt
    by (vm_compute; lia).
  destruct (Hlong Hgt) as [Hprev Hplen].
  split; [exact Hprev|]. split; [exact Hplen|].
  split; [reflexivity|].
  split; [rewrite Hlen; reflexivity|].
  rewrite Hsum. vm_compute. reflexivity.
Defined.

(** ** The per-format summarizer *)

Lemma _parse_dependency_file_requirements w content :
  _parse_dependency_file w "requirements.txt" content
  = Ok (Requirements
          (map Str.strip
             (List.filter requirement_line (Str.split "010" content)))).
Proof. reflexivity. Qed.

Lemma requirement_lines_nonempty (lines : list string) :
  Forall (λ line, line ≠ "")
    (map Str.strip (List.filter requirement_line lines)).
Proof.
  induction lines as [|line lines IH]; simpl; [constructor|].
  destruct (requirement_line line) eqn:E; [|done].
  simpl. constructor; [|done].
  unfold requirement_line, Str.truthy in E.
  apply andb_true_iff in E as [E _]. intros Hs. rewrite Hs in E. done.
Qed.

Lemma map_strip_id (lines : list string) :
  Forall (λ line, Str.strip line = line) lines →
  map Str.strip (List.filter requirement_line lines)
  = List.filter requirement_line lines.
Proof.
  induction 1 as [|line lines Hl _ IH]; simpl; [done|].
  destruct (requirement_line line); simpl; [|done]. by rewrite Hl, IH.
Qed.

(** C4, as the code has it. For [requirements.txt] the summarizer splits
    the content at line feeds, drops the lines that are blank and the
    lines whose first character is [#], and returns the others in order
    with the white space at both ends stripped: no returned line is empty,
    and the lines come back verbatim when none of them has white space at
    its ends. For the content of the specification's example the
    aggregator returns the one entry [requirements.txt] with the lines
    [flask==2.0] and [requests], on both access paths. *)
Theorem requirements_summary :
  (∀ w content,
     ∃ lines,
       _parse_dependency_file w "requirements.txt" content
       = Ok (Requirements lines)
       ∧ lines = map Str.strip
                   (List.filter requirement_line (Str.split "010" content))
       ∧ Forall (λ line, line ≠ "") lines
       ∧ (Forall (λ line, Str.strip line = line) (Str.split "010" content) →
          lines = List.filter requirement_line (Str.split "010" content)))
  ∧ Sample.requirements_text
    = "flask==2.0" +:+ String "010" "# comment" +:+ String "010" ""
      +:+ String "010" "requests" +:+ String "010" ""
  ∧ analyze_repo_dependencies Sample.fallback Sample.url
    = Ok {[ "requirements.txt" := Requirements ["flask==2.0"; "requests"] ]}
  ∧ analyze_repo_dependencies Sample.authenticated Sample.url
    = Ok {[ "requirements.txt" := Requirements ["flask==2.0"; "requests"] ]}.
Proof.
  split_and!; [|reflexivity..].
  intros w content. eexists. split; [reflexivity|]. split; [done|]. split.
  - apply requirement_lines_nonempty.
  - apply map_strip_id.
Qed.

Lemma requirements_summary_witness :
  ∃ lines,
    _parse_dependency_file Sample.fallback "requirements.txt"
      ("flask==2.0" +:+ String "010" "requests")
    = Ok (Requirements lines)
    ∧ lines = ["flask==2.0"; "requests"]
    ∧ lines = List.filter requirement_line
                (Str.split "010" ("flask==2.0" +:+ String "010" "requests")).
Proof.
  destruct (proj1 requirements_summary Sample.fallback
              ("flask==2.0" +:+ String "010" "requests"))
    as (lines & Hlines & Heq & _ & Hverbatim).
  exists lines. split; [exact Hlines|]. split; [exact Heq|].
  apply Hverbatim. repeat constructor.
Defined.

(** C4 as the specification states it fails: the lines are not returned
    verbatim. A line with white space at its ends comes back stripped. *)
Lemma requirements_verbatim_counterexample :
  _parse_dependency_file Sample.fallback "requirements.txt" "  flask==2.0 "
  = Ok (Requirements ["flask==2.0"])
  ∧ ¬ (∀ w content,
         _parse_dependency_file w "requirements.txt" content
         = Ok (Requirements
                 (List.filter requirement_line (Str.split "010" content)))).
Proof.
  split; [reflexivity|]. intros H.
  specialize (H Sample.fallback "  flask==2.0 "). done.
Qed.

(** A line whose [#] follows white space is kept, stripped. *)
Example requirements_indented_comment :
  _parse_dependency_file Sample.fallback "requirements.txt" "  # pinned"
  = Ok (Requirements ["# pinned"]).
Proof. reflexivity. Qed.

(** The summarizer never raises. *)
Lemma _parse_dependency_file_total w file_name content :
  ∃ summary, _parse_dependency_file w file_name content = Ok summary.
Proof.
  unfold _parse_dependency_file.
  destruct (if bool_decide (file_name = "package.json") then _ else _);
    by eexists.
Qed.

(** C9, as the code has it. The summarizer never raises. For
    [package.json], when [json.loads] raises or yields a value that is not
    an object, it returns the record with the one key [error] and the
    value ["Could not parse package.json"], with a capital C; when
    [json.loads] yields an object, it returns the three sub-maps. For
    [requirements.txt] no failure is possible. *)
Theorem parse_failure_degrades (w : World) (file_name content : string) :
  (∃ summary, _parse_dependency_file w file_name content = Ok summary)
  ∧ (file_name = "package.json" →
     (∃ e, json_loads w content = Raised e)
     ∨ (∃ data, json_loads w content = Ok data ∧ ∀ m, data ≠ JDict m) →
     _parse_dependency_file w file_name content
     = Ok (ParseError ("Could not parse " +:+ file_name)))
  ∧ (file_name = "package.json" →
     ∀ m, json_loads w content = Ok (JDict m) →
     _parse_dependency_file w file_name content
     = Ok (PackageJson (default (JDict []) (assoc "dependencies" m))
             (default (JDict []) (assoc "devDependencies" m))
             (default (JDict []) (assoc "scripts" m))))
  ∧ (file_name = "requirements.txt" →
     ∃ lines, _parse_dependency_file w file_name content
              = Ok (Requirements lines)).
Proof.
  split_and!.
  - apply _parse_dependency_file_total.
  - intros -> [[e He]|(data & Hd & Hnot)]; unfold _parse_dependency_file;
      simpl; rewrite ?He, ?Hd; [done|].
    destruct data; try done. by destruct (Hnot m).
  - intros -> m Hm. unfold _parse_dependency_file. simpl. by rewrite Hm.
  - intros ->. by eexists.
Qed.

Lemma parse_failure_degrades_witness :
  _parse_dependency_file Sample.fallback "package.json" "{"
  = Ok (ParseError "Could not parse package.json")
  ∧ _parse_dependency_file Sample.fallback "package.json" "[]"
    = Ok (ParseError "Could not parse package.json")
  ∧ _parse_dependency_file Sample.fallback "package.json" "{}"
    = Ok (PackageJson (JDict []) (JDict []) (JDict [])).
Proof.
  split_and!.
  - exact (proj1 (proj2 (parse_failure_degrades Sample.fallback
                           "package.json" "{"))
             eq_refl (or_introl (ex_intro _ JSONDecodeError eq_refl))).
  - refine (proj1 (proj2 (parse_failure_degrades Sample.fallback
                            "package.json" "[]"))
              eq_refl (or_intror (ex_intro _ (JList []) (conj eq_refl _)))).
    intros m. discriminate.
  - exact (proj1 (proj2 (proj2 (parse_failure_degrades Sample.fallback
                                  "package.json" "{}")))
             eq_refl [] eq_refl).
Defined.

(** C9 as the specification states it fails in the text of the message:
    the record reads ["Could not parse package.json"], not
    ["could not parse package.json"]. *)
Lemma parse_failure_message_counterexample :
  _parse_dependency_file Sample.fallback "package.json" "{"
  = Ok (ParseError "Could not parse package.json")
  ∧ ¬ (∀ w file_name content e,
         file_name = "package.json" →
         json_loads w content = Raised e →
         _parse_dependency_file w file_name content
         = Ok (ParseError ("could not parse " +:+ file_name))).
Proof.
  split; [reflexivity|]. intros H.
  specialize (H Sample.fallback "package.json" "{" JSONDecodeError eq_refl
                eq_refl).
  discriminate H.
Qed.

(** ** The manifest scan *)

Lemma for_state_total {A S} (body : A → S → result S) xs st :
  (∀ x s, ∃ s', body x s = Ok s') → ∃ st', for_state body xs st = Ok st'.
Proof.
  intros Hbody. revert st.
  induction xs as [|x xs IH]; intros st; simpl; [by eexists|].
  destruct (Hbody x st) as [s' ->]. apply IH.
Qed.

Lemma for_state_invariant {A S} (P : S → Prop) (body : A → S → result S)
    xs st st' :
  P st →
  (∀ x s s', P s → body x s = Ok s' → P s') →
  for_state body xs st = Ok st' → P st'.
Proof.
  intros Hst Hbody. revert st Hst.
  induction xs as [|x xs IH]; intros st Hst; simpl.
  - by intros [= <-].
  - destruct (body x st) as [s|e] eqn:E; [|done].
    simpl. apply IH. by eapply Hbody.
Qed.

Lemma fallback_round_cases w owner repo file_name
    (dependencies : gmap string Summary) :
  (fallback_round w owner repo file_name dependencies = Ok dependencies)
  ∨ (¬ api_fetch_fails w owner repo file_name
     ∧ ∃ summary, fallback_round w owner repo file_name dependencies
                  = Ok (<[file_name := summary]> dependencies)).
Proof.
  unfold fallback_round, api_fetch_fails.
  destruct (requests_get w _) as [response|e] eqn:Hget; [|by left].
  rewrite bind_Ok. destruct (status_code response =? 200) eqn:Hst;
    [|by left].
  destruct (json response) as [data|] eqn:Hjson; [|by left].
  rewrite bind_Ok.
  destruct (body_content data) as [encoded|] eqn:Hbody; [|by left].
  rewrite bind_Ok.
  destruct (b64decode w encoded) as [raw|] eqn:Hraw; [|by left].
  rewrite bind_Ok.
  destruct (decode_utf8 w raw) as [content|] eqn:Hdec; [|by left].
  rewrite bind_Ok.
  destruct (_parse_dependency_file_total w file_name content)
    as [summary Hsum].
  rewrite Hsum, bind_Ok. right. split; [|by exists summary].
  intros [[e He]|(r & [= <-] & [Hne|[e He]])]; [done|lia|].
  rewrite Hjson in He. unfold mbind, result_bind in He. simpl in He.
  rewrite Hbody in He. simpl in He. rewrite Hraw in He. simpl in He.
  by rewrite Hdec in He.
Qed.

(** X1. On the fallback path the scan is best effort: once the URL is parsed
    it returns a mapping whatever the fetches do, a manifest whose fetch
    or decoding fails has no entry in it, and only catalog names have
    one. *)
Theorem fallback_scan_best_effort (w : World) (repo_url owner repo : string) :
  github_client w = None →
  parse_github_url w repo_url = Ok (owner, repo) →
  ∃ deps : gmap string Summary,
    analyze_repo_dependencies w repo_url = Ok deps
    ∧ (∀ file_name, api_fetch_fails w owner repo file_name →
         deps !! file_name = None)
    ∧ (∀ file_name, file_name ∉ dependency_files → deps !! file_name = None).
Proof.
  intros Hclient Hurl. unfold analyze_repo_dependencies.
  rewrite Hurl, bind_Ok, Hclient.
  change (for_state _ dependency_files ∅)
    with (for_state (fallback_round w owner repo) dependency_files ∅).
  destruct (for_state_total (fallback_round w owner repo) dependency_files ∅)
    as [deps Hdeps].
  { intros file_name s.
    destruct (fallback_round_cases w owner repo file_name s)
      as [->|(_ & summary & ->)]; by eexists. }
  exists deps. rewrite Hdeps. split; [done|]. split.
  - intros file_name Hfail.
    eapply (for_state_invariant (λ d, d !! file_name = None));
      [| |exact Hdeps]; [done|].
    intros x s s' Hs Hround.
    destruct (fallback_round_cases w owner repo x s)
      as [E|(Hnot & summary & E)]; rewrite E in Hround;
      injection Hround as <-; [done|].
    rewrite lookup_insert_ne; [done|]. by intros ->.
  - intros file_name Hnotin. revert Hdeps.
    generalize dependency_files Hnotin (∅ : gmap string Summary)
      (lookup_empty (A:=Summary) file_name).
    intros files. induction files as [|x files IH];
      intros Hx st Hst; simpl.
    + by intros [= <-].
    + destruct (fallback_round_cases w owner repo x st)
        as [->|(_ & summary & ->)]; simpl.
      * apply IH; [|done]. by apply not_elem_of_cons in Hx as [_ ?].
      * apply not_elem_of_cons in Hx as [Hne Hx]. apply IH; [done|].
        by rewrite lookup_insert_ne.
Qed.

Lemma fallback_scan_best_effort_witness :
  ∃ deps : gmap string Summary,
    analyze_repo_dependencies Sample.fallback Sample.url = Ok deps
    ∧ deps !! "package.json" = None.
Proof.
  destruct (fallback_scan_best_effort Sample.fallback Sample.url "octocat"
              "Hello-World" eq_refl eq_refl) as (deps & Hdeps & Hfail & _).
  exists deps. split; [exact Hdeps|]. apply Hfail. right.
  exists {| status_code := 404; json := Raised JSONDecodeError |}.
  split; [reflexivity|]. left. discriminate.
Defined.

(** On the authenticated path a fetch that raises a service exception is
    skipped: when every catalog name does so, the scan returns the empty
    mapping. *)
Lemma authenticated_scan_skips_service_errors (w : World)
    (repo_url owner repo : string) client repo_obj :
  github_client w = Some client →
  parse_github_url w repo_url = Ok (owner, repo) →
  get_repo client (owner +:+ "/" +:+ repo) = Ok repo_obj →
  (∀ file_name, ∃ e, repo_get_contents repo_obj file_name = Raised e
                     ∧ is_GithubException e = true) →
  analyze_repo_dependencies w repo_url = Ok ∅.
Proof.
  intros Hclient Hurl Hrepo Hmissing. unfold analyze_repo_dependencies.
  rewrite Hurl, bind_Ok, Hclient, Hrepo, bind_Ok.
  generalize dependency_files (∅ : gmap string Summary).
  intros files st. induction files as [|x files IH]; simpl; [done|].
  destruct (Hmissing x) as (e & -> & He). simpl. rewrite He. simpl.
  apply IH.
Qed.

(** C3, where the code departs from it. On the authenticated path only
    [GithubException] is caught inside the loop: when a manifest is
    fetched and its bytes are not UTF-8, [UnicodeDecodeError] leaves the
    loop and the whole scan raises. On the fallback path the same
    repository yields the mapping without that manifest. *)
Theorem unreadable_manifest_aborts_authenticated_scan :
  analyze_repo_dependencies Sample.binary Sample.url
  = Raised UnicodeDecodeError
  ∧ analyze_repo_dependencies Sample.binary_fallback Sample.url
    = Ok {[ "requirements.txt" := Requirements ["flask==2.0"; "requests"] ]}.
Proof. split; reflexivity. Qed.

(** ** The two paths of the metadata fetcher *)

Lemma contains_app c (s1 s2 : string) :
  Str.contains c (s1 +:+ s2) = Str.contains c s1 || Str.contains c s2.
Proof.
  induction s1 as [|d s1 IH]; simpl; [done|].
  by rewrite IH, orb_assoc.
Qed.

Lemma digit_not_Z n : bool_decide (digit n = "Z"%char) = false.
Proof.
  unfold digit. pose proof (Z.mod_pos_bound n 10 ltac:(lia)) as Hn.
  assert (Z.to_nat (n `mod` 10) < 10)%nat as Hlt by lia.
  destruct (Z.to_nat (n `mod` 10)) as [|[|[|[|[|[|[|[|[|[|k]]]]]]]]]];
    [done..|lia].
Qed.

Lemma zfill_no_Z w n : Str.contains "Z" (zfill w n) = false.
Proof.
  revert n. induction w as [|w IH]; intros n; simpl; [done|].
  rewrite contains_app, IH.
  change (Str.contains "Z" (String (digit n) ""))
    with (bool_decide (digit n = "Z"%char) || false).
  by rewrite digit_not_Z.
Qed.

Opaque zfill.

(** [isoformat] writes digits, [-], [T], [:], [.] and [+]: never a [Z]. *)
Lemma isoformat_no_Z dt : Str.contains "Z" (isoformat dt) = false.
Proof.
  unfold isoformat, format_offset.
  repeat (rewrite contains_app || rewrite zfill_no_Z); simpl.
  destruct (negb _); destruct (dt_utcoffset dt) as [m|]; simpl;
    repeat (rewrite contains_app || rewrite zfill_no_Z); simpl;
    try done; by destruct (m <? 0).
Qed.

Lemma rest_timestamp_Z dt : Str.contains "Z" (rest_timestamp dt) = true.
Proof.
  unfold rest_timestamp.
  repeat (rewrite contains_app || rewrite zfill_no_Z). done.
Qed.

Lemma isoformat_ne_rest_timestamp dt dt' : isoformat dt ≠ rest_timestamp dt'.
Proof.
  intros H. pose proof (isoformat_no_Z dt) as Hno.
  by rewrite H, rest_timestamp_Z in Hno.
Qed.

Transparent zfill.

(** C5, as the code has it. When the client object and the REST record
    carry the same data, both paths return metadata that agree on the
    fourteen fields other than the timestamps. The authenticated path
    renders [created_at] and [updated_at] with [isoformat()], the fallback
    path passes the strings of the record through; the two results are
    equal exactly when those renderings coincide, which never happens for
    a record in the service's [Z] format. *)
Theorem metadata_paths_agree_except_timestamps (w1 w2 : World)
    (owner repo : string) (client : Github) (repo_obj : Repository)
    (response : Response) (data : RepoData) :
  github_client w1 = Some client →
  get_repo client (owner +:+ "/" +:+ repo) = Ok repo_obj →
  github_client w2 = None →
  requests_get w2 ("https://api.github.com/repos/" +:+ owner +:+ "/" +:+ repo)
  = Ok response →
  ¬ (400 ≤ status_code response < 600) →
  json response = Ok (RepoBody data) →
  same_record repo_obj data →
  ∃ m1 m2,
    get_repository_metadata w1 owner repo = Ok m1
    ∧ get_repository_metadata w2 owner repo = Ok m2
    ∧ same_fields m1 m2
    ∧ meta_created_at m1 = isoformat (repo_created_at repo_obj)
    ∧ meta_updated_at m1 = isoformat (repo_updated_at repo_obj)
    ∧ meta_created_at m2 = d_created_at data
    ∧ meta_updated_at m2 = d_updated_at data
    ∧ (m1 = m2 ↔
       isoformat (repo_created_at repo_obj) = d_created_at data
       ∧ isoformat (repo_updated_at repo_obj) = d_updated_at data)
    ∧ (same_instants repo_obj data → m1 ≠ m2).
Proof.
  intros Hc1 Hrepo Hc2 Hget Hst Hjson Hsame.
  destruct Hsame as (H1 & H2 & H3 & H4 & H5 & H6 & H7 & H8 & H9 & H10 & H11
                     & H12 & H13 & H14).
  unfold get_repository_metadata.
  rewrite Hc1, Hrepo, bind_Ok, H10, bind_Ok.
  rewrite Hc2, Hget, bind_Ok. unfold raise_for_status.
  assert ((400 <=? status_code response) && (status_code response <? 600)
          = false) as -> by lia.
  rewrite bind_Ok, Hjson, bind_Ok. simpl body_repo. rewrite bind_Ok.
  unfold try_except. do 2 eexists.
  split; [reflexivity|]. split; [reflexivity|].
  split; [unfold same_fields; simpl; by rewrite H11|].
  do 4 (split; [reflexivity|]). split.
  - split.
    + intros [= ? ? ? ? ? ? ? Hc Hu]. done.
    + intros [Hc Hu]. destruct repo_obj, data; simpl in *. by subst.
  - intros [Hc Hu] [= ? ? ? ? ? ? ? Hc' ?].
    rewrite Hc in Hc'. by apply isoformat_ne_rest_timestamp in Hc'.
Qed.

Lemma sample_same_record : same_record Sample.repository Sample.repo_data.
Proof. repeat split. Qed.

Lemma sample_same_instants : same_instants Sample.repository Sample.repo_data.
Proof. split; reflexivity. Qed.

Lemma metadata_paths_agree_except_timestamps_witness :
  ∃ m1 m2,
    get_repository_metadata Sample.authenticated "octocat" "Hello-World"
    = Ok m1
    ∧ get_repository_metadata Sample.fallback "octocat" "Hello-World" = Ok m2
    ∧ same_fields m1 m2
    ∧ m1 ≠ m2.
Proof.
  assert (¬ (400 ≤ 200 < 600)) as Hst by lia.
  destruct (metadata_paths_agree_except_timestamps
              Sample.authenticated Sample.fallback "octocat" "Hello-World"
              (Sample.client_of Sample.repository) Sample.repository
              {| status_code := 200; json := Ok (RepoBody Sample.repo_data) |}
              Sample.repo_data
              eq_refl eq_refl eq_refl eq_refl Hst eq_refl sample_same_record)
    as (m1 & m2 & H1 & H2 & Hf & _ & _ & _ & _ & _ & Hne).
  exists m1, m2. split; [exact H1|]. split; [exact H2|].
  split; [exact Hf|]. exact (Hne sample_same_instants).
Defined.

(** C5 as the specification states it fails: for the same repository
    record the authenticated path returns the creation time as
    [2011-01-26T19:01:12+00:00] and the fallback path as
    [2011-01-26T19:01:12Z]. *)
Lemma metadata_paths_identical_counterexample :
  (meta_created_at <$>
     get_repository_metadata Sample.authenticated "octocat" "Hello-World")
  = Ok "2011-01-26T19:01:12+00:00"
  ∧ (meta_created_at <$>
       get_repository_metadata Sample.fallback "octocat" "Hello-World")
    = Ok "2011-01-26T19:01:12Z"
  ∧ ¬ (∀ w1 w2 owner repo client repo_obj response data,
         github_client w1 = Some client →
         get_repo client (owner +:+ "/" +:+ repo) = Ok repo_obj →
         github_client w2 = None →
         requests_get w2
           ("https://api.github.com/repos/" +:+ owner +:+ "/" +:+ repo)
         = Ok response →
         status_code response = 200 →
         json response = Ok (RepoBody data) →
         same_record repo_obj data →
         same_instants repo_obj data →
         get_repository_metadata w1 owner repo
         = get_repository_metadata w2 owner repo).
Proof.
  split; [reflexivity|]. split; [reflexivity|]. intros H.
  specialize (H Sample.authenticated Sample.fallback "octocat" "Hello-World"
                (Sample.client_of Sample.repository) Sample.repository
                {| status_code := 200;
                   json := Ok (RepoBody Sample.repo_data) |}
                Sample.repo_data
                eq_refl eq_refl eq_refl eq_refl eq_refl eq_refl
                sample_same_record sample_same_instants).
  discriminate H.
Qed.

(** A naive [datetime], as older clients build it, is rendered without an
    offset; the text still differs from the record's. *)
Example isoformat_naive :
  isoformat {| dt_year := 2011; dt_month := 1; dt_day := 26;
               dt_hour := 19; dt_minute := 1; dt_second := 12;
               dt_microsecond := 0; dt_utcoffset := None |}
  = "2011-01-26T19:01:12".
Proof. reflexivity. Qed.

Example isoformat_microseconds_offset :
  isoformat {| dt_year := 2024; dt_month := 2; dt_day := 29;
               dt_hour := 23; dt_minute := 59; dt_second := 59;
               dt_microsecond := 1500; dt_utcoffset := Some (-330) |}
  = "2024-02-29T23:59:59.001500-05:30".
Proof. reflexivity. Qed.

(** * Further properties of the server *)

(** ** The two builders compute the same tree *)

Lemma for_append_fmap {A B C} (f : B → result C) (g : A → B) xs :
  for_append f (g <$> xs) = for_append (λ x, f (g x)) xs.
Proof.
  induction xs as [|x xs IH]; [done|].
  rewrite fmap_cons. cbn [for_append]. by rewrite IH.
Qed.

Lemma TreeNode_eq (n1 n2 : TreeNode) :
  node_name n1 = node_name n2 → node_type n1 = node_type n2 →
  node_path n1 = node_path n2 → node_size n1 = node_size n2 →
  node_children n1 = node_children n2 → n1 = n2.
Proof. destruct n1, n2; simpl; congruence. Qed.

Section BuildersAgree.
Variable w : World.
Variables owner repo : string.
Variable repo_obj : Repository.
Hypothesis Hagree : listings_agree w owner repo repo_obj.
Variable max_depth : Z.

Lemma builders_agree_children current_depth content
    (self_api : Body → Z → result (list TreeNode))
    (self : Contents → Z → result (list TreeNode)) :
  current_depth + 1 < max_depth →
  (∀ entries, self_api (ListingBody (entry_data <$> entries))
                (current_depth + 1)
              = self (Listing entries) (current_depth + 1)) →
  (∀ body, (∀ entries, body ≠ ListingBody entries) →
           match self_api body (current_depth + 1) with
           | Ok children => children
           | Raised _ => []
           end = []) →
  (∀ f, match self (Single f) (current_depth + 1) with
        | Ok children => children
        | Raised _ => []
        end = []) →
  match (response ← requests_get w
           ("https://api.github.com/repos/" +:+ owner +:+ "/" +:+ repo
            +:+ "/contents/" +:+ cf_path content);
         if status_code response =? 200
         then sub ← json response; self_api sub (current_depth + 1)
         else Ok []) with
  | Ok children => children
  | Raised _ => []
  end
  = match (sub ← repo_get_contents repo_obj (cf_path content);
           self sub (current_depth + 1)) with
    | Ok children => children
    | Raised _ => []
    end.
Proof.
  intros Hlt Hself Hother Hsingle.
  pose proof (Hagree (cf_path content)) as H. unfold contents_url in H.
  assert (∀ r : result Contents,
            (∀ entries, r ≠ Ok (Listing entries)) →
            match (sub ← r; self sub (current_depth + 1)) with
            | Ok children => children
            | Raised _ => []
            end = []) as Hnone.
  { intros [[l|f]|e] Hr; [by destruct (Hr l)|by rewrite bind_Ok|done]. }
  destruct (repo_get_contents repo_obj (cf_path content))
    as [[entries|f]|e] eqn:Hget.
  - destruct H as (response & -> & Hst & Hjson).
    rewrite !bind_Ok, Hjson.
    assert ((status_code response =? 200) = true) as -> by lia.
    by rewrite bind_Ok, Hself.
  - rewrite (Hnone (Ok (Single f))) by done.
    destruct (requests_get w _) as [response|]; [|done].
    rewrite bind_Ok. destruct (status_code response =? 200) eqn:Hst; [|done].
    destruct H as [H|H]; [lia|].
    destruct (json response) as [[d|l|entry c]|]; rewrite ?bind_Ok;
      try done; by apply Hother.
  - rewrite (Hnone (Raised e)) by done.
    destruct (requests_get w _) as [response|]; [|done].
    rewrite bind_Ok. destruct (status_code response =? 200) eqn:Hst; [|done].
    destruct H as [H|H]; [lia|].
    destruct (json response) as [[d|l|entry c]|]; rewrite ?bind_Ok;
      try done; by apply Hother.
Qed.

Lemma builders_agree_fuel (n : nat) :
  ∀ current_depth entries,
    Z.to_nat (max_depth - current_depth) = n →
    _build_structure_tree_api w (ListingBody (entry_data <$> entries))
      owner repo max_depth current_depth
    = _build_structure_tree (Listing entries) repo_obj max_depth
        current_depth.
Proof.
  induction n as [|n IH]; intros cd entries Hn;
    rewrite _build_structure_tree_api_eq, _build_structure_tree_eq;
    unfold _build_structure_tree_api_body, _build_structure_tree_body.
  - by assert ((cd >=? max_depth) = true) as -> by lia.
  - assert ((cd >=? max_depth) = false) as -> by lia.
    unfold iter_body, iter_contents. rewrite !bind_Ok.
    rewrite for_append_fmap. apply for_append_ext. intros content.
    destruct (_build_structure_tree_api_item_spec
                (λ sub depth,
                   _build_structure_tree_api w sub owner repo max_depth
                     depth)
                w owner repo max_depth cd (entry_data content))
      as (n1 & -> & (Hn1 & Ht1 & Hp1) & Hs1 & Hc1).
    destruct (_build_structure_tree_item_spec
                (λ sub depth,
                   _build_structure_tree sub repo_obj max_depth depth)
                repo_obj max_depth cd content)
      as (n2 & -> & (Hn2 & Ht2 & Hp2) & Hs2 & Hc2).
    f_equal. apply TreeNode_eq.
    1-4: by (rewrite ?Hn1, ?Hn2, ?Ht1, ?Ht2, ?Hp1, ?Hp2, ?Hs1, ?Hs2).
    rewrite Hc1, Hc2.
    change (e_type (entry_data content)) with (cf_type content).
    change (e_path (entry_data content)) with (cf_path content).
    destruct (bool_decide (cf_type content = "dir")); [|done].
    destruct (cd <? max_depth - 1) eqn:Hd; [|done].
    cbn [andb]. f_equal.
    apply (builders_agree_children cd content
             (λ sub depth,
                _build_structure_tree_api w sub owner repo max_depth depth)
             (λ sub depth,
                _build_structure_tree sub repo_obj max_depth depth));
      [lia| | |].
    + intros sub. apply IH. lia.
    + intros body Hbody.
      by apply _build_structure_tree_api_not_listing.
    + intros f. apply _build_structure_tree_single.
Qed.
End BuildersAgree.

(** On a REST surface that shows what the client shows, the fallback
    builder returns the tree of the authenticated builder, at every
    depth. *)
Lemma builders_agree w owner repo repo_obj max_depth current_depth entries :
  listings_agree w owner repo repo_obj →
  _build_structure_tree_api w (ListingBody (entry_data <$> entries))
    owner repo max_depth current_depth
  = _build_structure_tree (Listing entries) repo_obj max_depth current_depth.
Proof. intros H. by eapply builders_agree_fuel. Qed.

Lemma string_app_assoc (s1 s2 s3 : string) :
  (s1 +:+ s2) +:+ s3 = s1 +:+ (s2 +:+ s3).
Proof.
  induction s1 as [|c s1 IH]; [done|].
  change (String c ((s1 +:+ s2) +:+ s3) = String c (s1 +:+ (s2 +:+ s3))).
  by f_equal.
Qed.

Lemma string_app_empty_r (s : string) : s +:+ "" = s.
Proof.
  induction s as [|c s IH]; [done|].
  change (String c (s +:+ "") = String c s). by f_equal.
Qed.

Lemma strip_prefix_app p s : strip_prefix p (p +:+ s) = Some s.
Proof.
  induction p as [|c p IH]; [done|].
  change (strip_prefix (String c p) (String c (p +:+ s)) = Some s).
  simpl. by rewrite bool_decide_true.
Qed.

Lemma contents_url_app owner repo path :
  contents_url owner repo path = contents_url owner repo "" +:+ path.
Proof.
  unfold contents_url. rewrite !string_app_assoc. done.
Qed.

(** The mirror of a client object agrees with it, whatever the object. *)
Lemma mirror_listings_agree w owner repo repo_obj :
  requests_get w = mirror owner repo repo_obj →
  listings_agree w owner repo repo_obj.
Proof.
  intros Hw path. rewrite Hw. unfold mirror.
  rewrite (contents_url_app owner repo path), strip_prefix_app.
  destruct (repo_get_contents repo_obj path) as [[entries|f]|e]; simpl.
  - eexists. by split_and!.
  - by right.
  - left. lia.
Qed.

(** ** [get_repository_structure] *)

(** X5. The two access paths of [get_repository_structure] return the same
    tree when the REST surface shows the root listing and the directories
    that the client shows. *)
Theorem structure_paths_agree (w1 w2 : World) (owner repo : string)
    (client : Github) (repo_obj : Repository) (root : list ContentFile)
    (response : Response) (max_depth : Z) :
  github_client w1 = Some client →
  get_repo client (owner +:+ "/" +:+ repo) = Ok repo_obj →
  repo_get_contents repo_obj "" = Ok (Listing root) →
  github_client w2 = None →
  requests_get w2 ("https://api.github.com/repos/" +:+ owner +:+ "/"
                   +:+ repo +:+ "/contents") = Ok response →
  status_code response = 200 →
  json response = Ok (ListingBody (entry_data <$> root)) →
  listings_agree w2 owner repo repo_obj →
  get_repository_structure w2 owner repo max_depth
  = get_repository_structure w1 owner repo max_depth.
Proof.
  intros Hc1 Hrepo Hroot Hc2 Hget Hst Hjson Hagree.
  unfold get_repository_structure.
  rewrite Hc1, Hrepo, bind_Ok, Hroot, bind_Ok, Hc2, Hget, bind_Ok.
  unfold raise_for_status.
  assert ((400 <=? status_code response) && (status_code response <? 600)
          = false) as -> by lia.
  rewrite bind_Ok, Hjson, bind_Ok. by rewrite (builders_agree _ _ _ repo_obj).
Qed.

Lemma structure_paths_agree_witness :
  get_repository_structure mirror_world "octocat" "Hello-World" 3
  = get_repository_structure Sample.authenticated "octocat" "Hello-World" 3.
Proof.
  exact (structure_paths_agree Sample.authenticated mirror_world
           "octocat" "Hello-World" (Sample.client_of Sample.repository)
           Sample.repository Sample.root
           {| status_code := 200;
              json := Ok (ListingBody (entry_data <$> Sample.root)) |} 3
           eq_refl eq_refl eq_refl eq_refl eq_refl eq_refl eq_refl
           (mirror_listings_agree mirror_world "octocat" "Hello-World"
              Sample.repository eq_refl)).
Defined.

(** X6. Failure isolation stops at the root: when the root listing cannot
    be fetched, [get_repository_structure] raises for every [max_depth],
    zero and negative values included. The client's exception and the
    exception of [requests.get] reach the caller; a status from 400 to 599
    raises [HTTPError] with that status. *)
Theorem structure_root_failure_propagates (w : World) (owner repo : string)
    (max_depth : Z) :
  (∀ client repo_obj e,
     github_client w = Some client →
     get_repo client (owner +:+ "/" +:+ repo) = Ok repo_obj →
     repo_get_contents repo_obj "" = Raised e →
     get_repository_structure w owner repo max_depth = Raised e)
  ∧ (∀ e,
       github_client w = None →
       requests_get w ("https://api.github.com/repos/" +:+ owner +:+ "/"
                       +:+ repo +:+ "/contents") = Raised e →
       get_repository_structure w owner repo max_depth = Raised e)
  ∧ (∀ response,
       github_client w = None →
       requests_get w ("https://api.github.com/repos/" +:+ owner +:+ "/"
                       +:+ repo +:+ "/contents") = Ok response →
       400 ≤ status_code response < 600 →
       get_repository_structure w owner repo max_depth
       = Raised (HTTPError (status_code response))).
Proof.
  unfold get_repository_structure. split_and!.
  - intros client repo_obj e H1 H2 H3. by rewrite H1, H2, bind_Ok, H3.
  - intros e H1 H2. by rewrite H1, H2.
  - intros response H1 H2 Hst. rewrite H1, H2, bind_Ok.
    unfold raise_for_status.
    by assert ((400 <=? status_code response) && (status_code response <? 600)
               = true) as -> by lia.
Qed.

Lemma structure_root_failure_propagates_witness :
  get_repository_structure Sample.fallback "octocat" "Spoon-Knife" 0
  = Raised (HTTPError 404).
Proof.
  assert (400 ≤ 404 < 600) as H by lia.
  exact (proj2 (proj2 (structure_root_failure_propagates Sample.fallback
                         "octocat" "Spoon-Knife" 0))
           {| status_code := 404; json := Raised JSONDecodeError |}
           eq_refl eq_refl H).
Defined.



(** ** [get_repo_info] *)

Lemma take_length_le n s : (String.length (Str.take n s) ≤ n)%nat.
Proof.
  revert s. induction n as [|n IH]; intros [|c s]; simpl; try lia.
  specialize (IH s). lia.
Qed.

(** X9. [get_repo_info] gives no partial summary: the first of its four
    steps that raises (URL, metadata, document, structure, in this order)
    decides the exception, whatever the later steps would do. *)
Theorem repo_info_first_failure (w : World) (repo_url : string) (e : exn) :
  (parse_github_url w repo_url = Raised e →
   get_repo_info w repo_url = Raised e)
  ∧ (∀ owner repo,
       parse_github_url w repo_url = Ok (owner, repo) →
       get_repository_metadata w owner repo = Raised e →
       get_repo_info w repo_url = Raised e)
  ∧ (∀ owner repo metadata,
       parse_github_url w repo_url = Ok (owner, repo) →
       get_repository_metadata w owner repo = Ok metadata →
       get_repository_readme w owner repo = Raised e →
       get_repo_info w repo_url = Raised e)
  ∧ (∀ owner repo metadata readme,
       parse_github_url w repo_url = Ok (owner, repo) →
       get_repository_metadata w owner repo = Ok metadata →
       get_repository_readme w owner repo = Ok readme →
       get_repository_structure w owner repo 3 = Raised e →
       get_repo_info w repo_url = Raised e).
Proof.
  unfold get_repo_info. split_and!.
  - by intros ->.
  - intros owner repo H1 H2. by rewrite H1, bind_Ok, H2.
  - intros owner repo metadata H1 H2 H3.
    by rewrite H1, bind_Ok, H2, bind_Ok, H3.
  - intros owner repo metadata readme H1 H2 H3 H4.
    by rewrite H1, bind_Ok, H2, bind_Ok, H3, bind_Ok, H4.
Qed.

Lemma repo_info_first_failure_witness :
  get_repo_info no_readme_world Sample.url = Raised UnknownObjectException.
Proof.
  assert (∃ metadata,
            get_repository_metadata no_readme_world "octocat" "Hello-World"
            = Ok metadata) as [metadata Hmeta] by (eexists; reflexivity).
  exact (proj1 (proj2 (proj2 (repo_info_first_failure no_readme_world
                                Sample.url UnknownObjectException)))
           "octocat" "Hello-World" metadata eq_refl Hmeta eq_refl).
Defined.

(** X10. A summary that [get_repo_info] returns is bounded whatever the size
    of the repository: the preview has at most 503 characters, the
    structure summary at most 10 entries, and the URL is the one that was
    passed in. *)
Theorem repo_info_bounded (w : World) (repo_url : string)
    (info : RepositoryInfo) :
  get_repo_info w repo_url = Ok info →
  (String.length (info_readme_preview info) ≤ 503)%nat
  ∧ (length (info_structure_summary info) ≤ 10)%nat
  ∧ info_repository_url info = repo_url.
Proof.
  unfold get_repo_info.
  destruct (parse_github_url w repo_url) as [[owner repo]|]; [|done].
  rewrite bind_Ok.
  destruct (get_repository_metadata w owner repo) as [metadata|]; [|done].
  rewrite bind_Ok.
  destruct (get_repository_readme w owner repo) as [readme|]; [|done].
  rewrite bind_Ok.
  destruct (get_repository_structure w owner repo 3) as [structure|];
    [|done].
  rewrite bind_Ok. intros [= <-].
  cbn [info_readme_preview info_structure_summary info_repository_url].
  split_and!; [| |done].
  - unfold Str.len, Str.slice_to.
    destruct (Z.of_nat (String.length readme) >? 500) eqn:E; [|lia].
    rewrite append_length. change (Z.to_nat 500) with 500%nat.
    pose proof (take_length_le 500 readme).
    change (String.length "...") with 3%nat. lia.
  - rewrite length_take. lia.
Qed.

Lemma repo_info_bounded_witness :
  ∃ info,
    get_repo_info Sample.large Sample.url = Ok info
    ∧ (String.length (info_readme_preview info) ≤ 503)%nat
    ∧ (length (info_structure_summary info) ≤ 10)%nat.
Proof.
  assert (∃ info, get_repo_info Sample.large Sample.url = Ok info)
    as [info Hinfo] by (eexists; reflexivity).
  exists info. split; [exact Hinfo|].
  destruct (repo_info_bounded Sample.large Sample.url info Hinfo)
    as (H1 & H2 & _).
  by split.
Defined.

(** ** [analyze_repo_dependencies] *)

Lemma dependency_files_NoDup : NoDup dependency_files.
Proof. by apply (bool_decide_unpack _). Qed.

Lemma authenticated_round_text w repo_obj file_name content
    (dependencies : gmap string Summary) :
  manifest_text w repo_obj file_name content →
  ∃ summary,
    _parse_dependency_file w file_name content = Ok summary
    ∧ authenticated_round w repo_obj file_name dependencies
      = Ok (<[file_name := summary]> dependencies).
Proof.
  intros (file & Hget & Hdec).
  destruct (_parse_dependency_file_total w file_name content)
    as [summary Hsum].
  exists summary. split; [done|]. unfold authenticated_round.
  rewrite Hget, bind_Ok. simpl decoded_content.
  by rewrite bind_Ok, Hdec, bind_Ok, Hsum.
Qed.

Lemma authenticated_round_absent w repo_obj file_name
    (dependencies : gmap string Summary) :
  manifest_absent repo_obj file_name →
  authenticated_round w repo_obj file_name dependencies = Ok dependencies.
Proof.
  intros (e & Hget & He). unfold authenticated_round.
  rewrite Hget. simpl. by rewrite He.
Qed.

Lemma authenticated_scan_state w repo_obj files :
  NoDup files →
  (∀ f, f ∈ files →
        (∃ content, manifest_text w repo_obj f content)
        ∨ manifest_absent repo_obj f) →
  ∀ st : gmap string Summary,
    ∃ st',
      for_state (authenticated_round w repo_obj) files st = Ok st'
      ∧ (∀ f, f ∉ files → st' !! f = st !! f)
      ∧ (∀ f, f ∈ files → manifest_absent repo_obj f → st' !! f = st !! f)
      ∧ (∀ f content, f ∈ files → manifest_text w repo_obj f content →
           ∃ summary, _parse_dependency_file w f content = Ok summary
                      ∧ st' !! f = Some summary).
Proof.
  induction 1 as [|f0 files Hnotin Hnodup IH]; intros Hall st.
  - exists st. split; [done|]. split; [done|].
    split; intros; by match goal with H : _ ∈ [] |- _ =>
                        apply elem_of_nil in H end.
  - assert (∀ f, f ∈ files →
              (∃ content, manifest_text w repo_obj f content)
              ∨ manifest_absent repo_obj f) as Hrest.
    { intros f Hf. apply Hall. by right. }
    assert (∀ content, manifest_text w repo_obj f0 content →
                       manifest_absent repo_obj f0 → False) as Hexcl.
    { intros content (file & Hg & _) (e & Hg' & _). congruence. }
    assert (∀ c1 c2, manifest_text w repo_obj f0 c1 →
                     manifest_text w repo_obj f0 c2 → c1 = c2) as Hfun.
    { intros c1 c2 (f1 & Hg1 & Hd1) (f2 & Hg2 & Hd2). congruence. }
    simpl. destruct (Hall f0 ltac:(by left)) as [[content Htext]|Habs].
    + destruct (authenticated_round_text w repo_obj f0 content st Htext)
        as (summary & Hsum & ->).
      simpl. destruct (IH Hrest (<[f0 := summary]> st))
        as (st' & -> & Hout & Habsent & Hpresent).
      exists st'. split; [done|]. split_and!.
      * intros f [Hne Hf]%not_elem_of_cons.
        by rewrite Hout, lookup_insert_ne.
      * intros f [->|Hf]%elem_of_cons Ha; [by destruct (Hexcl content)|].
        rewrite Habsent by done. rewrite lookup_insert_ne; [done|].
        by intros ->.
      * intros f c [->|Hf]%elem_of_cons Hc; [|by apply Hpresent].
        rewrite (Hfun c content Hc Htext). exists summary.
        split; [done|]. by rewrite Hout, lookup_insert_eq.
    + rewrite (authenticated_round_absent w repo_obj f0 st Habs).
      simpl. destruct (IH Hrest st)
        as (st' & -> & Hout & Habsent & Hpresent).
      exists st'. split; [done|]. split_and!.
      * intros f [Hne Hf]%not_elem_of_cons. by apply Hout.
      * intros f [->|Hf]%elem_of_cons Ha; [by apply Hout|].
        by apply Habsent.
      * intros f c [->|Hf]%elem_of_cons Hc;
          [by destruct (Hexcl c)|by apply Hpresent].
Qed.

(** X2. With a credential, when each catalog manifest is either read as
    text or reported absent by the service, the scan returns a mapping
    that holds the summary of every manifest read, under its file name,
    and nothing else. *)
Theorem authenticated_scan_entries (w : World) (repo_url owner repo : string)
    (client : Github) (repo_obj : Repository) :
  github_client w = Some client →
  parse_github_url w repo_url = Ok (owner, repo) →
  get_repo client (owner +:+ "/" +:+ repo) = Ok repo_obj →
  (∀ f, f ∈ dependency_files →
        (∃ content, manifest_text w repo_obj f content)
        ∨ manifest_absent repo_obj f) →
  ∃ deps : gmap string Summary,
    analyze_repo_dependencies w repo_url = Ok deps
    ∧ (∀ f, f ∉ dependency_files → deps !! f = None)
    ∧ (∀ f, f ∈ dependency_files → manifest_absent repo_obj f →
         deps !! f = None)
    ∧ (∀ f content, f ∈ dependency_files →
         manifest_text w repo_obj f content →
         ∃ summary, _parse_dependency_file w f content = Ok summary
                    ∧ deps !! f = Some summary).
Proof.
  intros Hclient Hurl Hrepo Hall. unfold analyze_repo_dependencies.
  rewrite Hurl, bind_Ok, Hclient, Hrepo, bind_Ok.
  change (for_state _ dependency_files ∅)
    with (for_state (authenticated_round w repo_obj) dependency_files ∅).
  destruct (authenticated_scan_state w repo_obj dependency_files
              dependency_files_NoDup Hall ∅)
    as (deps & -> & Hout & Habsent & Hpresent).
  exists deps. split; [done|]. split_and!.
  - intros f Hf. by rewrite Hout.
  - intros f Hf Ha. by rewrite Habsent.
  - done.
Qed.

Lemma sample_manifests f :
  f ∈ dependency_files →
  (∃ content, manifest_text Sample.authenticated Sample.repository f content)
  ∨ manifest_absent Sample.repository f.
Proof.
  intros Hf. unfold dependency_files in Hf.
  repeat (apply elem_of_cons in Hf as [->|Hf]);
    try (right; by eexists);
    try (left; exists Sample.requirements_text, Sample.requirements_file;
         by split).
  by apply elem_of_nil in Hf.
Qed.

Lemma authenticated_scan_entries_witness :
  ∃ deps : gmap string Summary,
    analyze_repo_dependencies Sample.authenticated Sample.url = Ok deps
    ∧ deps !! "requirements.txt"
      = Some (Requirements ["flask==2.0"; "requests"])
    ∧ deps !! "package.json" = None
    ∧ deps !! "setup.py" = None.
Proof.
  destruct (authenticated_scan_entries Sample.authenticated Sample.url
              "octocat" "Hello-World" (Sample.client_of Sample.repository)
              Sample.repository eq_refl eq_refl eq_refl sample_manifests)
    as (deps & Hdeps & Hout & Habsent & Hpresent).
  exists deps. split; [exact Hdeps|]. split_and!.
  - destruct (Hpresent "requirements.txt" Sample.requirements_text)
      as (summary & Hsum & Hlookup).
    + unfold dependency_files. apply elem_of_cons. right.
      apply elem_of_cons. by left.
    + exists Sample.requirements_file. by split.
    + rewrite Hlookup. f_equal.
      assert (Ok summary
              = Ok (Requirements ["flask==2.0"; "requests"])) as Heq
        by (rewrite <- Hsum; reflexivity).
      by injection Heq.
  - apply Habsent.
    + apply elem_of_cons. by left.
    + exists UnknownObjectException. by split.
  - apply Hout. unfold dependency_files.
    intros Hin. repeat (apply elem_of_cons in Hin as [Hin|Hin]; [done|]).
    by apply elem_of_nil in Hin.
Defined.

Lemma fallback_scan_state w owner repo files :
  ∀ st : gmap string Summary,
    ∃ st',
      for_state (fallback_round w owner repo) files st = Ok st'
      ∧ (∀ f, f ∉ files ∨ api_fetch_fails w owner repo f →
              st' !! f = st !! f).
Proof.
  induction files as [|f0 files IH]; intros st; simpl.
  - by exists st.
  - destruct (fallback_round_cases w owner repo f0 st)
      as [->|(Hnot & summary & ->)]; simpl.
    + destruct (IH st) as (st' & -> & Hst'). exists st'. split; [done|].
      intros f [Hf|Hf]; apply Hst'; [left|by right].
      by apply not_elem_of_cons in Hf as [_ ?].
    + destruct (IH (<[f0 := summary]> st)) as (st' & -> & Hst').
      exists st'. split; [done|].
      intros f Hf. rewrite Hst'.
      * apply lookup_insert_ne. intros ->.
        destruct Hf as [Hf|Hf]; [|done].
        apply Hf, elem_of_cons. by left.
      * destruct Hf as [Hf|Hf]; [left|by right].
        by apply not_elem_of_cons in Hf as [_ ?].
Qed.

(** X3. A repository that does not exist is an error with a credential and
    an empty report without one: on the authenticated path the exception
    of [get_repo] reaches the caller, on the fallback path every request
    fails for itself and the scan returns the empty mapping. *)
Theorem missing_repository_scan (w : World) (repo_url owner repo : string) :
  parse_github_url w repo_url = Ok (owner, repo) →
  (∀ client e,
     github_client w = Some client →
     get_repo client (owner +:+ "/" +:+ repo) = Raised e →
     analyze_repo_dependencies w repo_url = Raised e)
  ∧ (github_client w = None →
     (∀ f, f ∈ dependency_files → api_fetch_fails w owner repo f) →
     analyze_repo_dependencies w repo_url = Ok ∅).
Proof.
  intros Hurl. unfold analyze_repo_dependencies. rewrite Hurl, bind_Ok.
  split.
  - intros client e Hc Hrepo. by rewrite Hc, Hrepo.
  - intros Hc Hfail. rewrite Hc.
    change (for_state _ dependency_files ∅)
      with (for_state (fallback_round w owner repo) dependency_files ∅).
    destruct (fallback_scan_state w owner repo dependency_files ∅)
      as (deps & -> & Hdeps).
    simpl. f_equal. apply map_eq. intros f. rewrite lookup_empty.
    rewrite Hdeps; [done|].
    destruct (decide (f ∈ dependency_files)); [right|left]; auto.
Qed.

Lemma missing_repository_scan_witness :
  analyze_repo_dependencies Sample.fallback
    "https://github.com/octocat/Spoon-Knife" = Ok ∅
  ∧ analyze_repo_dependencies Sample.authenticated
      "https://github.com/octocat/Spoon-Knife"
    = Raised UnknownObjectException.
Proof.
  pose proof (missing_repository_scan Sample.fallback
                "https://github.com/octocat/Spoon-Knife"
                "octocat" "Spoon-Knife" eq_refl) as [_ Hfb].
  pose proof (missing_repository_scan Sample.authenticated
                "https://github.com/octocat/Spoon-Knife"
                "octocat" "Spoon-Knife" eq_refl) as [Hauth _].
  split.
  - apply Hfb; [reflexivity|]. intros f Hf. right.
    exists {| status_code := 404; json := Raised JSONDecodeError |}.
    split; [|left; discriminate].
    unfold dependency_files in Hf.
    repeat (apply elem_of_cons in Hf as [->|Hf]; [reflexivity|]).
    by apply elem_of_nil in Hf.
  - exact (Hauth (Sample.client_of Sample.repository)
             UnknownObjectException eq_refl eq_refl).
Defined.

(** ** [_parse_dependency_file] on the formats without a parser *)

(** X4. For every file name other than [package.json] and
    [requirements.txt], in the catalog or not, the summarizer returns the
    raw text under the key [content]: unchanged when it has at most 500
    characters, else its first 500 characters followed by ["..."]; the
    excerpt never has more than 503 characters. *)
Theorem raw_excerpt (w : World) (file_name content : string) :
  file_name ≠ "package.json" →
  file_name ≠ "requirements.txt" →
  ∃ excerpt,
    _parse_dependency_file w file_name content = Ok (RawContent excerpt)
    ∧ (String.length excerpt ≤ 503)%nat
    ∧ ((String.length content ≤ 500)%nat → excerpt = content)
    ∧ ((500 < String.length content)%nat →
       excerpt = String.substring 0 500 content +:+ "...").
Proof.
  intros H1 H2. unfold _parse_dependency_file.
  rewrite !bool_decide_false by done.
  exists (if Str.len content >? 500
          then Str.slice_to 500 content +:+ "..." else content).
  split; [by destruct (bool_decide _)|].
  unfold Str.len, Str.slice_to. change (Z.to_nat 500) with 500%nat.
  destruct (Z.of_nat (String.length content) >? 500) eqn:E.
  - split_and!.
    + rewrite append_length. pose proof (take_length_le 500 content).
      change (String.length "...") with 3%nat. lia.
    + lia.
    + intros _. by rewrite take_substring.
  - split_and!; [lia|done|lia].
Qed.

Lemma raw_excerpt_witness :
  ∃ excerpt,
    _parse_dependency_file Sample.fallback "Cargo.toml" Sample.long_readme
    = Ok (RawContent excerpt)
    ∧ String.length excerpt = 503%nat
    ∧ _parse_dependency_file Sample.fallback "setup.cfg" "[metadata]"
      = Ok (RawContent "[metadata]").
Proof.
  assert ("Cargo.toml" ≠ "package.json") as H1 by discriminate.
  assert ("Cargo.toml" ≠ "requirements.txt") as H2 by discriminate.
  destruct (raw_excerpt Sample.fallback "Cargo.toml" Sample.long_readme H1 H2)
    as (excerpt & Hex & _ & _ & Hlong).
  exists excerpt. split; [exact Hex|]. split.
  - rewrite Hlong by (vm_compute; lia). reflexivity.
  - reflexivity.
Defined.

(** ** The fallback path of the two fetchers *)

(** X11. Without a credential the metadata fetcher raises [HTTPError] for a
    status from 400 to 599 and for no other status. When it succeeds, a
    record without topics gives the empty list, a record without license
    gives the absent value, and a license gives its name. *)
Theorem metadata_fallback_edges (w : World) (owner repo : string)
    (response : Response) :
  github_client w = None →
  requests_get w ("https://api.github.com/repos/" +:+ owner +:+ "/" +:+ repo)
  = Ok response →
  (400 ≤ status_code response < 600 →
   get_repository_metadata w owner repo
   = Raised (HTTPError (status_code response)))
  ∧ (∀ data,
       ¬ (400 ≤ status_code response < 600) →
       json response = Ok (RepoBody data) →
       ∃ m, get_repository_metadata w owner repo = Ok m
            ∧ (d_topics data = None → meta_topics m = [])
            ∧ (∀ topics, d_topics data = Some topics →
                 meta_topics m = topics)
            ∧ (d_license data = None → meta_license m = None)
            ∧ (∀ lic, d_license data = Some lic →
                 meta_license m = Some (license_name lic))).
Proof.
  intros Hc Hget. unfold get_repository_metadata.
  rewrite Hc, Hget, bind_Ok. unfold raise_for_status. split.
  - intros Hst.
    by assert ((400 <=? status_code response) && (status_code response <? 600)
               = true) as -> by lia.
  - intros data Hst Hjson.
    assert ((400 <=? status_code response) && (status_code response <? 600)
            = false) as -> by lia.
    rewrite bind_Ok, Hjson, bind_Ok. simpl body_repo. rewrite bind_Ok.
    eexists. split; [reflexivity|]. simpl.
    split_and!; [by intros ->|by intros ? ->|by intros ->|by intros ? ->].
Qed.

Lemma metadata_fallback_edges_witness :
  get_repository_metadata Sample.fallback "octocat" "Spoon-Knife"
  = Raised (HTTPError 404)
  ∧ ∃ m, get_repository_metadata Sample.fallback "octocat" "Hello-World"
         = Ok m
         ∧ meta_topics m = ["octocat"; "api"]
         ∧ meta_license m = Some "MIT License".
Proof.
  split.
  - assert (400 ≤ 404 < 600) as H by lia.
    exact (proj1 (metadata_fallback_edges Sample.fallback
                    "octocat" "Spoon-Knife"
                    {| status_code := 404; json := Raised JSONDecodeError |}
                    eq_refl eq_refl) H).
  - assert (¬ (400 ≤ 200 < 600)) as H by lia.
    destruct (proj2 (metadata_fallback_edges Sample.fallback
                       "octocat" "Hello-World"
                       {| status_code := 200;
                          json := Ok (RepoBody Sample.repo_data) |}
                       eq_refl eq_refl) Sample.repo_data H eq_refl)
      as (m & Hm & _ & Htopics & _ & Hlic).
    exists m. split; [exact Hm|]. split.
    + exact (Htopics _ eq_refl).
    + exact (Hlic _ eq_refl).
Defined.

(** X12. The two access paths of the document fetcher return the same text,
    or raise the same decoding error, when the Base64 content of the REST
    record decodes to the bytes that the client holds. *)
Theorem readme_paths_agree (w1 w2 : World) (owner repo : string)
    (client : Github) (repo_obj : Repository) (readme : ContentFile)
    (response : Response) (entry : EntryData) (encoded : string) :
  github_client w1 = Some client →
  get_repo client (owner +:+ "/" +:+ repo) = Ok repo_obj →
  repo_get_readme repo_obj = Ok readme →
  github_client w2 = None →
  requests_get w2 ("https://api.github.com/repos/" +:+ owner +:+ "/"
                   +:+ repo +:+ "/readme") = Ok response →
  ¬ (400 ≤ status_code response < 600) →
  json response = Ok (FileBody entry encoded) →
  b64decode w2 encoded = Ok (cf_decoded_content readme) →
  decode_utf8 w2 = decode_utf8 w1 →
  get_repository_readme w2 owner repo = get_repository_readme w1 owner repo
  ∧ get_repository_readme w1 owner repo
    = decode_utf8 w1 (cf_decoded_content readme).
Proof.
  intros Hc1 Hrepo Hreadme Hc2 Hget Hst Hjson Hb64 Hdec.
  unfold get_repository_readme.
  rewrite Hc1, Hrepo, bind_Ok, Hreadme, bind_Ok, Hc2, Hget, bind_Ok.
  unfold raise_for_status.
  assert ((400 <=? status_code response) && (status_code response <? 600)
          = false) as -> by lia.
  rewrite bind_Ok, Hjson, bind_Ok. simpl body_content.
  rewrite bind_Ok, Hb64, bind_Ok, Hdec.
  by destruct (decode_utf8 w1 (cf_decoded_content readme)).
Qed.

Lemma readme_paths_agree_witness :
  get_repository_readme Sample.fallback "octocat" "Hello-World"
  = get_repository_readme Sample.authenticated "octocat" "Hello-World"
  ∧ get_repository_readme Sample.authenticated "octocat" "Hello-World"
    = Ok "# Hello World".
Proof.
  assert (¬ (400 ≤ 200 < 600)) as H by lia.
  exact (readme_paths_agree Sample.authenticated Sample.fallback
           "octocat" "Hello-World" (Sample.client_of Sample.repository)
           Sample.repository Sample.readme_file
           {| status_code := 200;
              json := Ok (FileBody (Sample.entry Sample.readme_file)
                            Sample.readme_b64) |}
           (Sample.entry Sample.readme_file) Sample.readme_b64
           eq_refl eq_refl eq_refl eq_refl eq_refl H eq_refl eq_refl
           eq_refl).
Defined.

(** ** More on [str.split] *)

Lemma app_cons c (s1 s2 : string) :
  String c s1 +:+ s2 = String c (s1 +:+ s2).
Proof. reflexivity. Qed.

Lemma all_chars_count p c s :
  p c = false → Urllib.all_chars p s = true → Str.count c s = O.
Proof.
  intros Hc. induction s as [|d s IH]; simpl; [done|].
  intros [Hd Hs]%andb_true_iff. rewrite IH by done.
  rewrite bool_decide_false; [done|]. intros ->. congruence.
Qed.

Lemma split_no_sep c s : Str.count c s = O → Str.split c s = [s].
Proof.
  induction s as [|d s IH]; simpl; [done|].
  case_bool_decide; [done|]. intros Hs. by rewrite IH.
Qed.

Lemma split_app_sep c s1 s2 :
  Str.count c s1 = O →
  Str.split c (s1 +:+ String c s2) = s1 :: Str.split c s2.
Proof.
  induction s1 as [|d s1 IH]; intros Hs.
  - change ("" +:+ String c s2) with (String c s2). simpl.
    by rewrite bool_decide_true.
  - rewrite app_cons. simpl in *. case_bool_decide; [done|].
    by rewrite IH.
Qed.

Lemma split_length c s : length (Str.split c s) = S (Str.count c s).
Proof.
  induction s as [|d s IH]; simpl; [done|].
  case_bool_decide; simpl; [by rewrite IH|].
  destruct (Str.split c s); simpl in *; [done|lia].
Qed.

Lemma prefix_app p s : String.prefix p (p +:+ s) = true.
Proof.
  induction p as [|c p IH]; [by destruct s|].
  rewrite app_cons. simpl. by destruct (ascii_dec c c).
Qed.

(** ** [handle_read_resource] *)

Lemma dict_of_two_pairs k1 v1 k2 v2 :
  dict_of_pairs [[k1; v1]; [k2; v2]] = Ok (<[k2 := v2]> (<[k1 := v1]> ∅)).
Proof. reflexivity. Qed.

Lemma resource_uri_head action :
  Str.count "/" action = O →
  Str.split "/" ("github://repository/" +:+ action)
  = ["github:"; ""; "repository"; action].
Proof.
  intros H.
  change ("github://repository/" +:+ action)
    with ("github:" +:+ String "/" ("" +:+ String "/"
            ("repository" +:+ String "/" action))).
  rewrite !split_app_sep by done. by rewrite split_no_sep.
Qed.

Lemma value_counts s :
  value s →
  s ≠ "" ∧ Str.count "?" s = O ∧ Str.count "&" s = O ∧ Str.count "=" s = O.
Proof.
  intros [Hne Hall]. split; [done|].
  split_and!; by apply (all_chars_count value_char).
Qed.

(** X14. A resource URI written with an action, an owner and a repository
    name is read back as exactly these: the metadata, readme and structure
    actions run the fetcher of that name on the owner and the name (the
    structure with depth 3), and any other action raises [ValueError]
    with the action in its message. *)
Theorem read_resource_round_trip (w : World) (action owner repo : string) :
  Str.count "?" action = O →
  Str.count "/" action = O →
  value owner →
  value repo →
  handle_read_resource w (resource_uri action owner repo)
  = if bool_decide (action = "metadata")
    then MetadataJson <$> get_repository_metadata w owner repo
    else if bool_decide (action = "readme")
    then Text <$> get_repository_readme w owner repo
    else if bool_decide (action = "structure")
    then StructureJson <$> get_repository_structure w owner repo 3
    else Raised (ValueError ("Unknown action: " +:+ action)).
Proof.
  intros Hq Hs (Ho & Hoq & Hoa & Hoe)%value_counts
    (Hr & Hrq & Hra & Hre)%value_counts.
  unfold handle_read_resource, resource_uri.
  rewrite prefix_app.
  replace ("github://repository/" +:+ action +:+ "?owner=" +:+ owner
           +:+ "&repo=" +:+ repo)
    with (("github://repository/" +:+ action)
          +:+ String "?" ("owner=" +:+ owner +:+ "&repo=" +:+ repo))
    by (by rewrite string_app_assoc).
  rewrite split_app_sep by (by rewrite count_app, Hq).
  rewrite split_no_sep by (by rewrite !count_app, Hoq, Hrq).
  cbn [length Nat.eqb negb index lookup list_lookup].
  rewrite !bind_Ok, resource_uri_head by done.
  cbn [length Nat.sub index lookup list_lookup].
  rewrite bind_Ok.
  replace ("owner=" +:+ owner +:+ "&repo=" +:+ repo)
    with (("owner=" +:+ owner) +:+ String "&" ("repo=" +:+ repo))
    by (by rewrite string_app_assoc).
  rewrite split_app_sep by (by rewrite count_app, Hoa).
  rewrite split_no_sep by (by rewrite count_app, Hra).
  rewrite !fmap_cons, fmap_nil.
  change ("owner=" +:+ owner) with ("owner" +:+ String "=" owner).
  change ("repo=" +:+ repo) with ("repo" +:+ String "=" repo).
  rewrite !split_app_sep, !split_no_sep by done.
  rewrite dict_of_two_pairs, bind_Ok.
  rewrite lookup_insert_ne, lookup_insert_eq, lookup_insert_eq by done.
  unfold missing, Str.truthy.
  rewrite !bool_decide_false by done. done.
Qed.

Lemma read_resource_round_trip_witness :
  handle_read_resource Sample.fallback
    "github://repository/readme?owner=octocat&repo=Hello-World"
  = Ok (Text "# Hello World")
  ∧ handle_read_resource Sample.fallback
      "github://repository/blame?owner=octocat&repo=Hello-World"
    = Raised (ValueError "Unknown action: blame").
Proof.
  assert (value "octocat") as Ho by (by split).
  assert (value "Hello-World") as Hr by (by split).
  split.
  - exact (read_resource_round_trip Sample.fallback "readme" "octocat"
             "Hello-World" eq_refl eq_refl Ho Hr).
  - exact (read_resource_round_trip Sample.fallback "blame" "octocat"
             "Hello-World" eq_refl eq_refl Ho Hr).
Defined.

(** X15. [handle_read_resource] asks for exactly one question mark: a URI
    outside the scheme of the server is an unknown resource, and a URI of
    the scheme with no question mark or with several has an invalid
    format. Each URI that [handle_list_resources] advertises is of the
    second kind: as listed, none of them can be read. *)
Theorem read_resource_needs_query (w : World) :
  (∀ uri, String.prefix "github://repository/" uri = false →
          handle_read_resource w uri
          = Raised (ValueError ("Unknown resource URI: " +:+ uri)))
  ∧ (∀ uri, String.prefix "github://repository/" uri = true →
            Str.count "?" uri ≠ 1%nat →
            handle_read_resource w uri
            = Raised (ValueError
                "Invalid URI format. Expected: github://repository/{action}?owner=owner&repo=repo"))
  ∧ Forall (λ r, handle_read_resource w (res_uri r)
                 = Raised (ValueError
                     "Invalid URI format. Expected: github://repository/{action}?owner=owner&repo=repo"))
      handle_list_resources.
Proof.
  assert (∀ uri, String.prefix "github://repository/" uri = true →
            Str.count "?" uri ≠ 1%nat →
            handle_read_resource w uri
            = Raised (ValueError
                "Invalid URI format. Expected: github://repository/{action}?owner=owner&repo=repo"))
    as Hformat.
  { intros uri Hp Hc. unfold handle_read_resource. rewrite Hp.
    rewrite split_length.
    destruct (Str.count "?" uri) as [|[|n]]; done. }
  split_and!.
  - intros uri Hp. unfold handle_read_resource. by rewrite Hp.
  - exact Hformat.
  - repeat constructor; by apply Hformat.
Qed.

Lemma read_resource_needs_query_witness :
  handle_read_resource Sample.fallback "github://repository/metadata"
  = Raised (ValueError
      "Invalid URI format. Expected: github://repository/{action}?owner=owner&repo=repo")
  ∧ handle_read_resource Sample.fallback
      "github://repository/readme?owner=octocat?repo=Hello-World"
    = Raised (ValueError
        "Invalid URI format. Expected: github://repository/{action}?owner=owner&repo=repo").
Proof.
  destruct (read_resource_needs_query Sample.fallback) as (_ & H & _).
  split; apply H; try reflexivity; vm_compute; lia.
Defined.

(** ** [handle_call_tool] *)

Lemma tool_names_eq :
  tool_names = [ "get_repo_info"; "get_repo_structure"; "get_repo_readme";
                 "analyze_repo_dependencies" ].
Proof. reflexivity. Qed.

Lemma tool_name_cases name :
  name ∈ tool_names →
  name = "get_repo_info" ∨ name = "get_repo_structure"
  ∨ name = "get_repo_readme" ∨ name = "analyze_repo_dependencies".
Proof.
  rewrite tool_names_eq. intros H.
  repeat (apply elem_of_cons in H as [->|H]; [by auto|]).
  by apply elem_of_nil in H.
Qed.

(** X17. The dispatcher and the advertised tools fit together: a name that
    [handle_list_tools] does not advertise gives the text
    ["Error: Unknown tool: <name>"]; each advertised tool is dispatched
    and, as its schema requires [repo_url], answers a call without that
    key with the text ["Error: 'repo_url'"]; and a [get_repo_structure]
    call without [max_depth] is the call with the depth 3 that the schema
    advertises as default. *)
Theorem call_tool_dispatch (w : World) (describe : exn → string)
    (name : string) (arguments : ToolArguments) :
  (name ∉ tool_names →
   handle_call_tool w describe name arguments
   = Ok [ {| tc_type := "text";
             tc_text := Text ("Error: Unknown tool: " +:+ name) |} ])
  ∧ (name ∈ tool_names → arg_repo_url arguments = None →
     handle_call_tool w describe name arguments
     = Ok [ {| tc_type := "text"; tc_text := Text "Error: 'repo_url'" |} ])
  ∧ Forall (λ t, tool_required t = ["repo_url"]
                 ∧ "repo_url" ∈ prop_name <$> tool_properties t)
      handle_list_tools
  ∧ handle_call_tool w describe "get_repo_structure"
      {| arg_repo_url := arg_repo_url arguments; arg_max_depth := None |}
    = handle_call_tool w describe "get_repo_structure"
        {| arg_repo_url := arg_repo_url arguments; arg_max_depth := Some 3 |}
  ∧ Forall (λ t, ∀ p, p ∈ tool_properties t → prop_name p = "max_depth" →
                      tool_name t = "get_repo_structure"
                      ∧ prop_default p = Some 3) handle_list_tools.
Proof.
  split_and!.
  - rewrite tool_names_eq. intros Hname.
    repeat (apply not_elem_of_cons in Hname as [? Hname]).
    unfold handle_call_tool. by rewrite !bool_decide_false by done.
  - intros Hname Hurl. unfold handle_call_tool, arguments_repo_url.
    rewrite Hurl.
    destruct (tool_name_cases name Hname) as [-> | [-> | [-> | ->] ] ]; reflexivity.
  - unfold handle_list_tools.
    repeat (apply List.Forall_cons;
            [split; [done|]; simpl; apply elem_of_cons; by left|]).
    apply List.Forall_nil.
  - reflexivity.
  - unfold handle_list_tools.
    repeat (apply List.Forall_cons;
            [intros p Hp Hn; simpl in Hp;
             repeat (apply elem_of_cons in Hp as [->|Hp]; [by simpl in *|]);
             by apply elem_of_nil in Hp|]).
    apply List.Forall_nil.
Qed.

Lemma call_tool_dispatch_witness :
  handle_call_tool Sample.fallback (λ _, "library error") "get_repo_issues"
    {| arg_repo_url := Some Sample.url; arg_max_depth := None |}
  = Ok [ {| tc_type := "text";
            tc_text := Text "Error: Unknown tool: get_repo_issues" |} ]
  ∧ handle_call_tool Sample.fallback (λ _, "library error") "get_repo_readme"
      {| arg_repo_url := None; arg_max_depth := None |}
    = Ok [ {| tc_type := "text"; tc_text := Text "Error: 'repo_url'" |} ].
Proof.
  assert ("get_repo_issues" ∉ tool_names) as Hout.
  { rewrite tool_names_eq. intros H.
    repeat (apply elem_of_cons in H as [H|H]; [discriminate H|]).
    by apply elem_of_nil in H. }
  assert ("get_repo_readme" ∈ tool_names) as Hin.
  { rewrite tool_names_eq. do 2 (apply elem_of_cons; right).
    apply elem_of_cons. by left. }
  split.
  - exact (proj1 (call_tool_dispatch Sample.fallback (λ _, "library error")
                    "get_repo_issues"
                    {| arg_repo_url := Some Sample.url;
                       arg_max_depth := None |}) Hout).
  - exact (proj1 (proj2 (call_tool_dispatch Sample.fallback
                           (λ _, "library error") "get_repo_readme"
                           {| arg_repo_url := None;
                              arg_max_depth := None |})) Hin eq_refl).
Defined.

(** X18. [handle_call_tool] reports in band and never raises: it always
    returns one content of type [text]. A URL whose netloc is not the
    expected host makes every advertised tool answer
    ["Error: Invalid GitHub URL"], whatever the network would do; and the
    text of a README is passed on as it is, next to the error texts. *)
Theorem call_tool_in_band (w : World) (describe : exn → string)
    (name : string) (arguments : ToolArguments) :
  (∃ payload,
     handle_call_tool w describe name arguments
     = Ok [ {| tc_type := "text"; tc_text := payload |} ])
  ∧ (∀ repo_url parsed,
       name ∈ tool_names →
       arg_repo_url arguments = Some repo_url →
       urlparse w repo_url = Ok parsed →
       pr_netloc parsed ≠ "github.com" →
       handle_call_tool w describe name arguments
       = Ok [ {| tc_type := "text";
                 tc_text := Text "Error: Invalid GitHub URL" |} ])
  ∧ (∀ repo_url readme,
       name = "get_repo_readme" →
       arg_repo_url arguments = Some repo_url →
       get_repo_readme_tool w repo_url = Ok readme →
       handle_call_tool w describe name arguments
       = Ok [ {| tc_type := "text"; tc_text := Text readme |} ]).
Proof.
  split_and!.
  - unfold handle_call_tool.
    match goal with |- context [mbind _ ?R] => destruct R end; by eexists.
  - intros repo_url parsed Hname Hurl Hparse Hnet.
    assert (parse_github_url w repo_url
            = Raised (ValueError "Invalid GitHub URL")) as Hp.
    { rewrite (parse_github_url_unfold _ _ _ Hparse).
      by rewrite bool_decide_true. }
    unfold handle_call_tool, arguments_repo_url. rewrite Hurl.
    unfold get_repo_info, get_repo_structure_tool, get_repo_readme_tool,
      analyze_repo_dependencies.
    destruct (tool_name_cases name Hname) as [-> | [-> | [-> | ->] ] ];
      cbn [bool_decide decide_rel]; rewrite ?bind_Ok, Hp; reflexivity.
  - intros repo_url readme -> Hurl Hreadme.
    unfold handle_call_tool, arguments_repo_url. rewrite Hurl.
    rewrite !bool_decide_false by discriminate.
    rewrite bool_decide_true by done. by rewrite bind_Ok, Hreadme.
Qed.

Lemma call_tool_in_band_witness :
  handle_call_tool no_readme_world (λ _, "library error")
    "analyze_repo_dependencies"
    {| arg_repo_url := Some "https://gitlab.com/octocat/Hello-World";
       arg_max_depth := None |}
  = Ok [ {| tc_type := "text"; tc_text := Text "Error: Invalid GitHub URL" |} ]
  ∧ handle_call_tool Sample.fallback (λ _, "library error") "get_repo_readme"
      {| arg_repo_url := Some Sample.url; arg_max_depth := None |}
    = Ok [ {| tc_type := "text"; tc_text := Text "# Hello World" |} ].
Proof.
  split.
  - refine (proj1 (proj2 (call_tool_in_band no_readme_world
                            (λ _, "library error")
                            "analyze_repo_dependencies"
                            {| arg_repo_url :=
                                 Some "https://gitlab.com/octocat/Hello-World";
                               arg_max_depth := None |}))
              "https://gitlab.com/octocat/Hello-World"
              {| pr_scheme := "https"; pr_netloc := "gitlab.com";
                 pr_path := "/octocat/Hello-World"; pr_params := "";
                 pr_query := ""; pr_fragment := "" |}
              _ eq_refl eq_refl _).
    + rewrite tool_names_eq. do 3 (apply elem_of_cons; right).
      apply elem_of_cons. by left.
    + discriminate.
  - exact (proj2 (proj2 (call_tool_in_band Sample.fallback
                           (λ _, "library error") "get_repo_readme"
                           {| arg_repo_url := Some Sample.url;
                              arg_max_depth := None |}))
             Sample.url "# Hello World" eq_refl eq_refl eq_refl).
Defined.

(** ** Locator URLs through the model of [urlparse] *)

Lemma remove_chars_app p (s1 s2 : string) :
  Urllib.remove_chars p (s1 +:+ s2)
  = Urllib.remove_chars p s1 +:+ Urllib.remove_chars p s2.
Proof.
  induction s1 as [|c s1 IH]; [done|]. rewrite app_cons. simpl.
  destruct (p c); [done|]. by rewrite app_cons, IH.
Qed.

Lemma remove_chars_id p q s :
  (∀ c, q c = true → p c = false) →
  Urllib.all_chars q s = true → Urllib.remove_chars p s = s.
Proof.
  intros Hpq. induction s as [|c s IH]; simpl; [done|].
  intros [Hc Hs]%andb_true_iff. by rewrite (Hpq c Hc), IH.
Qed.

Lemma all_chars_contains p c s :
  p c = false → Urllib.all_chars p s = true → Str.contains c s = false.
Proof.
  intros Hc. induction s as [|d s IH]; simpl; [done|].
  intros [Hd Hs]%andb_true_iff. rewrite IH by done.
  rewrite bool_decide_false; [done|]. intros ->. congruence.
Qed.

Lemma all_chars_app p (s1 s2 : string) :
  Urllib.all_chars p (s1 +:+ s2)
  = Urllib.all_chars p s1 && Urllib.all_chars p s2.
Proof.
  induction s1 as [|c s1 IH]; [done|]. rewrite app_cons. simpl.
  by rewrite IH, andb_assoc.
Qed.

Lemma all_chars_impl (p q : ascii → bool) s :
  (∀ c, p c = true → q c = true) →
  Urllib.all_chars p s = true → Urllib.all_chars q s = true.
Proof.
  intros Hpq. induction s as [|c s IH]; simpl; [done|].
  intros [Hc Hs]%andb_true_iff. by rewrite (Hpq c Hc), IH.
Qed.

Lemma path_char_safe c : path_char c = true → Urllib.unsafe_byte c = false.
Proof.
  unfold path_char. intros H%negb_true_iff.
  by apply orb_false_iff in H as [_ ?].
Qed.

Lemma segment_char_path c : segment_char c = true → path_char c = true.
Proof.
  unfold segment_char, path_char.
  by destruct (bool_decide (c = "/"%char)), (bool_decide (c = "?"%char)),
    (bool_decide (c = "#"%char)), (bool_decide (c = ";"%char)),
    (Urllib.unsafe_byte c).
Qed.

(** The model of [urlparse] on an [https] URL of the expected host whose
    path has no query, fragment or parameters. *)
Lemma urlparse_github path :
  url_tail path →
  Urllib.urlparse ("https://github.com" +:+ path)
  = Ok (Sample.github_path path).
Proof.
  intros [Hstart Hall]. unfold Urllib.urlparse.
  assert (Str.lstrip_by Urllib.c0_control_or_space
            ("https://github.com" +:+ path)
          = "https://github.com" +:+ path) as -> by reflexivity.
  rewrite remove_chars_app, (remove_chars_id _ path_char path)
    by (done || apply path_char_safe).
  assert (Urllib.remove_chars Urllib.unsafe_byte "https://github.com"
          = "https://github.com") as -> by reflexivity.
  assert (Urllib.split_scheme ("https://github.com" +:+ path)
          = ("https", "//github.com" +:+ path)) as -> by reflexivity.
  match goal with
  | |- mbind _ ?X = _ =>
      assert (X = Ok ("github.com", path)) as ->
        by (destruct Hstart as [->|[r ->]]; reflexivity)
  end.
  rewrite bind_Ok.
  rewrite !(all_chars_contains path_char _ path) by done.
  by rewrite andb_false_r.
Qed.

Section Rstrip.
Variable p : ascii → bool.

Lemma rstrip_by_app (s1 s2 : string) :
  Str.rstrip_by p (s1 +:+ s2)
  = match Str.rstrip_by p s2 with
    | EmptyString => Str.rstrip_by p s1
    | r => s1 +:+ r
    end.
Proof.
  induction s1 as [|c s1 IH].
  - change ("" +:+ s2) with s2. by destruct (Str.rstrip_by p s2).
  - rewrite app_cons. simpl. rewrite IH.
    destruct (Str.rstrip_by p s2); [done|].
    rewrite !app_cons. by destruct s1.
Qed.

Lemma rstrip_by_app_id (s1 s2 : string) :
  Str.rstrip_by p s2 = s2 → s2 ≠ "" →
  Str.rstrip_by p (s1 +:+ s2) = s1 +:+ s2.
Proof.
  intros H Hne. rewrite rstrip_by_app, H. by destruct s2.
Qed.

Lemma rstrip_by_app_keep (s1 s2 : string) :
  Str.rstrip_by p s1 = s1 →
  Str.rstrip_by p (s1 +:+ s2) = s1 +:+ Str.rstrip_by p s2.
Proof.
  intros H. rewrite rstrip_by_app.
  destruct (Str.rstrip_by p s2); [|done].
  by rewrite H, string_app_empty_r.
Qed.

Lemma rstrip_by_id q s :
  (∀ c, q c = true → p c = false) →
  Urllib.all_chars q s = true → Str.rstrip_by p s = s.
Proof.
  intros Hpq. induction s as [|c s IH]; simpl; [done|].
  intros [Hc Hs]%andb_true_iff. rewrite IH by done.
  destruct s; [|done]. by rewrite (Hpq c Hc).
Qed.
End Rstrip.

(** X13. With [urlparse] as modelled, an [https] URL of the expected host
    that is written from an owner and a name is parsed back to exactly
    this pair, whether nothing, a slash or further segments follow the
    name. *)
Theorem locator_round_trip (w : World) (owner name tail : string) :
  urlparse w = Urllib.urlparse →
  segment owner →
  segment name →
  url_tail tail →
  parse_github_url w
    ("https://github.com/" +:+ owner +:+ "/" +:+ name +:+ tail)
  = Ok (owner, name).
Proof.
  intros Hw [Ho Hoc] [Hn Hnc] [Hstart Hall].
  pose (slash := λ d : ascii, bool_decide (d = "/"%char)).
  assert (∀ c, segment_char c = true → slash c = false) as Hseg.
  { intros c. unfold segment_char, slash.
    by destruct (bool_decide (c = "/"%char)). }
  assert (Str.count "/" owner = O) as Hoslash
    by (by apply (all_chars_count segment_char)).
  assert (Str.count "/" name = O) as Hnslash
    by (by apply (all_chars_count segment_char)).
  set (rest := owner +:+ String "/" (name +:+ tail)).
  assert (urlparse w ("https://github.com/" +:+ owner +:+ "/" +:+ name
                      +:+ tail)
          = Ok (Sample.github_path (String "/" rest))) as Hp.
  { rewrite Hw.
    change ("https://github.com/" +:+ owner +:+ "/" +:+ name +:+ tail)
      with ("https://github.com" +:+ String "/" rest).
    apply urlparse_github. split; [right; by eexists|].
    change (Urllib.all_chars path_char (String "/" rest))
      with (path_char "/" && Urllib.all_chars path_char rest).
    unfold rest. rewrite all_chars_app.
    change (Urllib.all_chars path_char (String "/" (name +:+ tail)))
      with (path_char "/" && Urllib.all_chars path_char (name +:+ tail)).
    rewrite all_chars_app, Hall.
    rewrite (all_chars_impl segment_char path_char owner),
      (all_chars_impl segment_char path_char name)
      by (done || apply segment_char_path).
    reflexivity. }
  rewrite (parse_github_url_unfold _ _ _ Hp).
  cbn [Sample.github_path pr_netloc pr_path].
  rewrite bool_decide_false by (by intros []).
  assert (Str.strip_char "/" (String "/" rest)
          = owner +:+ String "/" (name +:+ Str.rstrip_by slash tail)) as ->.
  { unfold Str.strip_char, Str.strip_by. fold slash.
    assert (Str.lstrip_by slash (String "/" rest) = rest) as ->.
    { unfold rest. destruct owner as [|c o]; [done|].
      rewrite app_cons. cbn [Str.lstrip_by].
      change (slash "/"%char) with true. cbn [Str.lstrip_by].
      rewrite Hseg; [done|].
      simpl in Hoc. by apply andb_true_iff in Hoc as [? _]. }
    unfold rest.
    replace (owner +:+ String "/" (name +:+ tail))
      with ((owner +:+ String "/" name) +:+ tail)
      by (by rewrite string_app_assoc, app_cons).
    rewrite rstrip_by_app_keep.
    - by rewrite string_app_assoc, app_cons.
    - replace (owner +:+ String "/" name) with ((owner +:+ "/") +:+ name)
        by (by rewrite string_app_assoc).
      apply rstrip_by_app_id; [|done].
      by apply (rstrip_by_id slash segment_char). }
  rewrite split_app_sep by done.
  destruct (Str.rstrip_by slash tail) as [|c r] eqn:Hu.
  - by rewrite string_app_empty_r, split_no_sep.
  - apply rstrip_by_first in Hu as [r' Hr'].
    destruct Hstart as [->|[t ->]]; [done|]. injection Hr' as <- _.
    by rewrite split_app_sep.
Qed.

Lemma locator_round_trip_witness :
  parse_github_url Sample.fallback
    "https://github.com/octocat/Hello-World/tree/master//"
  = Ok ("octocat", "Hello-World").
Proof.
  assert (segment "octocat") as Ho by (by split).
  assert (segment "Hello-World") as Hn by (by split).
  assert (url_tail "/tree/master//") as Ht
    by (split; [right; by eexists | reflexivity]).
  exact (locator_round_trip Sample.fallback "octocat" "Hello-World"
           "/tree/master//" eq_refl Ho Hn Ht).
Defined.

(** ** What a node of the tree carries *)


Lemma for_append_inv {A B} (f : A → result B) xs ys :
  for_append f xs = Ok ys → Forall2 (λ x y, f x = Ok y) xs ys.
Proof.
  revert ys. induction xs as [|x xs IH]; intros ys; simpl.
  - intros [= <-]. constructor.
  - destruct (f x) as [y|] eqn:Hy; [|done]. simpl.
    destruct (for_append f xs) as [ys'|]; [|done]. simpl.
    intros [= <-]. constructor; [done|]. by apply IH.
Qed.

Lemma tree_nodes_cons node t :
  tree_nodes (node :: t) = node_nodes node ++ tree_nodes t.
Proof. reflexivity. Qed.

Lemma _build_structure_tree_well_formed repo_obj max_depth (n : nat) :
  ∀ current_depth contents t,
    Z.to_nat (max_depth - current_depth) = n →
    _build_structure_tree contents repo_obj max_depth current_depth = Ok t →
    Forall well_formed_node (tree_nodes t).
Proof.
  induction n as [|n IH]; intros cd contents t Hn;
    rewrite _build_structure_tree_eq; unfold _build_structure_tree_body.
  - assert ((cd >=? max_depth) = true) as -> by lia. by intros [= <-].
  - assert ((cd >=? max_depth) = false) as -> by lia.
    destruct (iter_contents contents) as [entries|]; [|done].
    rewrite bind_Ok. intros Hall%for_append_inv.
    induction Hall as [|content node entries t Hnode _ IHall];
      [constructor|].
    rewrite tree_nodes_cons. apply Forall_app. split; [|done].
    destruct (_build_structure_tree_item_spec
                (λ sub depth,
                   _build_structure_tree sub repo_obj max_depth depth)
                repo_obj max_depth cd content)
      as (node' & Hnode' & (_ & Htype & _) & Hsize & Hch).
    rewrite Hnode in Hnode'. injection Hnode' as <-.
    rewrite node_nodes_eq. constructor.
    + split.
      * intros Hfile. rewrite Hsize, bool_decide_false; [done|].
        by rewrite <- Htype.
      * rewrite Hch, Htype.
        destruct (bool_decide_reflect (cf_type content = "dir")) as [Hd|Hd];
          [by intros _ | by intros [? ?]].
    + rewrite Hch. destruct (_ && _); [|constructor].
      destruct (repo_get_contents repo_obj (cf_path content)) as [sub|];
        [|constructor].
      rewrite bind_Ok.
      destruct (_build_structure_tree sub repo_obj max_depth (cd + 1))
        as [children|] eqn:Hsub; [|constructor].
      apply (IH (cd + 1) sub children); [lia|done].
Qed.

Lemma _build_structure_tree_api_well_formed w owner repo max_depth (n : nat) :
  ∀ current_depth contents t,
    Z.to_nat (max_depth - current_depth) = n →
    _build_structure_tree_api w contents owner repo max_depth current_depth
    = Ok t →
    Forall well_formed_node (tree_nodes t).
Proof.
  induction n as [|n IH]; intros cd contents t Hn;
    rewrite _build_structure_tree_api_eq;
    unfold _build_structure_tree_api_body.
  - assert ((cd >=? max_depth) = true) as -> by lia. by intros [= <-].
  - assert ((cd >=? max_depth) = false) as -> by lia.
    destruct (iter_body contents) as [entries|]; [|done].
    rewrite bind_Ok. intros Hall%for_append_inv.
    induction Hall as [|content node entries t Hnode _ IHall];
      [constructor|].
    rewrite tree_nodes_cons. apply Forall_app. split; [|done].
    destruct (_build_structure_tree_api_item_spec
                (λ sub depth,
                   _build_structure_tree_api w sub owner repo max_depth
                     depth)
                w owner repo max_depth cd content)
      as (node' & Hnode' & (_ & Htype & _) & Hsize & Hch).
    rewrite Hnode in Hnode'. injection Hnode' as <-.
    rewrite node_nodes_eq. constructor.
    + split.
      * intros Hfile. rewrite Hsize, bool_decide_false; [done|].
        by rewrite <- Htype.
      * rewrite Hch, Htype.
        destruct (bool_decide_reflect (e_type content = "dir")) as [Hd|Hd];
          [by intros _ | by intros [? ?]].
    + rewrite Hch. destruct (_ && _); [|constructor].
      destruct (requests_get w _) as [response|]; [|constructor].
      rewrite bind_Ok. destruct (_ =? 200); [|constructor].
      destruct (json response) as [sub|]; [|constructor].
      rewrite bind_Ok.
      destruct (_build_structure_tree_api w sub owner repo max_depth
                  (cd + 1)) as [children|] eqn:Hsub; [|constructor].
      apply (IH (cd + 1) sub children); [lia|done].
Qed.

(** X8. In every tree that [get_repository_structure] returns, on either
    access path and at every level, only a node of type [file] carries a
    size and only a node of type [dir] carries the key [children]. *)
Theorem structure_nodes_well_formed (w : World) (owner repo : string)
    (max_depth : Z) (t : list TreeNode) :
  get_repository_structure w owner repo max_depth = Ok t →
  Forall well_formed_node (tree_nodes t).
Proof.
  unfold get_repository_structure.
  destruct (github_client w) as [client|].
  - destruct (get_repo client _) as [repo_obj|]; [|done].
    rewrite bind_Ok.
    destruct (repo_get_contents repo_obj "") as [contents|]; [|done].
    rewrite bind_Ok. intros H.
    apply (_build_structure_tree_well_formed repo_obj max_depth
             (Z.to_nat (max_depth - 0)) 0 contents); [reflexivity|].
    destruct (_build_structure_tree contents repo_obj max_depth 0);
      simpl in H; congruence.
  - destruct (requests_get w _) as [response|]; [|done].
    rewrite bind_Ok.
    destruct (raise_for_status response); [|done].
    rewrite bind_Ok.
    destruct (json response) as [contents|]; [|done].
    rewrite bind_Ok. intros H.
    apply (_build_structure_tree_api_well_formed w owner repo max_depth
             (Z.to_nat (max_depth - 0)) 0 contents); [reflexivity|].
    destruct (_build_structure_tree_api w contents owner repo max_depth 0);
      simpl in H; congruence.
Qed.

Lemma structure_nodes_well_formed_witness :
  ∃ t, get_repository_structure Sample.fallback "octocat" "Hello-World" 3
       = Ok t
       ∧ length (tree_nodes t) = 7%nat
       ∧ Forall well_formed_node (tree_nodes t).
Proof.
  assert (∃ t, get_repository_structure Sample.fallback "octocat"
                 "Hello-World" 3 = Ok t) as [t Ht]
    by (eexists; reflexivity).
  exists t. split; [exact Ht|]. split.
  - assert (Ok (length (tree_nodes t)) = Ok 7%nat :> result nat) as Hlen
      by (change (Ok (length (tree_nodes t)))
            with ((λ t, length (tree_nodes t)) <$> Ok t);
          rewrite <- Ht; reflexivity).
    by injection Hlen.
  - exact (structure_nodes_well_formed Sample.fallback "octocat"
             "Hello-World" 3 t Ht).
Defined.

(** ** What [handle_read_resource] can do *)

Lemma dict_update_cases i_pair (d : gmap string string) :
  (∃ d', dict_update i_pair d = Ok d')
  ∨ (∃ msg, dict_update i_pair d = Raised (ValueError msg)).
Proof.
  unfold dict_update.
  destruct (i_pair.2) as [|k [|v [|x rest]]]; (by left; eexists)
    || (by right; eexists).
Qed.

Lemma dict_for_state_cases l (d : gmap string string) :
  (∃ d', for_state dict_update l d = Ok d')
  ∨ (∃ msg, for_state dict_update l d = Raised (ValueError msg)).
Proof.
  revert d. induction l as [|x l IH]; intros d; simpl; [by left; eexists|].
  destruct (dict_update_cases x d) as [[d' ->]|[msg ->]]; simpl;
    [apply IH | by right; eexists].
Qed.

Lemma index_last {A} (l : list A) :
  l ≠ [] → ∃ x, index l (length l - 1) = Ok x.
Proof.
  intros Hl. unfold index.
  destruct (l !! (length l - 1)%nat) as [x|] eqn:E; [by eexists|].
  apply lookup_ge_None in E. destruct l; [done|]. simpl in E. lia.
Qed.

(** X16. [handle_read_resource] has two outcomes only: it raises
    [ValueError] before any fetch, or it is one of the three fetchers
    run on an owner and a repository name that are both non-empty. *)
Theorem read_resource_shape (w : World) (uri : string) :
  (∃ msg, handle_read_resource w uri = Raised (ValueError msg))
  ∨ (∃ owner repo,
       owner ≠ "" ∧ repo ≠ ""
       ∧ (handle_read_resource w uri
          = (MetadataJson <$> get_repository_metadata w owner repo)
          ∨ handle_read_resource w uri
            = (Text <$> get_repository_readme w owner repo)
          ∨ handle_read_resource w uri
            = (StructureJson <$> get_repository_structure w owner repo 3))).
Proof.
  unfold handle_read_resource.
  destruct (String.prefix _ uri); [|by left; eexists].
  destruct (Str.split "?" uri) as [|head [|query [|x parts]]];
    try (by left; eexists).
  cbn [length Nat.eqb negb index lookup list_lookup]. rewrite !bind_Ok.
  destruct (index_last (Str.split "/" head) (split_nonempty _ _))
    as [action ->].
  rewrite bind_Ok. unfold dict_of_pairs.
  destruct (dict_for_state_cases
              (imap (λ i pair, (i, pair))
                 (Str.split "=" <$> Str.split "&" query)) ∅)
    as [[params ->]|[msg ->]]; [|by left; eexists].
  rewrite bind_Ok.
  destruct (params !! "owner") as [owner|]; [|by left; eexists].
  destruct (params !! "repo") as [repo|];
    [|left; eexists; by rewrite orb_true_r].
  unfold missing, Str.truthy.
  destruct (decide (owner = "")) as [->|Ho]; [by left; eexists|].
  destruct (decide (repo = "")) as [->|Hr].
  { left. eexists. by rewrite orb_true_r. }
  rewrite !bool_decide_false by done. cbn [negb orb default].
  repeat case_bool_decide; try (by left; eexists);
    right; exists owner, repo; auto.
Qed.
